(** * S3 file manager: the Lambda request handler

    A shallow embedding of [lambda_function.py]: Basic authentication
    against a cached user directory, key normalisation, and the routing of
    a request envelope to one storage operation.

    Conventions.
    - A Python [str] is a list of Unicode code points ([str := list N]);
      a Python [bytes] is a list of [byte].
    - Calls to the two boto3 clients are the nodes of a finite program
      tree ([prog]); an environment answers them, and every call is logged.
    - The module-level variable [_cached_users] is threaded explicitly.
    - A Python exception is a value of [exn]; code that may raise returns
      an [outcome]. *)

From Stdlib Require Import NArith ZArith Ascii String DecimalString.
From Stdlib.Strings Require Import Byte.
From stdpp Require Import base option list gmap.

Set Default Proof Using "Type".

(** * Part I: the model *)

(** ** Python values *)

Abbreviation str := (list N).
Abbreviation bytes := (list byte).

(** A string literal of the source, character by character. *)
Definition lit (s : string) : str :=
  map N_of_ascii (list_ascii_of_string s).
Arguments lit s%_string.

(** The double quote, [chr(34)]. *)
Definition dq : str := [34%N].

(** [s == t] on strings. *)
Definition str_eqb (s t : str) : bool := bool_decide (s = t).

(** [not s]: only the empty string is falsy. *)
Definition falsy (s : str) : bool :=
  match s with [] => true | _ => false end.

(** [not x] for [x] a string or [None], as returned by [dict.get]. *)
Definition not_ (x : option str) : bool :=
  match x with None => true | Some s => falsy s end.

(** [s.startswith(p)] *)
Fixpoint startswith (s p : str) {struct p} : bool :=
  match p with
  | [] => true
  | c :: p' =>
      match s with
      | [] => false
      | d :: s' => N.eqb d c && startswith s' p'
      end
  end.

(** [s.endswith(p)] *)
Definition endswith (s p : str) : bool := startswith (rev s) (rev p).

(** [c in s] for a single character [c]. *)
Definition contains (c : N) (s : str) : bool := existsb (N.eqb c) s.

(** [s.replace(old, new, 1)]: the leftmost occurrence only. *)
Fixpoint replace1 (old new s : str) : str :=
  if startswith s old then new ++ drop (length old) s
  else match s with
       | [] => []
       | c :: s' => c :: replace1 old new s'
       end.

(** [s.split(sep, 1)] for a one-character separator: at most two pieces. *)
Fixpoint split1 (sep : N) (s : str) : list str :=
  match s with
  | [] => [[]]
  | c :: s' =>
      if N.eqb c sep then [[]; s']
      else match split1 sep s' with
           | h :: t => (c :: h) :: t
           | [] => [[c]]
           end
  end.

(** ** Key normalisation *)

Definition normalize_key (folder filename : str) : str :=
  if startswith filename folder then filename else folder ++ filename.

(** ** Exceptions *)

(** A raised exception: its class, as far as a handler of the source tells
    classes apart, and [str(e)]. *)
Inductive exn : Type :=
| NoSuchKey (msg : str)      (* s3.exceptions.NoSuchKey *)
| ValueError (msg : str)
| BinasciiError (msg : str)  (* binascii.Error *)
| IndexError (msg : str)
| UnicodeDecodeError (msg : str)
| ClientError (msg : str).   (* any other failure of a boto3 call *)

Definition str_exn (e : exn) : str :=
  match e with
  | NoSuchKey m | ValueError m | BinasciiError m | IndexError m
  | UnicodeDecodeError m | ClientError m => m
  end.

Inductive outcome (A : Type) : Type :=
| Return (a : A)
| Raise (e : exn).
Arguments Return {A} a.
Arguments Raise {A} e.

(** ** Bytes *)

(** The byte of an integer, as a C [unsigned char] assignment truncates. *)
Definition byte_of_N (n : N) : byte :=
  default x00 (Byte.of_N (n mod 256)).

(** ** base64 (module [base64] over [binascii], CPython 3.11) *)

Definition b64_alphabet : str :=
  lit "ABCDEFGHIJKLMNOPQRSTUVWXYZabcdefghijklmnopqrstuvwxyz0123456789+/".

(** [table_b2a_base64] *)
Definition b64_char (i : N) : N := nth (N.to_nat i) b64_alphabet 0%N.

Definition b64_pad : N := 61%N.

(** [table_a2b_base64]: the value of an alphabet character. *)
Definition b64_value (c : N) : option N :=
  if (65 <=? c)%N && (c <=? 90)%N then Some (c - 65)%N
  else if (97 <=? c)%N && (c <=? 122)%N then Some (c - 71)%N
  else if (48 <=? c)%N && (c <=? 57)%N then Some (c + 4)%N
  else if (c =? 43)%N then Some 62%N
  else if (c =? 47)%N then Some 63%N
  else None.

(** The four sextets of a group of three bytes. *)
Definition sextet0 (b0 : byte) : N := N.shiftr (Byte.to_N b0) 2.
Definition sextet1 (b0 b1 : byte) : N :=
  N.lor (N.shiftl (N.land (Byte.to_N b0) 3) 4) (N.shiftr (Byte.to_N b1) 4).
Definition sextet2 (b1 b2 : byte) : N :=
  N.lor (N.shiftl (N.land (Byte.to_N b1) 15) 2) (N.shiftr (Byte.to_N b2) 6).
Definition sextet3 (b2 : byte) : N := N.land (Byte.to_N b2) 63.

(** [base64.b64encode(data).decode()]: the encoded bytes are ASCII, so the
    decoding maps each of them to the code point of the same value. *)
Fixpoint b64encode (data : bytes) : str :=
  match data with
  | [] => []
  | [b0] =>
      [b64_char (sextet0 b0); b64_char (sextet1 b0 x00); b64_pad; b64_pad]
  | [b0; b1] =>
      [b64_char (sextet0 b0); b64_char (sextet1 b0 b1);
       b64_char (sextet2 b1 x00); b64_pad]
  | b0 :: b1 :: b2 :: rest =>
      b64_char (sextet0 b0) :: b64_char (sextet1 b0 b1)
      :: b64_char (sextet2 b1 b2) :: b64_char (sextet3 b2) :: b64encode rest
  end.

(** The decimal numeral of a number, as [%zd] prints it. *)
Definition decimal (n : N) : str :=
  lit (NilZero.string_of_uint (N.to_uint n)).

(** [binascii.a2b_base64(data)] with [strict_mode] off: characters outside
    the alphabet are skipped, a pad completing a group ends the input, an
    incomplete last group is an error. [out] is the output written so far. *)
Fixpoint a2b_base64_loop (data : str) (quad_pos : nat) (leftchar : N)
    (pads : nat) (out : bytes) : outcome bytes :=
  match data with
  | [] =>
      match quad_pos with
      | 0 => Return out
      | 1 =>
          Raise (BinasciiError
            (lit "Invalid base64-encoded string: number of data characters ("
             ++ decimal (N.of_nat (length out) / 3 * 4 + 1)
             ++ lit ") cannot be 1 more than a multiple of 4"))
      | _ => Raise (BinasciiError (lit "Incorrect padding"))
      end
  | this_ch :: rest =>
      if (this_ch =? b64_pad)%N then
        if (2 <=? quad_pos) && (4 <=? quad_pos + S pads) then Return out
        else a2b_base64_loop rest quad_pos leftchar
               (if 2 <=? quad_pos then S pads else pads) out
      else
        match b64_value this_ch with
        | None => a2b_base64_loop rest quad_pos leftchar pads out
        | Some v =>
            match quad_pos with
            | 0 => a2b_base64_loop rest 1 v 0 out
            | 1 =>
                a2b_base64_loop rest 2 (N.land v 15) 0
                  (out ++ [byte_of_N (N.lor (N.shiftl leftchar 2) (N.shiftr v 4))])
            | 2 =>
                a2b_base64_loop rest 3 (N.land v 3) 0
                  (out ++ [byte_of_N (N.lor (N.shiftl leftchar 4) (N.shiftr v 2))])
            | _ =>
                a2b_base64_loop rest 0 0%N 0
                  (out ++ [byte_of_N (N.lor (N.shiftl leftchar 6) v)])
            end
        end
  end.

(** [base64.b64decode(s)] for a [str] argument: the string is first encoded
    as ASCII, which fails on any other character. *)
Definition b64decode (s : str) : outcome bytes :=
  if forallb (fun c => (c <? 128)%N) s then a2b_base64_loop s 0 0%N 0 []
  else Raise (ValueError
                (lit "string argument should contain only ASCII characters")).

(** ** UTF-8 ([str.encode()] and [bytes.decode()], both strict) *)

Definition is_surrogate (c : N) : bool := (55296 <=? c)%N && (c <? 57344)%N.

(** The encoding of one code point; surrogates and values past U+10FFFF
    have none. *)
Definition utf8_encode_char (c : N) : option bytes :=
  if (c <? 128)%N then Some [byte_of_N c]
  else if (c <? 2048)%N then
    Some [byte_of_N (192 + c / 64); byte_of_N (128 + c mod 64)]
  else if (c <? 65536)%N then
    if is_surrogate c then None
    else Some [byte_of_N (224 + c / 4096); byte_of_N (128 + c / 64 mod 64);
               byte_of_N (128 + c mod 64)]
  else if (c <? 1114112)%N then
    Some [byte_of_N (240 + c / 262144); byte_of_N (128 + c / 4096 mod 64);
          byte_of_N (128 + c / 64 mod 64); byte_of_N (128 + c mod 64)]
  else None.

(** [s.encode()]; [None] stands for [UnicodeEncodeError]. *)
Fixpoint utf8_encode (s : str) : option bytes :=
  match s with
  | [] => Some []
  | c :: s' =>
      match utf8_encode_char c, utf8_encode s' with
      | Some bs, Some rest => Some (bs ++ rest)
      | _, _ => None
      end
  end.

(** A continuation byte, [10xxxxxx]. *)
Definition is_cont (b : byte) : bool :=
  (128 <=? Byte.to_N b)%N && (Byte.to_N b <? 192)%N.

Definition cont_bits (b : byte) : N := (Byte.to_N b - 128)%N.

(** [data.decode()]; [None] stands for [UnicodeDecodeError]. Overlong
    forms, surrogates and values past U+10FFFF are rejected. *)
Fixpoint utf8_decode (data : bytes) : option str :=
  match data with
  | [] => Some []
  | b0 :: rest =>
      let n0 := Byte.to_N b0 in
      if (n0 <? 128)%N then cons n0 <$> utf8_decode rest
      else if (n0 <? 194)%N then None
      else if (n0 <? 224)%N then
        match rest with
        | b1 :: rest1 =>
            if is_cont b1
            then cons ((n0 - 192) * 64 + cont_bits b1)%N <$> utf8_decode rest1
            else None
        | _ => None
        end
      else if (n0 <? 240)%N then
        match rest with
        | b1 :: b2 :: rest2 =>
            let c := ((n0 - 224) * 4096 + cont_bits b1 * 64 + cont_bits b2)%N in
            if is_cont b1 && is_cont b2 && (2048 <=? c)%N && negb (is_surrogate c)
            then cons c <$> utf8_decode rest2
            else None
        | _ => None
        end
      else if (n0 <? 245)%N then
        match rest with
        | b1 :: b2 :: b3 :: rest3 =>
            let c := ((n0 - 240) * 262144 + cont_bits b1 * 4096
                      + cont_bits b2 * 64 + cont_bits b3)%N in
            if is_cont b1 && is_cont b2 && is_cont b3
               && (65536 <=? c)%N && (c <? 1114112)%N
            then cons c <$> utf8_decode rest3
            else None
        | _ => None
        end
      else None
  end.

(** ** json.dumps (default options: [ensure_ascii], separators [", "] and [": "]) *)

Definition hex_digit (n : N) : N :=
  if (n <? 10)%N then (48 + n)%N else (87 + n)%N.

(** ['\\u{0:04x}'.format(n)] *)
Definition u_escape (n : N) : str :=
  lit "\u" ++ [hex_digit (n / 4096 mod 16); hex_digit (n / 256 mod 16);
               hex_digit (n / 16 mod 16); hex_digit (n mod 16)].

Definition json_escape_char (c : N) : str :=
  if (c =? 34)%N then lit "\" ++ dq
  else if (c =? 92)%N then lit "\\"
  else if (c =? 10)%N then lit "\n"
  else if (c =? 13)%N then lit "\r"
  else if (c =? 9)%N then lit "\t"
  else if (c =? 12)%N then lit "\f"
  else if (c =? 8)%N then lit "\b"
  else if (32 <=? c)%N && (c <=? 126)%N then [c]
  else if (c <? 65536)%N then u_escape c
  else
    let n := (c - 65536)%N in
    u_escape (N.lor 55296 (N.land (N.shiftr n 10) 1023))
    ++ u_escape (N.lor 56320 (N.land n 1023)).

(** [json.dumps(s)] for a string. *)
Definition json_dumps_str (s : str) : str :=
  dq ++ concat (map json_escape_char s) ++ dq.

(** [", ".join(items)] *)
Fixpoint join_comma (items : list str) : str :=
  match items with
  | [] => []
  | [x] => x
  | x :: rest => x ++ lit ", " ++ join_comma rest
  end.

(** [json.dumps(l)] for a list of strings. *)
Definition json_dumps_list (l : list str) : str :=
  lit "[" ++ join_comma (map json_dumps_str l) ++ lit "]".

(** [json.dumps({"error": msg})] *)
Definition json_dumps_error (msg : str) : str :=
  lit "{" ++ json_dumps_str (lit "error") ++ lit ": " ++ json_dumps_str msg
  ++ lit "}".

(** ** The collaborators: secret store and object storage *)

(** One entry of the user directory. *)
Record user_record := { password : str; root_folder : str }.

(** What [list_objects_v2] returns, as far as the handler reads it: the
    keys of ["Contents"] and the prefixes of ["CommonPrefixes"], each
    absent or present. *)
Record list_response := {
  Contents : option (list str);
  CommonPrefixes : option (list str)
}.

(** The calls the handler makes through its two boto3 clients. *)
Inductive call : Type :=
| GetSecretValue (SecretId : str)
| PutObject (Bucket Key : str) (Body : bytes)
| GetObject (Bucket Key : str)
| ListObjectsV2 (Bucket Prefix : str) (Delimiter : option str)
| DeleteObject (Bucket Key : str)
| DeleteObjects (Bucket : str) (Keys : list str).

(** What a call gives back: a value, or an exception. [GetSecretValue]
    stands for the fetch together with [json.loads] of the secret string;
    [GetObject] for the fetch together with [obj["Body"].read()]. *)
Definition value (c : call) : Type :=
  match c with
  | GetSecretValue _ => gmap str user_record
  | PutObject _ _ _ => unit
  | GetObject _ _ => bytes
  | ListObjectsV2 _ _ _ => list_response
  | DeleteObject _ _ => unit
  | DeleteObjects _ _ => unit
  end.

Definition is_s3_call (c : call) : bool :=
  match c with GetSecretValue _ => false | _ => true end.

Definition is_delete_call (c : call) : bool :=
  match c with DeleteObject _ _ | DeleteObjects _ _ => true | _ => false end.

(** A program: a finite tree of calls, each continued by its reply. *)
Inductive prog (A : Type) : Type :=
| Ret (a : A)
| Vis (c : call) (k : outcome (value c) -> prog A).
Arguments Ret {A} a.
Arguments Vis {A} c k.

Fixpoint prog_bind {A B} (p : prog A) (f : A -> prog B) : prog B :=
  match p with
  | Ret a => f a
  | Vis c k => Vis c (fun r => prog_bind (k r) f)
  end.

(** An environment answers calls from a state of its own. *)
Record Env := {
  env_state : Type;
  env_reply : forall c : call, env_state -> outcome (value c) * env_state
}.

(** Running a program: its result, the final state of the environment and
    the calls made, in order. *)
Fixpoint run (E : Env) {A} (p : prog A) (s : env_state E)
    : A * env_state E * list call :=
  match p with
  | Ret a => (a, s, [])
  | Vis c k =>
      let '(r, s1) := env_reply E c s in
      let '(a, s2, log) := run E (k r) s1 in
      (a, s2, c :: log)
  end.

(** ** Python code as a monad

    A computation reads and writes the global [_cached_users], makes calls,
    and returns or raises. *)
Definition py (A : Type) : Type :=
  option (gmap str user_record) ->
  prog (outcome A * option (gmap str user_record)).

Definition ret {A} (a : A) : py A := fun g => Ret (Return a, g).

Definition raise {A} (e : exn) : py A := fun g => Ret (Raise e, g).

Definition bind {A B} (m : py A) (f : A -> py B) : py B :=
  fun g =>
    prog_bind (m g) (fun '(r, g1) =>
      match r with
      | Return a => f a g1
      | Raise e => Ret (Raise e, g1)
      end).

Notation "'let*' x ':=' m 'in' k" := (bind m (fun x => k))
  (at level 10, x pattern, m at level 200, k at level 200).

(** A pure computation that may raise. *)
Definition lift {A} (o : outcome A) : py A := fun g => Ret (o, g).

(** [try: m except Exception as e: h(e)] *)
Definition try_except {A} (m : py A) (h : exn -> py A) : py A :=
  fun g =>
    prog_bind (m g) (fun '(r, g1) =>
      match r with
      | Return a => Ret (Return a, g1)
      | Raise e => h e g1
      end).

(** A call to a client. *)
Definition perform (c : call) : py (value c) :=
  fun g => Vis c (fun r => Ret (r, g)).

Definition read_cached_users : py (option (gmap str user_record)) :=
  fun g => Ret (Return g, g).

Definition write_cached_users (u : gmap str user_record) : py unit :=
  fun _ => Ret (Return tt, Some u).

(** ** Configuration *)

Definition BUCKET_NAME : str := lit "<YOUR_BUCKET_NAME>".
Definition SECRET_NAME : str := lit "<YOUR_SECRET_NAME>".

Definition CORS_HEADERS : list (str * str) :=
  [ (lit "Access-Control-Allow-Origin", lit "*");
    (lit "Access-Control-Allow-Methods", lit "GET, PUT, DELETE, OPTIONS");
    (lit "Access-Control-Allow-Headers", lit "Content-Type");
    (lit "Access-Control-Expose-Headers", lit "*") ].

(** ** Authentication *)

(** [if d:] for a dictionary held in a variable that starts as [None]. *)
Definition truthy_users (g : option (gmap str user_record)) : bool :=
  match g with
  | None => false
  | Some u => negb (bool_decide (u = ∅))
  end.

Definition get_users : py (gmap str user_record) :=
  let* cached := read_cached_users in
  if truthy_users cached then ret (default ∅ cached)
  else
    let* loaded := perform (GetSecretValue SECRET_NAME) in
    let* _ := write_cached_users loaded in
    ret loaded.

(** The request envelope. A missing key of the event is [None]. *)
Record Event := {
  httpMethod : option str;
  path : option str;
  queryStringParameters : option (gmap str str);
  headers : option (gmap str str);
  body : option str
}.

(** The body of the [try] block of [authenticate]: the user name and the
    password carried by a header value that starts with ["Basic "]. *)
Definition basic_credentials (auth : str) : outcome (str * str) :=
  match split1 32%N auth with
  | _ :: encoded :: _ =>
      match b64decode encoded with
      | Raise e => Raise e
      | Return data =>
          match utf8_decode data with
          | None => Raise (UnicodeDecodeError (lit "'utf-8' codec can't decode"))
          | Some raw =>
              match split1 58%N raw with
              | [username; password] => Return (username, password)
              | _ => Raise (ValueError
                       (lit "not enough values to unpack (expected 2, got 1)"))
              end
          end
      end
  | _ => Raise (IndexError (lit "list index out of range"))
  end.

(** [authenticate(event)]. [None] is the source's [(None, None)]; the
    only other value it returns is a pair of two strings. *)
Definition authenticate (event : Event) : py (option (str * str)) :=
  let hdrs := default ∅ (headers event) in
  let auth := hdrs !! lit "Authorization" in
  if not_ auth || negb (startswith (default [] auth) (lit "Basic ")) then ret None
  else
    match basic_credentials (default [] auth) with
    | Raise _ => ret None
    | Return (username, pass) =>
        let* users := get_users in
        match users !! username with
        | Some u =>
            if str_eqb (password u) pass
            then ret (Some (username, root_folder u))
            else ret None
        | None => ret None
        end
    end.

(** ** Responses *)

Record Response := {
  statusCode : Z;
  resp_headers : list (str * str);
  resp_body : str;
  isBase64Encoded : bool
}.

(** The [body] argument of [response]: a string, or bytes to be sent as
    base64. The source passes [is_base64=True] exactly with bytes. *)
Inductive payload : Type :=
| Text (s : str)
| Binary (b : bytes).

Definition response (status_code : Z) (body : payload)
    (content_type : option str) : Response :=
  {| statusCode := status_code;
     resp_headers :=
       CORS_HEADERS
       ++ (if not_ content_type then []
           else [(lit "Content-Type", default [] content_type)]);
     resp_body := match body with Text s => s | Binary b => b64encode b end;
     isBase64Encoded := match body with Text _ => false | Binary _ => true end |}.

Definition json_type : option str := Some (lit "application/json").

(** [response(status, json.dumps({"error": msg}), content_type="application/json")] *)
Definition error_response (status_code : Z) (msg : str) : Response :=
  response status_code (Text (json_dumps_error msg)) json_type.

(** ** The operations *)

(** The fields of the event that the handler reads. *)
Definition method_of (event : Event) : str := default [] (httpMethod event).
Definition path_of (event : Event) : str := default [] (path event).
Definition filename_of (event : Event) : option str :=
  default ∅ (queryStringParameters event) !! lit "filename".
Definition prefix_of (event : Event) : option str :=
  default ∅ (queryStringParameters event) !! lit "prefix".

(** The string held by a query parameter that a guard found truthy. *)
Definition val (x : option str) : str := default [] x.

(** The loop of the list-files operation over the listed keys. *)
Fixpoint list_files_loop (folder : str) (prefix : option str)
    (contents : list str) : list str :=
  match contents with
  | [] => []
  | obj_key :: rest =>
      let key := replace1 folder [] obj_key in
      (if not_ prefix then
         if negb (contains 47%N key) then [key] else []
       else
         let subpath := drop (length (val prefix)) key in
         if negb (falsy subpath) && negb (contains 47%N subpath)
         then [subpath] else [])
      ++ list_files_loop folder prefix rest
  end.

(** Upload file / create folder. *)
Definition upload_file (event : Event) (folder : str) (filename : option str)
    : py Response :=
  if not_ filename then ret (error_response 400 (lit "Missing filename"))
  else
    let filename := val filename in
    let* file_content := lift (b64decode (default [] (body event))) in
    let key := normalize_key folder filename in
    let file_content :=
      if endswith filename (lit "/") && bool_decide (file_content = [])
      then [x20] else file_content in
    let* _ := perform (PutObject BUCKET_NAME key file_content) in
    let msg :=
      if endswith filename (lit "/")
      then lit "Folder " ++ dq ++ filename ++ dq ++ lit " created"
      else lit "File " ++ dq ++ filename ++ dq ++ lit " uploaded" in
    ret (response 200 (Text msg) None).

(** Download file. Only [NoSuchKey] is caught here. *)
Definition download_file (folder filename : str) : py Response :=
  let key := normalize_key folder filename in
  fun g =>
    Vis (GetObject BUCKET_NAME key) (fun r =>
      match r with
      | Return data =>
          Ret (Return (response 200 (Binary data)
                         (Some (lit "application/octet-stream"))), g)
      | Raise (NoSuchKey _) =>
          Ret (Return (error_response 404 (lit "File not found")), g)
      | Raise e => Ret (Raise e, g)
      end).

(** List folders. *)
Definition list_folders (folder : str) : py Response :=
  let* resp := perform (ListObjectsV2 BUCKET_NAME folder (Some (lit "/"))) in
  let folders :=
    map (replace1 folder []) (default [] (CommonPrefixes resp)) in
  ret (response 200 (Text (json_dumps_list folders)) json_type).

(** List files. *)
Definition list_files (folder : str) (prefix : option str) : py Response :=
  let search_prefix :=
    normalize_key folder (if not_ prefix then [] else val prefix) in
  let* resp := perform (ListObjectsV2 BUCKET_NAME search_prefix None) in
  let files := list_files_loop folder prefix (default [] (Contents resp)) in
  ret (response 200 (Text (json_dumps_list files)) json_type).

(** The [zipfile] module as the handler uses it, on an archive kept in
    memory. [writestr zf written name data] is [zf.writestr(name, data)] on
    an archive that holds the entries [written]: it returns or it raises
    (CPython 3.11 raises [IndexError] on an empty name, for one).
    [archive_bytes zf entries] is what the buffer holds once the [with]
    block has been left with the entries [entries] written. *)
Record ZipFile := {
  writestr : list (str * bytes) -> str -> bytes -> outcome unit;
  archive_bytes : list (str * bytes) -> bytes
}.

Section Handler.

Variable zip_archive : ZipFile.

(** The loop of the folder download: each listed object is fetched and
    written to the archive, under its key with the first [folder] removed,
    before the next one is fetched. [written] holds the entries written so
    far. *)
Fixpoint fetch_entries (folder : str) (keys : list str)
    (written : list (str * bytes)) : py (list (str * bytes)) :=
  match keys with
  | [] => ret written
  | key :: rest =>
      let* file_data := perform (GetObject BUCKET_NAME key) in
      let name := replace1 folder [] key in
      let* _ := lift (writestr zip_archive written name file_data) in
      fetch_entries folder rest (written ++ [(name, file_data)])
  end.

(** Download folder as zip. *)
Definition download_folder (folder prefix : str) : py Response :=
  let* resp :=
    perform (ListObjectsV2 BUCKET_NAME (normalize_key folder prefix) None) in
  let* entries := fetch_entries folder (default [] (Contents resp)) [] in
  ret (response 200 (Binary (archive_bytes zip_archive entries))
         (Some (lit "application/zip"))).

(** Delete file. *)
Definition delete_file (folder filename : str) : py Response :=
  let key := normalize_key folder filename in
  try_except
    (let* _ := perform (DeleteObject BUCKET_NAME key) in
     ret (response 200
            (Text (lit "File " ++ dq ++ filename ++ dq ++ lit " deleted")) None))
    (fun e => ret (error_response 500 (str_exn e))).

(** Delete folder. *)
Definition delete_folder (folder prefix : str) : py Response :=
  let* resp :=
    perform (ListObjectsV2 BUCKET_NAME (normalize_key folder prefix) None) in
  let deleted :=
    lit "Folder " ++ dq ++ prefix ++ dq ++ lit " deleted" in
  match Contents resp with
  | Some keys =>
      try_except
        (let* _ := perform (DeleteObjects BUCKET_NAME keys) in
         ret (response 200 (Text deleted) None))
        (fun e => ret (error_response 500 (str_exn e)))
  | None => ret (response 200 (Text deleted) None)
  end.

Definition unsupported_operation : Response :=
  error_response 405 (lit "Unsupported operation").

(** The [if]/[elif] chain of [lambda_handler] after authentication. *)
Definition operation (event : Event) (folder : str) : py Response :=
  let method := method_of event in
  let path := path_of event in
  let filename := filename_of event in
  let prefix := prefix_of event in
  if endswith path (lit "/put") && str_eqb method (lit "PUT")
  then upload_file event folder filename
  else if endswith path (lit "/get") && str_eqb method (lit "GET")
          && negb (not_ filename)
  then download_file folder (val filename)
  else if endswith path (lit "/list") && str_eqb method (lit "GET")
  then list_folders folder
  else if endswith path (lit "/list-files") && str_eqb method (lit "GET")
  then list_files folder prefix
  else if endswith path (lit "/download-folder") && str_eqb method (lit "GET")
          && negb (not_ prefix)
  then download_folder folder (val prefix)
  else if endswith path (lit "/delete") && str_eqb method (lit "DELETE")
          && negb (not_ filename)
  then delete_file folder (val filename)
  else if endswith path (lit "/delete-folder") && str_eqb method (lit "DELETE")
          && negb (not_ prefix)
  then delete_folder folder (val prefix)
  else ret unsupported_operation.

Definition lambda_handler (event : Event) : py Response :=
  try_except
    (let method := method_of event in
     if str_eqb method (lit "OPTIONS") then ret (response 200 (Text []) None)
     else
       let* auth := authenticate event in
       match auth with
       | None => ret (error_response 401 (lit "Unauthorized"))
       | Some (user, folder) =>
           if falsy user then ret (error_response 401 (lit "Unauthorized"))
           else operation event folder
       end)
    (fun e => ret (error_response 500 (str_exn e))).

End Handler.

(** ** An ideal store

    A world in which the collaborators keep their contracts and never
    fail: the secret store holds one user directory, the bucket is a map
    from keys to contents. How the bucket lists its keys (order, page
    size, roll-up under a delimiter) is left to the world. *)
Record World := {
  secret : gmap str user_record;
  bucket : gmap str bytes;
  lister : gmap str bytes -> str -> option str -> list_response
}.

Definition set_bucket (w : World) (b : gmap str bytes) : World :=
  {| secret := secret w; bucket := b; lister := lister w |}.

(** What [str(e)] is for the error of a [get_object] on a missing key. *)
Definition no_such_key : exn :=
  NoSuchKey
    (lit "An error occurred (NoSuchKey) when calling the GetObject operation: "
     ++ lit "The specified key does not exist.").

Definition world_reply (c : call) (w : World) : outcome (value c) * World :=
  match c with
  | GetSecretValue _ => (Return (secret w), w)
  | PutObject _ key content => (Return tt, set_bucket w (<[key := content]> (bucket w)))
  | GetObject _ key =>
      (match bucket w !! key with
       | Some content => Return content
       | None => Raise no_such_key
       end, w)
  | ListObjectsV2 _ prefix delimiter =>
      (Return (lister w (bucket w) prefix delimiter), w)
  | DeleteObject _ key => (Return tt, set_bucket w (delete key (bucket w)))
  | DeleteObjects _ keys =>
      (Return tt, set_bucket w (foldr delete (bucket w) keys))
  end.

Definition ideal : Env := {| env_state := World; env_reply := world_reply |}.

(** ** Vocabulary of the statements *)

(** The value of the [Authorization] header, if any. *)
Definition authorization (event : Event) : option str :=
  default ∅ (headers event) !! lit "Authorization".

(** A request is authenticated when it is no preflight request and
    [authenticate] returns a user whose name the handler accepts. *)
Definition authenticated (E : Env) (event : Event) g s (folder : str) g1 s1 l
    : Prop :=
  method_of event <> lit "OPTIONS"
  /\ exists user,
       user <> []
       /\ run E (authenticate event g) s
          = ((Return (Some (user, folder)), g1), s1, l).

(** What the outer [try]/[except] makes of the outcome of an operation. *)
Definition caught (r : outcome Response) : Response :=
  match r with
  | Return resp => resp
  | Raise e => error_response 500 (str_exn e)
  end.

(** The parameter whose presence a route asks for in its guard. *)
Inductive required : Type := NoParam | Filename | Prefix.

(** The routing surface: method, path suffix and guarded parameter of the
    seven operations behind the authentication. *)
Definition routing_table : list (string * string * required) :=
  [ ("PUT", "/put", NoParam); ("GET", "/get", Filename);
    ("GET", "/list", NoParam); ("GET", "/list-files", NoParam);
    ("GET", "/download-folder", Prefix); ("DELETE", "/delete", Filename);
    ("DELETE", "/delete-folder", Prefix) ]%string.

Definition matches (event : Event) (row : string * string * required) : bool :=
  let '(m, suffix, req) := row in
  endswith (path_of event) (lit suffix) && str_eqb (method_of event) (lit m)
  && match req with
     | NoParam => true
     | Filename => negb (not_ (filename_of event))
     | Prefix => negb (not_ (prefix_of event))
     end.

(** The handler answers a request by running [op] after the
    authentication, under the outer [try]/[except]. *)
Definition answered_by (zip_archive : ZipFile) (E : Env)
    (event : Event) g s g1 s1 l (op : py Response) : Prop :=
  run E (lambda_handler zip_archive event g) s =
  let '((r, g2), s2, l2) := run E (op g1) s1 in
  ((Return (caught r), g2), s2, l ++ l2).

(** The object that an upload stores for the decoded body [content]. *)
Definition stored (filename : str) (content : bytes) : bytes :=
  if endswith filename (lit "/") && bool_decide (content = [])
  then [x20] else content.

Definition uploaded_message (filename : str) : str :=
  if endswith filename (lit "/")
  then lit "Folder " ++ dq ++ filename ++ dq ++ lit " created"
  else lit "File " ++ dq ++ filename ++ dq ++ lit " uploaded".

(** The names kept by the list-files operation, written as a filter over
    the keys with the folder stripped. *)
Definition top_level_names (folder : str) (keys : list str) : list str :=
  List.filter (fun name => negb (contains 47%N name))
    (map (drop (length folder)) keys).

(** The remainder of [s] after stripping the prefix [p]. *)
Definition strip_prefix (p s : str) : str :=
  if startswith s p then drop (length p) s else s.

Definition children_names (folder p : str) (keys : list str) : list str :=
  List.filter (fun rest => negb (falsy rest) && negb (contains 47%N rest))
    (map (fun key => strip_prefix p (drop (length folder) key)) keys).

Definition octet_stream : option str := Some (lit "application/octet-stream").

(** A sequence of authentication attempts within one process. *)
Fixpoint authenticate_all (events : list Event)
    : py (list (option (str * str))) :=
  match events with
  | [] => ret []
  | event :: rest =>
      let* r := authenticate event in
      let* rs := authenticate_all rest in
      ret (r :: rs)
  end.

(** Requests served one after the other by one process. *)
Fixpoint serve (zip_archive : ZipFile)
    (events : list Event) : py (list Response) :=
  match events with
  | [] => ret []
  | event :: rest =>
      let* r := lambda_handler zip_archive event in
      let* rs := serve zip_archive rest in
      ret (r :: rs)
  end.

(** ** Scenarios *)

Definition no_listing : gmap str bytes -> str -> option str -> list_response :=
  fun _ _ _ => {| Contents := None; CommonPrefixes := None |}.

(** A world with the single user [alice], rooted at [alice/]. *)
Definition alice_world : World :=
  {| secret := {[ lit "alice" :=
                    {| password := lit "wonderland"; root_folder := lit "alice/" |} ]};
     bucket := ∅;
     lister := no_listing |}.

(** The headers of a request carrying [Authorization: Basic base64(raw)]. *)
Definition basic_auth (raw : string) : option (gmap str str) :=
  Some {[ lit "Authorization" :=
            lit "Basic " ++ b64encode (default [] (utf8_encode (lit raw))) ]}.

Definition request (method pth : string) (params : list (str * str))
    (hdrs : option (gmap str str)) (content : option str) : Event :=
  {| httpMethod := Some (lit method);
     path := Some (lit pth);
     queryStringParameters := Some (list_to_map params);
     headers := hdrs;
     body := content |}.

(** A directory whose only user name contains a colon. *)
Definition colon_world : World :=
  {| secret := {[ lit "a:b" :=
                    {| password := lit "c"; root_folder := lit "ab/" |} ]};
     bucket := ∅;
     lister := no_listing |}.

(** A world whose secret holds no user at all. *)
Definition empty_world : World :=
  {| secret := ∅; bucket := ∅; lister := no_listing |}.

(** An archive writer that accepts every entry. *)
Definition no_zip : ZipFile :=
  {| writestr := fun _ _ _ => Return tt; archive_bytes := fun _ => [] |}.

Definition alice : option (gmap str str) := basic_auth "alice:wonderland".

Definition alice_cache : option (gmap str user_record) :=
  Some (secret alice_world).

(** A store that lists, among [keys], those under the prefix asked for. *)
Definition lister_of (keys : list str)
    : gmap str bytes -> str -> option str -> list_response :=
  fun _ prefix _ =>
    let found := List.filter (fun key => startswith key prefix) keys in
    {| Contents := match found with [] => None | _ => Some found end;
       CommonPrefixes := None |}.

Definition alice_keys : list str :=
  [lit "alice/"; lit "alice/sub/"; lit "alice/sub/a.txt";
   lit "alice/sub/deep/b.txt"; lit "alice/top.txt"].

Definition alice_files : World :=
  {| secret := secret alice_world;
     bucket := list_to_map (map (fun key => (key, [x20])) alice_keys);
     lister := lister_of alice_keys |}.

Definition put_doc : Event :=
  request "PUT" "/api/put" [(lit "filename", lit "doc.txt")] alice
    (Some (lit "aGk=")).
Definition get_doc : Event :=
  request "GET" "/api/get" [(lit "filename", lit "doc.txt")] alice None.

Definition alice_with_doc : World :=
  set_bucket alice_world (<[lit "alice/doc.txt" := [x68; x69]]> ∅).

Definition put_folder : Event :=
  request "PUT" "/api/put" [(lit "filename", lit "docs/")] alice
    (Some (b64encode [])).
Definition get_folder : Event :=
  request "GET" "/api/get" [(lit "filename", lit "docs/")] alice None.

Definition put_without_filename : Event :=
  request "PUT" "/api/put" [] alice (Some (lit "aGk=")).
Definition get_without_filename : Event :=
  request "GET" "/api/get" [] alice None.
Definition delete_without_filename : Event :=
  request "DELETE" "/api/delete" [] alice None.

Definition put_anywhere : Event :=
  request "PUT" "/anything/put" [(lit "filename", lit "doc.txt")] alice
    (Some (lit "aGk=")).

Definition delete_sub : Event :=
  request "DELETE" "/api/delete-folder" [(lit "prefix", lit "sub/")] alice None.
Definition delete_empty_prefix : Event :=
  request "DELETE" "/api/delete-folder" [(lit "prefix", [])] alice None.

Definition put_empty_file : Event :=
  request "PUT" "/api/put" [(lit "filename", lit "empty.txt")] alice None.
Definition put_empty_name : Event :=
  request "PUT" "/api/put" [(lit "filename", [])] alice None.

Definition list_sub : Event :=
  request "GET" "/api/list-files" [(lit "prefix", lit "sub/")] alice None.
Definition list_empty_prefix : Event :=
  request "GET" "/api/list-files" [(lit "prefix", [])] alice None.
Definition list_sub_by_key : Event :=
  request "GET" "/api/list-files" [(lit "prefix", lit "alice/sub/")] alice None.

(** ** Enumerations used by the proofs *)

Definition all_bytes : list byte := map byte_of_N (map N.of_nat (seq 0 256)).

Definition sextet_ok (i : N) : bool :=
  negb (b64_char i =? b64_pad)%N
  && match b64_value (b64_char i) with Some v => (v =? i)%N | None => false end
  && (b64_char i <? 128)%N.

(** ** Vocabulary of the further properties *)

(** The status codes the handler answers with. *)
Definition statuses : list Z := [200; 400; 401; 404; 405; 500]%Z.

(** A response as the handler builds them: the status is one of the
    handler's, the headers start with the CORS headers, and an answer
    other than 200 is an error response. *)
Definition well_formed (r : Response) : Prop :=
  In (statusCode r) statuses
  /\ (exists extra, resp_headers r = CORS_HEADERS ++ extra)
  /\ (statusCode r = 200%Z \/ exists st msg, r = error_response st msg).

(** The calls that change the bucket. *)
Definition is_write (c : call) : bool :=
  match c with
  | PutObject _ _ _ | DeleteObject _ _ | DeleteObjects _ _ => true
  | _ => false
  end.

(** A storage call addressed under [folder], as far as the handler itself
    chooses the key: the key of a put and of a single delete and the
    prefix of a listing start with [folder]. The keys of a get and of a
    batch delete may come from a listing and are not looked at. *)
Definition addressed (folder : str) (c : call) : bool :=
  match c with
  | GetSecretValue _ => false
  | PutObject _ key _ => startswith key folder
  | DeleteObject _ key => startswith key folder
  | ListObjectsV2 _ prefix _ => startswith prefix folder
  | GetObject _ _ => true
  | DeleteObjects _ _ => true
  end.

Definition reads_under (folder : str) (c : call) : bool :=
  addressed folder c && negb (is_write c).

(** A computation that leaves the global [_cached_users] as it is, makes
    only calls allowed by [C], and returns only values in [Q]. *)
Definition keeps {A} (C : call -> bool) (Q : A -> Prop) (m : py A) : Prop :=
  forall (E : Env) g (s : env_state E),
    (run E (m g) s).1.1.2 = g
    /\ Forall (fun c => C c = true) (run E (m g) s).2
    /\ match (run E (m g) s).1.1.1 with
       | Return a => Q a
       | Raise _ => True
       end.

(** The entries of the archive for the listed keys, in the ideal world. *)
Definition archive_entries (folder : str) (b : gmap str bytes)
    (keys : list str) : list (str * bytes) :=
  map (fun key => (replace1 folder [] key, default [] (b !! key))) keys.

(** The archive, holding [written], takes the [entries] one after the
    other: each [writestr] returns. *)
Fixpoint accepts (zf : ZipFile) (written entries : list (str * bytes))
    : Prop :=
  match entries with
  | [] => True
  | (name, data) :: rest =>
      writestr zf written name data = Return tt
      /\ accepts zf (written ++ [(name, data)]) rest
  end.

(** An archive writer that refuses an empty name, as CPython 3.11 does. *)
Definition strict_zip : ZipFile :=
  {| writestr := fun _ name _ =>
       if falsy name then Raise (IndexError (lit "string index out of range"))
       else Return tt;
     archive_bytes := fun _ => [] |}.

(** A secret store that is out of reach, and a bucket that answers every
    call with the same failure. *)
Definition outage_error : exn := ClientError (lit "Could not connect to the endpoint URL").

Definition outage : Env :=
  {| env_state := unit; env_reply := fun c s => (Raise outage_error, s) |}.

(** A directory whose only user has the empty name. *)
Definition nameless_world : World :=
  {| secret := {[ [] := {| password := lit "pw"; root_folder := lit "root/" |} ]};
     bucket := ∅;
     lister := no_listing |}.

Definition options_request : Event :=
  request "OPTIONS" "/api/put" [(lit "filename", lit "doc.txt")] None None.

Definition delete_doc : Event :=
  request "DELETE" "/api/delete" [(lit "filename", lit "doc.txt")] alice None.

Definition put_malformed : Event :=
  request "PUT" "/api/put" [(lit "filename", lit "doc.txt")] alice
    (Some (lit "aGk")).

Definition list_folders_request : Event :=
  request "GET" "/api/list" [] alice None.

Definition download_sub : Event :=
  request "GET" "/api/download-folder" [(lit "prefix", lit "sub/")] alice None.

Definition nameless_request : Event :=
  request "GET" "/api/list" [] (basic_auth ":pw") None.

(** Alice's world when the bucket answers every call with a failure. *)
Definition broken_bucket : Env :=
  {| env_state := unit;
     env_reply := fun c s =>
       (match c return outcome (value c) with
        | GetSecretValue _ => Return (secret alice_world)
        | _ => Raise outage_error
        end, s) |}.

(** Alice's world when the listing names folders. *)
Definition alice_folders : World :=
  {| secret := secret alice_world;
     bucket := bucket alice_world;
     lister := fun _ _ _ =>
       {| Contents := Some [lit "alice/top.txt"];
          CommonPrefixes := Some [lit "alice/docs/"; lit "alice/sub/"] |} |}.

(** Alice's world when the listing names objects that are gone. *)
Definition stale_listing : World :=
  {| secret := secret alice_world;
     bucket := ∅;
     lister := lister_of alice_keys |}.

Definition sub_keys : list str :=
  [lit "alice/sub/"; lit "alice/sub/a.txt"; lit "alice/sub/deep/b.txt"].

(** Alice's world when the listing names, after the folder marker, objects
    that are gone. *)
Definition partly_stale : World :=
  {| secret := secret alice_world;
     bucket := {[ lit "alice/sub/" := [x20] ]};
     lister := lister_of alice_keys |}.

(** The download of the whole of Alice's folder, asked for by its key. *)
Definition download_root : Event :=
  request "GET" "/api/download-folder" [(lit "prefix", lit "alice/")] alice None.

(** * Part II: properties *)

(** ** Strings: basic facts *)

Lemma startswith_app (p t : str) : startswith (p ++ t) p = true.
Proof.
  induction p as [|c p IH]; simpl; [reflexivity|].
  rewrite N.eqb_refl. exact IH.
Qed.

Lemma startswith_inv (s p : str) :
  startswith s p = true -> s = p ++ drop (length p) s.
Proof.
  revert s. induction p as [|c p IH]; intros s; simpl.
  - intros _. reflexivity.
  - destruct s as [|d s]; [discriminate|].
    intros H. apply andb_prop in H as [Hd Hs].
    apply N.eqb_eq in Hd. subst d. simpl. f_equal. apply IH, Hs.
Qed.

Lemma startswith_iff (s p : str) :
  startswith s p = true <-> exists t, s = p ++ t.
Proof.
  split.
  - intros H. eexists. apply startswith_inv, H.
  - intros [t ->]. apply startswith_app.
Qed.

Lemma endswith_iff (s p : str) :
  endswith s p = true <-> exists t, s = t ++ p.
Proof.
  unfold endswith. rewrite startswith_iff. split.
  - intros [t H]. exists (rev t).
    rewrite <- (rev_involutive s), H, rev_app_distr, rev_involutive.
    reflexivity.
  - intros [t ->]. exists (rev t). apply rev_app_distr.
Qed.

(** C6. [normalize_key] is idempotent in its file-name argument: for every
    folder and every name, normalising an already normalised key returns
    it unchanged, where [normalize_key folder name] is [name] when [name]
    starts with [folder] and [folder ++ name] otherwise. *)
Theorem normalize_key_idempotent (folder name : str) :
  normalize_key folder (normalize_key folder name) = normalize_key folder name
  /\ normalize_key folder name
     = (if startswith name folder then name else folder ++ name).
Proof.
  split; [|reflexivity].
  unfold normalize_key.
  destruct (startswith name folder) eqn:E.
  - rewrite E. reflexivity.
  - rewrite startswith_app. reflexivity.
Qed.

(** ** The library models on known values *)

Example b64encode_hi : b64encode [x68; x69] = lit "aGk=".
Proof. reflexivity. Qed.

Example b64decode_hi : b64decode (lit "aGk=") = Return [x68; x69].
Proof. reflexivity. Qed.

(** Characters outside the alphabet are skipped, and what follows a
    completed pad is not read. *)
Example b64decode_lenient :
  b64decode (lit " a G k==zz") = Return [x68; x69].
Proof. reflexivity. Qed.

Example b64decode_incomplete :
  b64decode (lit "aGk") = Raise (BinasciiError (lit "Incorrect padding")).
Proof. reflexivity. Qed.

Example utf8_encode_sample :
  utf8_encode [104; 233; 8364; 128512]%N
  = Some [x68; xc3; xa9; xe2; x82; xac; xf0; x9f; x98; x80].
Proof. reflexivity. Qed.

Example utf8_decode_sample :
  utf8_decode [x68; xc3; xa9; xe2; x82; xac; xf0; x9f; x98; x80]
  = Some [104; 233; 8364; 128512]%N.
Proof. reflexivity. Qed.

(** An overlong form, a surrogate, a stray byte and a truncated sequence. *)
Example utf8_decode_rejects :
  utf8_decode [xc0; x80] = None /\ utf8_decode [xed; xa0; x80] = None
  /\ utf8_decode [xff] = None /\ utf8_decode [xe2; x82] = None.
Proof. repeat split; reflexivity. Qed.

Example json_dumps_error_sample :
  json_dumps_error (lit "File not found")
  = lit "{" ++ dq ++ lit "error" ++ dq ++ lit ": " ++ dq
    ++ lit "File not found" ++ dq ++ lit "}".
Proof. reflexivity. Qed.

(** ** base64: decoding inverts encoding *)

Lemma byte_of_to_N (b : byte) : byte_of_N (Byte.to_N b) = b.
Proof.
  unfold byte_of_N.
  rewrite N.mod_small by (pose proof (Byte.to_N_bounded b); lia).
  rewrite Byte.of_to_N. reflexivity.
Qed.

Lemma all_bytes_complete (b : byte) : In b all_bytes.
Proof.
  rewrite <- (byte_of_to_N b). unfold all_bytes.
  apply in_map, in_map_iff. exists (N.to_nat (Byte.to_N b)). split.
  - apply N2Nat.id.
  - apply in_seq. pose proof (Byte.to_N_bounded b). lia.
Qed.

(** A decidable property of one byte, or of two, holds of all once it has
    been checked on [all_bytes]. *)
Lemma forall_byte (P : byte -> bool) :
  forallb P all_bytes = true -> forall b, P b = true.
Proof.
  intros H b. rewrite forallb_forall in H. apply H, all_bytes_complete.
Qed.

Lemma forall_byte2 (P : byte -> byte -> bool) :
  forallb (fun a => forallb (P a) all_bytes) all_bytes = true ->
  forall a b, P a b = true.
Proof.
  intros H a b.
  apply (forall_byte (P a)), (forall_byte (fun a => forallb (P a) all_bytes)), H.
Qed.

Lemma forall_sextet (P : N -> bool) :
  forallb P (map N.of_nat (seq 0 64)) = true ->
  forall i, (i < 64)%N -> P i = true.
Proof.
  intros H i Hi. rewrite forallb_forall in H. apply H.
  apply in_map_iff. exists (N.to_nat i). split; [apply N2Nat.id|].
  apply in_seq. lia.
Qed.

Lemma sextet_ok_lt (i : N) : (i < 64)%N -> sextet_ok i = true.
Proof. apply forall_sextet. vm_compute. reflexivity. Qed.

Lemma b64_char_not_pad (i : N) : (i < 64)%N -> (b64_char i =? b64_pad)%N = false.
Proof.
  intros H. apply sextet_ok_lt in H. unfold sextet_ok in H.
  destruct (b64_char i =? b64_pad)%N; [discriminate | reflexivity].
Qed.

Lemma b64_value_char (i : N) : (i < 64)%N -> b64_value (b64_char i) = Some i.
Proof.
  intros H. apply sextet_ok_lt in H. unfold sextet_ok in H.
  apply andb_prop in H as [H _]. apply andb_prop in H as [_ H].
  destruct (b64_value (b64_char i)) as [v|]; [|discriminate].
  apply N.eqb_eq in H. congruence.
Qed.

Lemma b64_char_ascii (i : N) : (i < 64)%N -> (b64_char i <? 128)%N = true.
Proof.
  intros H. apply sextet_ok_lt in H. unfold sextet_ok in H.
  apply andb_prop in H as [_ H]. exact H.
Qed.

Lemma sextet0_lt b0 : (sextet0 b0 < 64)%N.
Proof.
  apply N.ltb_lt. revert b0. apply forall_byte. vm_compute. reflexivity.
Qed.

Lemma sextet1_lt b0 b1 : (sextet1 b0 b1 < 64)%N.
Proof.
  apply N.ltb_lt. revert b0 b1.
  apply (forall_byte2 (fun b0 b1 => (sextet1 b0 b1 <? 64)%N)).
  vm_compute. reflexivity.
Qed.

Lemma sextet2_lt b1 b2 : (sextet2 b1 b2 < 64)%N.
Proof.
  apply N.ltb_lt. revert b1 b2.
  apply (forall_byte2 (fun b1 b2 => (sextet2 b1 b2 <? 64)%N)).
  vm_compute. reflexivity.
Qed.

Lemma sextet3_lt b2 : (sextet3 b2 < 64)%N.
Proof.
  apply N.ltb_lt. revert b2. apply forall_byte. vm_compute. reflexivity.
Qed.

(** The three bytes recovered from the four sextets, as the decoder
    computes them. *)
Lemma decode_byte0 b0 b1 :
  byte_of_N (N.lor (N.shiftl (sextet0 b0) 2) (N.shiftr (sextet1 b0 b1) 4)) = b0.
Proof.
  apply Byte.byte_dec_bl. revert b0 b1.
  apply (forall_byte2 (fun b0 b1 =>
    Byte.eqb (byte_of_N (N.lor (N.shiftl (sextet0 b0) 2)
                               (N.shiftr (sextet1 b0 b1) 4))) b0)).
  vm_compute. reflexivity.
Qed.

Lemma decode_byte1 b0 b1 b2 :
  byte_of_N (N.lor (N.shiftl (N.land (sextet1 b0 b1) 15) 4)
                   (N.shiftr (sextet2 b1 b2) 2)) = b1.
Proof.
  assert (E : N.land (sextet1 b0 b1) 15 = N.shiftr (Byte.to_N b1) 4).
  { apply N.eqb_eq. revert b0 b1.
    apply (forall_byte2 (fun b0 b1 =>
      (N.land (sextet1 b0 b1) 15 =? N.shiftr (Byte.to_N b1) 4)%N)).
    vm_compute. reflexivity. }
  rewrite E. clear E. apply Byte.byte_dec_bl. revert b1 b2.
  apply (forall_byte2 (fun b1 b2 =>
    Byte.eqb (byte_of_N (N.lor (N.shiftl (N.shiftr (Byte.to_N b1) 4) 4)
                               (N.shiftr (sextet2 b1 b2) 2))) b1)).
  vm_compute. reflexivity.
Qed.

Lemma decode_byte2 b1 b2 :
  byte_of_N (N.lor (N.shiftl (N.land (sextet2 b1 b2) 3) 6) (sextet3 b2)) = b2.
Proof.
  apply Byte.byte_dec_bl. revert b1 b2.
  apply (forall_byte2 (fun b1 b2 =>
    Byte.eqb (byte_of_N (N.lor (N.shiftl (N.land (sextet2 b1 b2) 3) 6)
                               (sextet3 b2))) b2)).
  vm_compute. reflexivity.
Qed.

(** One step of the decoder on an alphabet character. *)
Lemma a2b_base64_step (i : N) rest q lc pads out :
  (i < 64)%N ->
  a2b_base64_loop (b64_char i :: rest) q lc pads out =
  match q with
  | 0 => a2b_base64_loop rest 1 i 0 out
  | 1 => a2b_base64_loop rest 2 (N.land i 15) 0
           (out ++ [byte_of_N (N.lor (N.shiftl lc 2) (N.shiftr i 4))])
  | 2 => a2b_base64_loop rest 3 (N.land i 3) 0
           (out ++ [byte_of_N (N.lor (N.shiftl lc 4) (N.shiftr i 2))])
  | _ => a2b_base64_loop rest 0 0%N 0
           (out ++ [byte_of_N (N.lor (N.shiftl lc 6) i)])
  end.
Proof.
  intros Hi. cbn [a2b_base64_loop].
  rewrite (b64_char_not_pad i Hi), (b64_value_char i Hi). reflexivity.
Qed.

(** Induction on a list three elements at a time. *)
Lemma list_ind3 {A} (P : list A -> Prop) :
  P [] -> (forall a, P [a]) -> (forall a b, P [a; b]) ->
  (forall a b c l, P l -> P (a :: b :: c :: l)) ->
  forall l, P l.
Proof.
  intros H0 H1 H2 H3.
  fix IH 1.
  intros [|a [|b [|c l]]]; [exact H0 | apply H1 | apply H2 | apply H3, IH].
Qed.

Lemma a2b_base64_encode (data : bytes) : forall lc pads out,
  a2b_base64_loop (b64encode data) 0 lc pads out = Return (out ++ data).
Proof.
  induction data as [|b0|b0 b1|b0 b1 b2 data IH] using list_ind3;
    intros lc pads out.
  - simpl. rewrite app_nil_r. reflexivity.
  - cbn [b64encode].
    rewrite (a2b_base64_step _ _ 0) by apply sextet0_lt.
    rewrite (a2b_base64_step _ _ 1) by apply sextet1_lt.
    rewrite decode_byte0. reflexivity.
  - cbn [b64encode].
    rewrite (a2b_base64_step _ _ 0) by apply sextet0_lt.
    rewrite (a2b_base64_step _ _ 1) by apply sextet1_lt.
    rewrite (a2b_base64_step _ _ 2) by apply sextet2_lt.
    rewrite decode_byte0, decode_byte1.
    cbn [a2b_base64_loop].
    rewrite <- app_assoc. reflexivity.
  - cbn [b64encode].
    rewrite (a2b_base64_step _ _ 0) by apply sextet0_lt.
    rewrite (a2b_base64_step _ _ 1) by apply sextet1_lt.
    rewrite (a2b_base64_step _ _ 2) by apply sextet2_lt.
    rewrite (a2b_base64_step _ _ 3) by apply sextet3_lt.
    rewrite decode_byte0, decode_byte1, decode_byte2, IH.
    rewrite <- !app_assoc. reflexivity.
Qed.

Lemma b64encode_ascii (data : bytes) :
  forallb (fun c => (c <? 128)%N) (b64encode data) = true.
Proof.
  induction data as [|b0|b0 b1|b0 b1 b2 data IH] using list_ind3;
    cbn [b64encode forallb];
    rewrite ?b64_char_ascii
      by first [apply sextet0_lt | apply sextet1_lt
               | apply sextet2_lt | apply sextet3_lt];
    try reflexivity.
  exact IH.
Qed.

Lemma b64decode_b64encode (data : bytes) :
  b64decode (b64encode data) = Return data.
Proof.
  unfold b64decode. rewrite b64encode_ascii. apply a2b_base64_encode.
Qed.

(** ** UTF-8: decoding inverts encoding *)

Lemma to_N_byte_of_N (n : N) : (n < 256)%N -> Byte.to_N (byte_of_N n) = n.
Proof.
  intros H. unfold byte_of_N. rewrite N.mod_small by exact H.
  destruct (Byte.of_N n) as [b|] eqn:E.
  - apply Byte.to_of_N in E. exact E.
  - apply Byte.of_N_None_iff in E. lia.
Qed.

(** Division and remainder by constants, for [lia]. *)
Ltac Zify.zify_post_hook ::= Z.to_euclidean_division_equations.

Ltac split_ltb :=
  repeat match goal with
         | |- context [(?a <? ?b)%N] =>
             destruct (N.ltb_spec a b); try lia
         | |- context [(?a <=? ?b)%N] =>
             destruct (N.leb_spec a b); try lia
         end.

Lemma utf8_decode_char (c : N) (bs rest : bytes) :
  utf8_encode_char c = Some bs ->
  utf8_decode (bs ++ rest) = cons c <$> utf8_decode rest.
Proof.
  unfold utf8_encode_char, is_surrogate.
  destruct (N.ltb_spec c 128); [|destruct (N.ltb_spec c 2048);
    [|destruct (N.ltb_spec c 65536); [|destruct (N.ltb_spec c 1114112)]]].
  - intros [= <-]. cbn [app utf8_decode].
    rewrite to_N_byte_of_N by lia. split_ltb. reflexivity.
  - intros [= <-]. cbn [app utf8_decode]. unfold is_cont, cont_bits.
    rewrite !to_N_byte_of_N by lia. split_ltb. cbn [andb].
    do 2 f_equal. lia.
  - destruct (N.leb_spec 55296 c); destruct (N.ltb_spec c 57344);
      cbn [andb]; try discriminate;
      intros [= <-]; cbn [app utf8_decode]; unfold is_cont, cont_bits, is_surrogate;
      rewrite !to_N_byte_of_N by lia;
      replace ((224 + c / 4096 - 224) * 4096 + (128 + c / 64 mod 64 - 128) * 64
               + (128 + c mod 64 - 128))%N with c by lia;
      split_ltb; cbn [andb negb]; reflexivity.
  - intros [= <-]. cbn [app utf8_decode]. unfold is_cont, cont_bits.
    rewrite !to_N_byte_of_N by lia.
    replace ((240 + c / 262144 - 240) * 262144 + (128 + c / 4096 mod 64 - 128) * 4096
             + (128 + c / 64 mod 64 - 128) * 64 + (128 + c mod 64 - 128))%N
      with c by lia.
    split_ltb. cbn [andb]. reflexivity.
  - discriminate.
Qed.

Lemma utf8_decode_encode (s : str) (data : bytes) :
  utf8_encode s = Some data -> utf8_decode data = Some s.
Proof.
  revert data. induction s as [|c s IH]; intros data; cbn [utf8_encode].
  - intros [= <-]. reflexivity.
  - destruct (utf8_encode_char c) as [bs|] eqn:Ec; [|discriminate].
    destruct (utf8_encode s) as [rest|]; [|discriminate].
    intros [= <-]. rewrite (utf8_decode_char c bs rest Ec), (IH rest eq_refl).
    reflexivity.
Qed.

(** ** Running monadic code *)

Lemma run_prog_bind (E : Env) {A B} (p : prog A) (f : A -> prog B) s :
  run E (prog_bind p f) s =
  let '(a, s1, l1) := run E p s in
  let '(b, s2, l2) := run E (f a) s1 in
  (b, s2, l1 ++ l2).
Proof.
  revert s. induction p as [a|c k IH]; intros s; cbn [prog_bind run].
  - destruct (run E (f a) s) as [[b s2] l2]. reflexivity.
  - destruct (env_reply E c s) as [r s1]. rewrite IH.
    destruct (run E (k r) s1) as [[a s2] l1].
    destruct (run E (f a) s2) as [[b s3] l2]. reflexivity.
Qed.

Lemma run_bind (E : Env) {A B} (m : py A) (f : A -> py B) g s :
  run E (bind m f g) s =
  match run E (m g) s with
  | ((Return a, g1), s1, l1) =>
      let '(x, s2, l2) := run E (f a g1) s1 in (x, s2, l1 ++ l2)
  | ((Raise e, g1), s1, l1) => ((Raise e, g1), s1, l1)
  end.
Proof.
  unfold bind. rewrite run_prog_bind.
  destruct (run E (m g) s) as [[[[a|e] g1] s1] l1]; cbn [run].
  - reflexivity.
  - rewrite app_nil_r. reflexivity.
Qed.

Lemma run_try_except (E : Env) {A} (m : py A) (h : exn -> py A) g s :
  run E (try_except m h g) s =
  match run E (m g) s with
  | ((Return a, g1), s1, l1) => ((Return a, g1), s1, l1)
  | ((Raise e, g1), s1, l1) =>
      let '(x, s2, l2) := run E (h e g1) s1 in (x, s2, l1 ++ l2)
  end.
Proof.
  unfold try_except. rewrite run_prog_bind.
  destruct (run E (m g) s) as [[[[a|e] g1] s1] l1]; cbn [run].
  - rewrite app_nil_r. reflexivity.
  - reflexivity.
Qed.

Lemma run_perform (E : Env) (c : call) g s :
  run E (perform c g) s =
  let '(r, s1) := env_reply E c s in ((r, g), s1, [c]).
Proof.
  unfold perform. cbn [run]. destruct (env_reply E c s) as [r s1]. reflexivity.
Qed.

(** ** The user-directory cache *)

Lemma get_users_cached (u : gmap str user_record) :
  u ≠ ∅ -> get_users (Some u) = Ret (Return u, Some u).
Proof.
  intros Hu. unfold get_users, bind, read_cached_users. cbn [prog_bind].
  unfold truthy_users. rewrite bool_decide_eq_false_2 by exact Hu.
  reflexivity.
Qed.

Lemma get_users_fetch (E : Env) g s :
  truthy_users g = false ->
  run E (get_users g) s =
  let '(r, s1) := env_reply E (GetSecretValue SECRET_NAME) s in
  (match r with
   | Return u => (Return u, Some u)
   | Raise e => (Raise e, g)
   end, s1, [GetSecretValue SECRET_NAME]).
Proof.
  intros Hg. unfold get_users, bind at 1, read_cached_users. cbn [prog_bind].
  rewrite Hg. rewrite run_bind, run_perform.
  destruct (env_reply E (GetSecretValue SECRET_NAME) s) as [[u|e] s1];
    reflexivity.
Qed.

(** ** Authentication *)

Lemma split1_found (sep : N) (u p : str) :
  contains sep u = false -> split1 sep (u ++ sep :: p) = [u; p].
Proof.
  induction u as [|c u IH]; cbn [app split1 contains existsb].
  - intros _. rewrite N.eqb_refl. reflexivity.
  - intros H. apply orb_false_elim in H as [Hc Hu].
    rewrite N.eqb_sym, Hc. unfold contains in IH. rewrite (IH Hu). reflexivity.
Qed.

Lemma split1_missing (sep : N) (s : str) :
  contains sep s = false -> split1 sep s = [s].
Proof.
  induction s as [|c s IH]; cbn [split1 contains existsb].
  - reflexivity.
  - intros H. apply orb_false_elim in H as [Hc Hs].
    rewrite N.eqb_sym, Hc. unfold contains in IH. rewrite (IH Hs). reflexivity.
Qed.

Lemma basic_credentials_encoded (encoded : str) :
  basic_credentials (lit "Basic " ++ encoded) =
  match b64decode encoded with
  | Raise e => Raise e
  | Return data =>
      match utf8_decode data with
      | None => Raise (UnicodeDecodeError (lit "'utf-8' codec can't decode"))
      | Some raw =>
          match split1 58%N raw with
          | [username; pass] => Return (username, pass)
          | _ => Raise (ValueError
                   (lit "not enough values to unpack (expected 2, got 1)"))
          end
      end
  end.
Proof. reflexivity. Qed.

Lemma authenticate_no_header (event : Event) g :
  authorization event = None -> authenticate event g = Ret (Return None, g).
Proof.
  unfold authorization, authenticate. intros ->. reflexivity.
Qed.

Lemma authenticate_not_basic (event : Event) (auth : str) g :
  authorization event = Some auth ->
  startswith auth (lit "Basic ") = false ->
  authenticate event g = Ret (Return None, g).
Proof.
  unfold authorization, authenticate. intros -> H.
  change (default [] (Some auth)) with auth.
  rewrite H, orb_true_r. reflexivity.
Qed.

Lemma authenticate_basic (event : Event) (encoded : str) g :
  authorization event = Some (lit "Basic " ++ encoded) ->
  authenticate event g =
  match basic_credentials (lit "Basic " ++ encoded) with
  | Raise _ => ret None g
  | Return (username, pass) =>
      (let* users := get_users in
       match users !! username with
       | Some u =>
           if str_eqb (password u) pass
           then ret (Some (username, root_folder u))
           else ret None
       | None => ret None
       end) g
  end.
Proof.
  unfold authorization, authenticate. intros ->.
  change (default [] (Some ?x)) with x.
  rewrite startswith_app.
  change (not_ (Some (lit "Basic " ++ encoded))) with false.
  cbn [negb orb].
  destruct (basic_credentials _) as [[u p]|e]; reflexivity.
Qed.

(** Once the header yields a user name and a password, the answer is read
    off the user directory that [get_users] returns. *)
Lemma authenticate_lookup (E : Env) (event : Event) (encoded u p : str) g s
    dir g1 s1 l :
  authorization event = Some (lit "Basic " ++ encoded) ->
  basic_credentials (lit "Basic " ++ encoded) = Return (u, p) ->
  run E (get_users g) s = ((Return dir, g1), s1, l) ->
  run E (authenticate event g) s =
  ((Return match dir !! u with
           | Some r =>
               if str_eqb (password r) p then Some (u, root_folder r) else None
           | None => None
           end, g1), s1, l).
Proof.
  intros Hh Hc Hu. rewrite (authenticate_basic _ _ _ Hh), Hc.
  rewrite run_bind, Hu.
  destruct (dir !! u) as [r|]; [destruct (str_eqb (password r) p)|];
    cbn [ret run]; rewrite app_nil_r; reflexivity.
Qed.

Lemma basic_credentials_decoded (encoded : str) (data : bytes) (u p : str) :
  b64decode encoded = Return data ->
  utf8_decode data = Some (u ++ 58%N :: p) ->
  contains 58%N u = false ->
  basic_credentials (lit "Basic " ++ encoded) = Return (u, p).
Proof.
  intros Hb Hd Hu.
  rewrite basic_credentials_encoded, Hb, Hd, (split1_found _ _ _ Hu).
  reflexivity.
Qed.

Example alice_logs_in :
  run ideal
    (authenticate (request "GET" "/list" [] (basic_auth "alice:wonderland") None) None)
    alice_world
  = ((Return (Some (lit "alice", lit "alice/")), Some (secret alice_world)),
     alice_world, [GetSecretValue SECRET_NAME]).
Proof. vm_compute. reflexivity. Qed.

Lemma authenticate_cached (event : Event) (u : gmap str user_record) :
  u ≠ ∅ -> exists r, authenticate event (Some u) = Ret (Return r, Some u).
Proof.
  intros Hu. unfold authenticate.
  destruct (_ || _); [eexists; reflexivity|].
  destruct (basic_credentials _) as [[n p]|e]; [|eexists; reflexivity].
  unfold bind. rewrite (get_users_cached u Hu). cbn [prog_bind].
  destruct (u !! n) as [r|]; [destruct (str_eqb _ _)|]; eexists; reflexivity.
Qed.

(** The last step of [authenticate] makes no call. *)
Lemma run_check_password (E : Env) (dir : gmap str user_record) (n p : str) g s :
  run E (match dir !! n with
         | Some u =>
             if str_eqb (password u) p
             then ret (Some (n, root_folder u))
             else ret None
         | None => ret None
         end g) s
  = ((Return match dir !! n with
             | Some u =>
                 if str_eqb (password u) p then Some (n, root_folder u) else None
             | None => None
             end, g), s, []).
Proof.
  destruct (dir !! n) as [r|]; [destruct (str_eqb (password r) p)|];
    reflexivity.
Qed.

(** Authentication only ever calls the secret store. *)
Lemma authenticate_no_s3_call (E : Env) (event : Event) g s :
  Forall (fun c => is_s3_call c = false) (run E (authenticate event g) s).2.
Proof.
  unfold authenticate.
  destruct (_ || _); [constructor|].
  destruct (basic_credentials _) as [[n p]|e]; [|constructor].
  rewrite run_bind.
  destruct (truthy_users g) eqn:Hg.
  - destruct g as [u|]; [|discriminate]. unfold truthy_users in Hg.
    apply negb_true_iff, bool_decide_eq_false in Hg.
    rewrite (get_users_cached u Hg). cbn [run].
    rewrite run_check_password. constructor.
  - rewrite (get_users_fetch E g s Hg).
    destruct (env_reply E (GetSecretValue SECRET_NAME) s) as [[u|e] s1].
    + rewrite (run_check_password E u). repeat constructor.
    + repeat constructor.
Qed.

(** C2 (amended). Let [get_users] return the user directory [dir].
    - If the [Authorization] header is ["Basic "] followed by the base64 of
      the UTF-8 encoding of [u:p], where [u] contains no colon, [u] is in
      [dir] and [p] equals the stored password of [u], then [authenticate]
      returns [u] with the stored root folder of [u]; and so it does for
      any text after ["Basic "] that [b64decode] and the UTF-8 decoding
      turn into such a [u:p].
    - If the header is missing, or does not start with ["Basic "], or its
      base64 is malformed, or the decoded bytes are not UTF-8, or the
      decoded string has no colon, [authenticate] returns the
      unauthenticated result without consulting the directory; if the text
      before the first colon is not in [dir], or the text after it differs
      from the stored password, it returns the same unauthenticated
      result. *)
Theorem authenticate_correct (E : Env) (event : Event) g s dir g1 s1 l :
  run E (get_users g) s = ((Return dir, g1), s1, l) ->
  (forall u p data r,
      contains 58%N u = false ->
      utf8_encode (u ++ 58%N :: p) = Some data ->
      authorization event = Some (lit "Basic " ++ b64encode data) ->
      dir !! u = Some r -> password r = p ->
      run E (authenticate event g) s
      = ((Return (Some (u, root_folder r)), g1), s1, l))
  /\ (forall encoded data u p r,
      authorization event = Some (lit "Basic " ++ encoded) ->
      b64decode encoded = Return data ->
      utf8_decode data = Some (u ++ 58%N :: p) -> contains 58%N u = false ->
      dir !! u = Some r -> password r = p ->
      run E (authenticate event g) s
      = ((Return (Some (u, root_folder r)), g1), s1, l))
  /\ (authorization event = None ->
      authenticate event g = Ret (Return None, g))
  /\ (forall auth,
      authorization event = Some auth ->
      startswith auth (lit "Basic ") = false ->
      authenticate event g = Ret (Return None, g))
  /\ (forall encoded e,
      authorization event = Some (lit "Basic " ++ encoded) ->
      b64decode encoded = Raise e ->
      authenticate event g = Ret (Return None, g))
  /\ (forall encoded data,
      authorization event = Some (lit "Basic " ++ encoded) ->
      b64decode encoded = Return data -> utf8_decode data = None ->
      authenticate event g = Ret (Return None, g))
  /\ (forall encoded data raw,
      authorization event = Some (lit "Basic " ++ encoded) ->
      b64decode encoded = Return data -> utf8_decode data = Some raw ->
      contains 58%N raw = false ->
      authenticate event g = Ret (Return None, g))
  /\ (forall encoded data u p,
      authorization event = Some (lit "Basic " ++ encoded) ->
      b64decode encoded = Return data ->
      utf8_decode data = Some (u ++ 58%N :: p) -> contains 58%N u = false ->
      dir !! u = None ->
      run E (authenticate event g) s = ((Return None, g1), s1, l))
  /\ (forall encoded data u p r,
      authorization event = Some (lit "Basic " ++ encoded) ->
      b64decode encoded = Return data ->
      utf8_decode data = Some (u ++ 58%N :: p) -> contains 58%N u = false ->
      dir !! u = Some r -> password r <> p ->
      run E (authenticate event g) s = ((Return None, g1), s1, l)).
Proof.
  intros Hdir. repeat apply conj.
  - intros u p data r Hu Hdata Hh Hr Hp.
    rewrite (authenticate_lookup E event _ u p g s dir g1 s1 l Hh); [|  |exact Hdir].
    + rewrite Hr. unfold str_eqb. rewrite bool_decide_eq_true_2 by exact Hp.
      reflexivity.
    + apply (basic_credentials_decoded _ data); [apply b64decode_b64encode| |exact Hu].
      apply utf8_decode_encode, Hdata.
  - intros encoded data u p r Hh Hb Hd Hu Hr Hp.
    rewrite (authenticate_lookup E event _ u p g s dir g1 s1 l Hh);
      [| | exact Hdir].
    + rewrite Hr. unfold str_eqb. rewrite bool_decide_eq_true_2 by exact Hp.
      reflexivity.
    + apply (basic_credentials_decoded _ data); assumption.
  - exact (authenticate_no_header event g).
  - intros auth. exact (authenticate_not_basic event auth g).
  - intros encoded e Hh Hb.
    rewrite (authenticate_basic _ _ _ Hh), basic_credentials_encoded, Hb.
    reflexivity.
  - intros encoded data Hh Hb Hd.
    rewrite (authenticate_basic _ _ _ Hh), basic_credentials_encoded, Hb, Hd.
    reflexivity.
  - intros encoded data raw Hh Hb Hd Hc.
    rewrite (authenticate_basic _ _ _ Hh), basic_credentials_encoded, Hb, Hd.
    rewrite (split1_missing _ _ Hc). reflexivity.
  - intros encoded data u p Hh Hb Hd Hu Hr.
    rewrite (authenticate_lookup E event _ u p g s dir g1 s1 l Hh);
      [rewrite Hr; reflexivity | | exact Hdir].
    apply (basic_credentials_decoded _ data); assumption.
  - intros encoded data u p r Hh Hb Hd Hu Hr Hp.
    rewrite (authenticate_lookup E event _ u p g s dir g1 s1 l Hh);
      [| | exact Hdir].
    + rewrite Hr. unfold str_eqb. rewrite bool_decide_eq_false_2 by exact Hp.
      reflexivity.
    + apply (basic_credentials_decoded _ data); assumption.
Qed.

Lemma authenticate_correct_witness :
  run ideal
    (authenticate (request "GET" "/list" [] (basic_auth "alice:wonderland") None) None)
    alice_world
  = ((Return (Some (lit "alice", lit "alice/")), Some (secret alice_world)),
     alice_world, [GetSecretValue SECRET_NAME]).
Proof.
  refine (proj1 (authenticate_correct ideal
            (request "GET" "/list" [] (basic_auth "alice:wonderland") None)
            None alice_world (secret alice_world) (Some (secret alice_world))
            alice_world [GetSecretValue SECRET_NAME] _)
          (lit "alice") (lit "wonderland")
          (default [] (utf8_encode (lit "alice:wonderland")))
          {| password := lit "wonderland"; root_folder := lit "alice/" |}
          _ _ _ _ _);
    vm_compute; reflexivity.
Defined.

(** C2, counterexample. The user [a:b] with password [c] is in the
    directory and the header carries the base64 of [a:b:c], yet
    [authenticate] returns the unauthenticated result: the decoded string
    is split at its first colon. *)
Lemma authenticate_colon_in_user_name :
  secret colon_world !! lit "a:b"
  = Some {| password := lit "c"; root_folder := lit "ab/" |}
  /\ authorization (request "GET" "/list" [] (basic_auth "a:b:c") None)
     = Some (lit "Basic "
             ++ b64encode (default [] (utf8_encode (lit "a:b" ++ lit ":" ++ lit "c"))))
  /\ run ideal
       (authenticate (request "GET" "/list" [] (basic_auth "a:b:c") None) None)
       colon_world
     = ((Return None, Some (secret colon_world)), colon_world,
        [GetSecretValue SECRET_NAME]).
Proof. repeat split; vm_compute; reflexivity. Qed.

(** The decoder skips what is not in the base64 alphabet: a header that is
    not literally the base64 of [alice:wonderland] logs Alice in as well. *)
Example alice_logs_in_with_spaces :
  run ideal
    (authenticate
       (request "GET" "/list" []
          (Some {[ lit "Authorization" := lit "Basic  YWxpY2U6 d29uZGVybGFuZA==" ]})
          None) None)
    alice_world
  = ((Return (Some (lit "alice", lit "alice/")), Some (secret alice_world)),
     alice_world, [GetSecretValue SECRET_NAME]).
Proof. vm_compute. reflexivity. Qed.

(** C9 (amended). The cache is filled by the fetch of the first attempt,
    and when the fetched user directory is not empty it is never fetched
    again: from then on [get_users] returns the cached directory without
    any call, and so does every sequence of authentication attempts, which
    leaves the cache as it is. *)
Theorem cache_filled_once (E : Env) (s0 s1 : env_state E)
    (u : gmap str user_record) :
  env_reply E (GetSecretValue SECRET_NAME) s0 = (Return u, s1) ->
  u ≠ ∅ ->
  run E (get_users None) s0
  = ((Return u, Some u), s1, [GetSecretValue SECRET_NAME])
  /\ forall (events : list Event) (s : env_state E),
       run E (get_users (Some u)) s = ((Return u, Some u), s, [])
       /\ exists rs,
            run E (authenticate_all events (Some u)) s
            = ((Return rs, Some u), s, []).
Proof.
  intros Hfetch Hu. split.
  - rewrite get_users_fetch by reflexivity. rewrite Hfetch. reflexivity.
  - intros events s. split.
    + rewrite (get_users_cached u Hu). reflexivity.
    + induction events as [|event events [rs IH]]; cbn [authenticate_all].
      * exists []. reflexivity.
      * destruct (authenticate_cached event u Hu) as [r Hr].
        exists (r :: rs). rewrite run_bind, Hr. cbn [run].
        rewrite run_bind, IH. reflexivity.
Qed.

Lemma cache_filled_once_witness :
  run ideal (get_users None) alice_world
  = ((Return (secret alice_world), Some (secret alice_world)), alice_world,
     [GetSecretValue SECRET_NAME])
  /\ forall (events : list Event) (s : World),
       run ideal (get_users (Some (secret alice_world))) s
       = ((Return (secret alice_world), Some (secret alice_world)), s, [])
       /\ exists rs,
            run ideal (authenticate_all events (Some (secret alice_world))) s
            = ((Return rs, Some (secret alice_world)), s, []).
Proof.
  apply (cache_filled_once ideal alice_world alice_world (secret alice_world)).
  - reflexivity.
  - vm_compute. discriminate.
Defined.

(** C9, counterexample. When the fetched user directory is empty, the
    first attempt stores it in the cache, and the next call of [get_users]
    still calls the secret store. *)
Lemma get_users_refetches_empty :
  run ideal (get_users None) empty_world
  = ((Return ∅, Some ∅), empty_world, [GetSecretValue SECRET_NAME])
  /\ run ideal (get_users (Some ∅)) empty_world
     = ((Return ∅, Some ∅), empty_world, [GetSecretValue SECRET_NAME]).
Proof. split; reflexivity. Qed.

(** ** The handler *)

Section HandlerProperties.

Variable zip_archive : ZipFile.
Variable E : Env.

Lemma run_lambda_handler (event : Event) g s :
  method_of event <> lit "OPTIONS" ->
  run E (lambda_handler zip_archive event g) s =
  match run E (authenticate event g) s with
  | ((Raise e, g1), s1, l) =>
      ((Return (error_response 500 (str_exn e)), g1), s1, l)
  | ((Return None, g1), s1, l) =>
      ((Return (error_response 401 (lit "Unauthorized")), g1), s1, l)
  | ((Return (Some (user, folder)), g1), s1, l) =>
      if falsy user
      then ((Return (error_response 401 (lit "Unauthorized")), g1), s1, l)
      else
        let '((r, g2), s2, l2) := run E (operation zip_archive event folder g1) s1 in
        ((Return (caught r), g2), s2, l ++ l2)
  end.
Proof.
  intros Hm. unfold lambda_handler. fold (method_of event).
  unfold str_eqb. rewrite bool_decide_eq_false_2 by exact Hm.
  rewrite run_try_except, run_bind.
  destruct (run E (authenticate event g) s) as [[[[[[user folder]|]|e] g1] s1] l].
  - destruct (falsy user).
    + cbn [ret run]. rewrite app_nil_r. reflexivity.
    + destruct (run E (operation zip_archive event folder g1) s1)
        as [[[[r|e] g2] s2] l2]; cbn [ret run caught];
        rewrite ?app_nil_r; reflexivity.
  - cbn [ret run]. rewrite app_nil_r. reflexivity.
  - cbn [ret run]. rewrite app_nil_r. reflexivity.
Qed.

Lemma run_authenticated (event : Event) g s folder g1 s1 l :
  authenticated E event g s folder g1 s1 l ->
  run E (lambda_handler zip_archive event g) s =
  let '((r, g2), s2, l2) := run E (operation zip_archive event folder g1) s1 in
  ((Return (caught r), g2), s2, l ++ l2).
Proof.
  intros [Hm [user [Hu Ha]]]. rewrite (run_lambda_handler _ _ _ Hm), Ha.
  destruct user; [contradiction|]. reflexivity.
Qed.

(** C8. A request that is no preflight request and on which
    authentication fails is answered 401 with body
    [{"error": "Unauthorized"}], whatever its path, and no storage call is
    made. *)
Theorem unauthenticated_is_401 (event : Event) g s g1 s1 l :
  method_of event <> lit "OPTIONS" ->
  run E (authenticate event g) s = ((Return None, g1), s1, l) ->
  run E (lambda_handler zip_archive event g) s
  = ((Return (error_response 401 (lit "Unauthorized")), g1), s1, l)
  /\ statusCode (error_response 401 (lit "Unauthorized")) = 401%Z
  /\ resp_body (error_response 401 (lit "Unauthorized"))
     = lit "{" ++ dq ++ lit "error" ++ dq ++ lit ": "
       ++ dq ++ lit "Unauthorized" ++ dq ++ lit "}"
  /\ Forall (fun c => is_s3_call c = false) l.
Proof.
  intros Hm Ha. repeat apply conj.
  - rewrite (run_lambda_handler _ _ _ Hm), Ha. reflexivity.
  - reflexivity.
  - reflexivity.
  - pose proof (authenticate_no_s3_call E event g s) as H.
    rewrite Ha in H. exact H.
Qed.

End HandlerProperties.

Lemma unauthenticated_is_401_witness :
  run ideal
    (lambda_handler no_zip (request "GET" "/no/such/operation" [] None None) None)
    alice_world
  = ((Return (error_response 401 (lit "Unauthorized")), None), alice_world, [])
  /\ statusCode (error_response 401 (lit "Unauthorized")) = 401%Z
  /\ resp_body (error_response 401 (lit "Unauthorized"))
     = lit "{" ++ dq ++ lit "error" ++ dq ++ lit ": "
       ++ dq ++ lit "Unauthorized" ++ dq ++ lit "}"
  /\ Forall (fun c => is_s3_call c = false) [].
Proof.
  apply (unauthenticated_is_401 no_zip ideal
           (request "GET" "/no/such/operation" [] None None) None alice_world
           None alice_world []).
  - vm_compute. discriminate.
  - reflexivity.
Defined.

(** ** Routing *)

(** Two suffixes of one string: one is a suffix of the other. *)
Lemma startswith_two (s a b : str) :
  startswith s a = true -> startswith s b = true ->
  startswith a b || startswith b a = true.
Proof.
  revert s b. induction a as [|c a IH]; intros s b Ha Hb.
  - destruct b; reflexivity.
  - destruct b as [|d b]; [reflexivity|].
    destruct s as [|e s]; [discriminate|].
    cbn [startswith] in *.
    apply andb_prop in Ha as [Hc Ha]. apply andb_prop in Hb as [Hd Hb].
    apply N.eqb_eq in Hc, Hd. subst c d. rewrite N.eqb_refl. cbn [andb].
    exact (IH s b Ha Hb).
Qed.

Lemma endswith_excludes (s a b : str) :
  endswith s a = true ->
  endswith a b || endswith b a = false ->
  endswith s b = false.
Proof.
  unfold endswith. intros Ha Hab.
  destruct (startswith (rev s) (rev b)) eqn:Hb; [|reflexivity].
  rewrite (startswith_two _ _ _ Ha Hb) in Hab. discriminate.
Qed.

(** The seven path suffixes of the routing table exclude one another. *)
Ltac other_suffixes H :=
  repeat match goal with
         | |- context [endswith ?p (lit ?x)] =>
             lazymatch type of H with
             | endswith p (lit x) = true => fail
             | _ => rewrite (endswith_excludes p _ (lit x) H eq_refl)
             end
         end.

Lemma endswith_app (pre suffix : str) : endswith (pre ++ suffix) suffix = true.
Proof. apply endswith_iff. exists pre. reflexivity. Qed.

Section Routing.

Variable zip_archive : ZipFile.

Implicit Types (event : Event) (folder pre : str).

Lemma route_put event folder pre :
  method_of event = lit "PUT" -> path_of event = pre ++ lit "/put" ->
  operation zip_archive event folder
  = upload_file event folder (filename_of event).
Proof.
  intros Hm Hp. unfold operation.
  fold (method_of event) (path_of event) (filename_of event) (prefix_of event).
  rewrite Hm, Hp, endswith_app. reflexivity.
Qed.

Lemma route_get event folder pre :
  method_of event = lit "GET" -> path_of event = pre ++ lit "/get" ->
  operation zip_archive event folder
  = if not_ (filename_of event) then ret unsupported_operation
    else download_file folder (val (filename_of event)).
Proof.
  intros Hm Hp. unfold operation.
  fold (method_of event) (path_of event) (filename_of event) (prefix_of event).
  rewrite Hm, Hp. pose proof (endswith_app pre (lit "/get")) as H.
  other_suffixes H. rewrite H.
  destruct (not_ (filename_of event)); reflexivity.
Qed.

Lemma route_list event folder pre :
  method_of event = lit "GET" -> path_of event = pre ++ lit "/list" ->
  operation zip_archive event folder = list_folders folder.
Proof.
  intros Hm Hp. unfold operation.
  fold (method_of event) (path_of event) (filename_of event) (prefix_of event).
  rewrite Hm, Hp. pose proof (endswith_app pre (lit "/list")) as H.
  other_suffixes H. rewrite H. reflexivity.
Qed.

Lemma route_list_files event folder pre :
  method_of event = lit "GET" -> path_of event = pre ++ lit "/list-files" ->
  operation zip_archive event folder = list_files folder (prefix_of event).
Proof.
  intros Hm Hp. unfold operation.
  fold (method_of event) (path_of event) (filename_of event) (prefix_of event).
  rewrite Hm, Hp. pose proof (endswith_app pre (lit "/list-files")) as H.
  other_suffixes H. rewrite H. reflexivity.
Qed.

Lemma route_download_folder event folder pre :
  method_of event = lit "GET" ->
  path_of event = pre ++ lit "/download-folder" ->
  operation zip_archive event folder
  = if not_ (prefix_of event) then ret unsupported_operation
    else download_folder zip_archive folder (val (prefix_of event)).
Proof.
  intros Hm Hp. unfold operation.
  fold (method_of event) (path_of event) (filename_of event) (prefix_of event).
  rewrite Hm, Hp. pose proof (endswith_app pre (lit "/download-folder")) as H.
  other_suffixes H. rewrite H.
  destruct (not_ (prefix_of event)); reflexivity.
Qed.

Lemma route_delete event folder pre :
  method_of event = lit "DELETE" -> path_of event = pre ++ lit "/delete" ->
  operation zip_archive event folder
  = if not_ (filename_of event) then ret unsupported_operation
    else delete_file folder (val (filename_of event)).
Proof.
  intros Hm Hp. unfold operation.
  fold (method_of event) (path_of event) (filename_of event) (prefix_of event).
  rewrite Hm, Hp. pose proof (endswith_app pre (lit "/delete")) as H.
  other_suffixes H. rewrite H.
  destruct (not_ (filename_of event)); reflexivity.
Qed.

Lemma route_delete_folder event folder pre :
  method_of event = lit "DELETE" ->
  path_of event = pre ++ lit "/delete-folder" ->
  operation zip_archive event folder
  = if not_ (prefix_of event) then ret unsupported_operation
    else delete_folder folder (val (prefix_of event)).
Proof.
  intros Hm Hp. unfold operation.
  fold (method_of event) (path_of event) (filename_of event) (prefix_of event).
  rewrite Hm, Hp. pose proof (endswith_app pre (lit "/delete-folder")) as H.
  other_suffixes H. rewrite H.
  destruct (not_ (prefix_of event)); reflexivity.
Qed.

End Routing.

Section Dispatch.

Variable zip_archive : ZipFile.
Variable E : Env.

Lemma route_none (event : Event) (folder : str) :
  forallb (fun row => negb (matches event row)) routing_table = true ->
  operation zip_archive event folder = ret unsupported_operation.
Proof.
  cbn [forallb routing_table matches]. rewrite !andb_true_r.
  intros H. unfold operation.
  fold (method_of event) (path_of event) (filename_of event) (prefix_of event).
  repeat match goal with
         | G : _ && _ = true |- _ => apply andb_prop in G as [? ?]
         end.
  repeat match goal with
         | G : negb _ = true |- _ => apply negb_true_iff in G; rewrite G; clear G
         end.
  reflexivity.
Qed.

(** C5 (amended). For an authenticated request the operation is chosen by
    the method and by a suffix test on the path, so that any text may
    precede the suffix: [/put] with PUT, [/list] and [/list-files] with
    GET are chosen on that pair alone; [/get] and [/download-folder] with
    GET, [/delete] and [/delete-folder] with DELETE are chosen when, in
    addition, their parameter ([filename], resp. [prefix]) is present and
    not empty. A request that matches no row of the routing table in this
    sense is answered 405. *)
Theorem dispatch_on_method_suffix_and_parameter (event : Event) g s folder
    g1 s1 l (pre : str) :
  authenticated E event g s folder g1 s1 l ->
  let answer := answered_by zip_archive E event g s g1 s1 l in
  (method_of event = lit "PUT" -> path_of event = pre ++ lit "/put" ->
   answer (upload_file event folder (filename_of event)))
  /\ (method_of event = lit "GET" -> path_of event = pre ++ lit "/get" ->
      not_ (filename_of event) = false ->
      answer (download_file folder (val (filename_of event))))
  /\ (method_of event = lit "GET" -> path_of event = pre ++ lit "/list" ->
      answer (list_folders folder))
  /\ (method_of event = lit "GET" -> path_of event = pre ++ lit "/list-files" ->
      answer (list_files folder (prefix_of event)))
  /\ (method_of event = lit "GET" ->
      path_of event = pre ++ lit "/download-folder" ->
      not_ (prefix_of event) = false ->
      answer (download_folder zip_archive folder (val (prefix_of event))))
  /\ (method_of event = lit "DELETE" -> path_of event = pre ++ lit "/delete" ->
      not_ (filename_of event) = false ->
      answer (delete_file folder (val (filename_of event))))
  /\ (method_of event = lit "DELETE" ->
      path_of event = pre ++ lit "/delete-folder" ->
      not_ (prefix_of event) = false ->
      answer (delete_folder folder (val (prefix_of event))))
  /\ (forallb (fun row => negb (matches event row)) routing_table = true ->
      run E (lambda_handler zip_archive event g) s
      = ((Return unsupported_operation, g1), s1, l)
      /\ statusCode unsupported_operation = 405%Z).
Proof.
  intros Ha answer. subst answer. unfold answered_by.
  rewrite (run_authenticated zip_archive E event g s folder g1 s1 l Ha).
  repeat apply conj.
  - intros Hm Hp. rewrite (route_put zip_archive event folder pre Hm Hp).
    reflexivity.
  - intros Hm Hp Hf.
    rewrite (route_get zip_archive event folder pre Hm Hp), Hf. reflexivity.
  - intros Hm Hp. rewrite (route_list zip_archive event folder pre Hm Hp).
    reflexivity.
  - intros Hm Hp.
    rewrite (route_list_files zip_archive event folder pre Hm Hp). reflexivity.
  - intros Hm Hp Hf.
    rewrite (route_download_folder zip_archive event folder pre Hm Hp), Hf.
    reflexivity.
  - intros Hm Hp Hf.
    rewrite (route_delete zip_archive event folder pre Hm Hp), Hf. reflexivity.
  - intros Hm Hp Hf.
    rewrite (route_delete_folder zip_archive event folder pre Hm Hp), Hf.
    reflexivity.
  - intros Hn. rewrite (route_none event folder Hn). cbn [ret run caught].
    rewrite app_nil_r. split; reflexivity.
Qed.

(** C4 (amended). For an authenticated request that omits the parameter
    of the operation its method and path select: an upload without
    [filename] is answered 400; a download and a file deletion without
    [filename], a folder download and a folder deletion without [prefix]
    are answered 405. No storage call is made in either case. *)
Theorem missing_parameter_status (event : Event) g s folder g1 s1 l (pre : str) :
  authenticated E event g s folder g1 s1 l ->
  (method_of event = lit "PUT" -> path_of event = pre ++ lit "/put" ->
   filename_of event = None ->
   run E (lambda_handler zip_archive event g) s
   = ((Return (error_response 400 (lit "Missing filename")), g1), s1, l))
  /\ (method_of event = lit "GET" -> path_of event = pre ++ lit "/get" ->
      filename_of event = None ->
      run E (lambda_handler zip_archive event g) s
      = ((Return (error_response 405 (lit "Unsupported operation")), g1), s1, l))
  /\ (method_of event = lit "DELETE" -> path_of event = pre ++ lit "/delete" ->
      filename_of event = None ->
      run E (lambda_handler zip_archive event g) s
      = ((Return (error_response 405 (lit "Unsupported operation")), g1), s1, l))
  /\ (method_of event = lit "GET" ->
      path_of event = pre ++ lit "/download-folder" ->
      prefix_of event = None ->
      run E (lambda_handler zip_archive event g) s
      = ((Return (error_response 405 (lit "Unsupported operation")), g1), s1, l))
  /\ (method_of event = lit "DELETE" ->
      path_of event = pre ++ lit "/delete-folder" ->
      prefix_of event = None ->
      run E (lambda_handler zip_archive event g) s
      = ((Return (error_response 405 (lit "Unsupported operation")), g1), s1, l)).
Proof.
  intros Ha.
  rewrite (run_authenticated zip_archive E event g s folder g1 s1 l Ha).
  repeat apply conj; intros Hm Hp Hf.
  - rewrite (route_put zip_archive event folder pre Hm Hp), Hf.
    cbn [upload_file not_ ret run caught]. rewrite app_nil_r. reflexivity.
  - rewrite (route_get zip_archive event folder pre Hm Hp), Hf.
    cbn [not_ ret run caught]. rewrite app_nil_r. reflexivity.
  - rewrite (route_delete zip_archive event folder pre Hm Hp), Hf.
    cbn [not_ ret run caught]. rewrite app_nil_r. reflexivity.
  - rewrite (route_download_folder zip_archive event folder pre Hm Hp), Hf.
    cbn [not_ ret run caught]. rewrite app_nil_r. reflexivity.
  - rewrite (route_delete_folder zip_archive event folder pre Hm Hp), Hf.
    cbn [not_ ret run caught]. rewrite app_nil_r. reflexivity.
Qed.

End Dispatch.

(** ** Folder deletion and upload *)

Lemma no_s3_call_no_delete (l : list call) :
  Forall (fun c => is_s3_call c = false) l ->
  Forall (fun c => is_delete_call c = false) l.
Proof.
  intros Hl. eapply Forall_impl; [exact Hl|].
  intros [] H; try discriminate H; reflexivity.
Qed.

Lemma authenticated_log (E : Env) (event : Event) g s folder g1 s1 l :
  authenticated E event g s folder g1 s1 l ->
  Forall (fun c => is_s3_call c = false) l.
Proof.
  intros [_ [user [_ Ha]]].
  pose proof (authenticate_no_s3_call E event g s) as H.
  rewrite Ha in H. exact H.
Qed.

Section Operations.

Variable zip_archive : ZipFile.
Variable E : Env.

Lemma run_delete_folder_empty (folder p : str) g s resp s2 :
  env_reply E (ListObjectsV2 BUCKET_NAME (normalize_key folder p) None) s
  = (Return resp, s2) ->
  Contents resp = None ->
  run E (delete_folder folder p g) s
  = ((Return (response 200
                (Text (lit "Folder " ++ dq ++ p ++ dq ++ lit " deleted")) None),
      g), s2, [ListObjectsV2 BUCKET_NAME (normalize_key folder p) None]).
Proof.
  intros Hl Hc. unfold delete_folder.
  rewrite run_bind, run_perform, Hl, Hc. reflexivity.
Qed.

Lemma run_upload_file (event : Event) (folder name : str) (content : bytes)
    g s s2 :
  name <> [] ->
  b64decode (default [] (body event)) = Return content ->
  env_reply E (PutObject BUCKET_NAME (normalize_key folder name)
                 (stored name content)) s = (Return tt, s2) ->
  run E (upload_file event folder (Some name) g) s
  = ((Return (response 200 (Text (uploaded_message name)) None), g), s2,
     [PutObject BUCKET_NAME (normalize_key folder name) (stored name content)]).
Proof.
  intros Hn Hb Hput. unfold upload_file.
  destruct name as [|c name]; [contradiction|].
  change (not_ (Some (c :: name))) with false. cbv beta iota zeta.
  change (val (Some (c :: name))) with (c :: name).
  rewrite run_bind. unfold lift at 1. cbn [run]. rewrite Hb.
  rewrite run_bind, run_perform. fold (stored (c :: name) content).
  rewrite Hput. reflexivity.
Qed.

(** C7 (amended). For an authenticated DELETE request to a path ending in
    [/delete-folder] whose [prefix] parameter is not empty: when the
    listing under the normalised prefix has no [Contents], the answer is
    200 with the message [Folder "<prefix>" deleted], the listing is the
    only storage call, and no delete call is made. *)
Theorem delete_folder_nothing_listed (event : Event) g s folder g1 s1 l
    (pre p : str) (resp : list_response) s2 :
  authenticated E event g s folder g1 s1 l ->
  method_of event = lit "DELETE" ->
  path_of event = pre ++ lit "/delete-folder" ->
  prefix_of event = Some p -> p <> [] ->
  env_reply E (ListObjectsV2 BUCKET_NAME (normalize_key folder p) None) s1
  = (Return resp, s2) ->
  Contents resp = None ->
  let answer :=
    response 200 (Text (lit "Folder " ++ dq ++ p ++ dq ++ lit " deleted")) None in
  run E (lambda_handler zip_archive event g) s
  = ((Return answer, g1), s2,
     l ++ [ListObjectsV2 BUCKET_NAME (normalize_key folder p) None])
  /\ statusCode answer = 200%Z
  /\ resp_body answer = lit "Folder " ++ dq ++ p ++ dq ++ lit " deleted"
  /\ Forall (fun c => is_delete_call c = false)
       (l ++ [ListObjectsV2 BUCKET_NAME (normalize_key folder p) None]).
Proof.
  intros Ha Hm Hp Hpre Hne Hl Hc answer. subst answer. repeat apply conj.
  - rewrite (run_authenticated zip_archive E event g s folder g1 s1 l Ha).
    rewrite (route_delete_folder zip_archive event folder pre Hm Hp), Hpre.
    destruct p as [|c p]; [contradiction|].
    change (not_ (Some (c :: p))) with false. cbv iota.
    change (val (Some (c :: p))) with (c :: p).
    rewrite (run_delete_folder_empty folder (c :: p) g1 s1 resp s2 Hl Hc).
    reflexivity.
  - reflexivity.
  - reflexivity.
  - apply Forall_app. split.
    + apply no_s3_call_no_delete, (authenticated_log E event g s folder g1 s1 l Ha).
    + repeat constructor.
Qed.

(** C10 (amended). For an authenticated PUT request to a path ending in
    [/put] whose [filename] is not empty: if the file name does not end
    with [/] and the body is absent or empty, a zero-length object is put
    at the normalised key and the answer is 200 with the message
    [File "<filename>" uploaded]; in general the object put is the decoded
    body, replaced by a single space exactly when the file name ends with
    [/] and the decoded body is empty. *)
Theorem upload_empty_body (event : Event) g s folder g1 s1 l
    (pre name : str) :
  authenticated E event g s folder g1 s1 l ->
  method_of event = lit "PUT" ->
  path_of event = pre ++ lit "/put" ->
  filename_of event = Some name -> name <> [] ->
  (endswith name (lit "/") = false ->
   body event = None \/ body event = Some [] ->
   forall s2,
     env_reply E (PutObject BUCKET_NAME (normalize_key folder name) []) s1
     = (Return tt, s2) ->
     run E (lambda_handler zip_archive event g) s
     = ((Return (response 200
                   (Text (lit "File " ++ dq ++ name ++ dq ++ lit " uploaded"))
                   None), g1), s2,
        l ++ [PutObject BUCKET_NAME (normalize_key folder name) []]))
  /\ (forall content s2,
        b64decode (default [] (body event)) = Return content ->
        env_reply E (PutObject BUCKET_NAME (normalize_key folder name)
                       (stored name content)) s1 = (Return tt, s2) ->
        run E (lambda_handler zip_archive event g) s
        = ((Return (response 200 (Text (uploaded_message name)) None), g1), s2,
           l ++ [PutObject BUCKET_NAME (normalize_key folder name)
                   (stored name content)])
        /\ (stored name content <> content <->
            endswith name (lit "/") = true /\ content = [])).
Proof.
  intros Ha Hm Hp Hf Hne.
  assert (Hgen : forall content s2,
    b64decode (default [] (body event)) = Return content ->
    env_reply E (PutObject BUCKET_NAME (normalize_key folder name)
                   (stored name content)) s1 = (Return tt, s2) ->
    run E (lambda_handler zip_archive event g) s
    = ((Return (response 200 (Text (uploaded_message name)) None), g1), s2,
       l ++ [PutObject BUCKET_NAME (normalize_key folder name)
               (stored name content)])).
  { intros content s2 Hb Hput.
    rewrite (run_authenticated zip_archive E event g s folder g1 s1 l Ha).
    rewrite (route_put zip_archive event folder pre Hm Hp), Hf.
    rewrite (run_upload_file event folder name content g1 s1 s2 Hne Hb Hput).
    reflexivity. }
  split.
  - intros Hslash Hbody s2 Hput.
    assert (Hb : b64decode (default [] (body event)) = Return []).
    { destruct Hbody as [-> | ->]; reflexivity. }
    specialize (Hgen [] s2 Hb). unfold stored, uploaded_message in Hgen.
    rewrite Hslash in Hgen. apply Hgen, Hput.
  - intros content s2 Hb Hput. split; [apply Hgen; assumption|].
    unfold stored. destruct (endswith name (lit "/")); cbn [andb].
    + case_bool_decide as Hc.
      * subst content. split; [intros _; split; reflexivity | discriminate].
      * split; [intros H; contradiction | intros [_ H]; contradiction].
    + split; [intros H; contradiction | intros [H _]; discriminate].
Qed.

End Operations.

(** ** Listing files *)

Lemma replace1_leading (old s : str) :
  startswith s old = true -> replace1 old [] s = drop (length old) s.
Proof.
  intros H. destruct s; cbn [replace1]; rewrite H; reflexivity.
Qed.

Lemma startswith_trans (s a b : str) :
  startswith s a = true -> startswith a b = true -> startswith s b = true.
Proof.
  rewrite !startswith_iff. intros [t ->] [u ->].
  exists (u ++ t). rewrite app_assoc. reflexivity.
Qed.

Lemma normalize_key_startswith (folder name : str) :
  startswith (normalize_key folder name) folder = true.
Proof.
  unfold normalize_key. destruct (startswith name folder) eqn:H.
  - exact H.
  - apply startswith_app.
Qed.

Lemma list_files_loop_no_prefix (folder : str) (prefix : option str)
    (keys : list str) :
  not_ prefix = true ->
  Forall (fun key => startswith key folder = true) keys ->
  list_files_loop folder prefix keys = top_level_names folder keys.
Proof.
  intros Hp Hk. unfold top_level_names.
  induction Hk as [|key keys Hkey _ IH]; cbn [list_files_loop map List.filter].
  - reflexivity.
  - rewrite Hp, (replace1_leading _ _ Hkey), IH.
    destruct (contains 47%N (drop (length folder) key)); reflexivity.
Qed.

(** A prefix is searched under the folder unless it starts with the
    folder itself; the keys found then carry the prefix right after the
    folder. *)
Lemma prefix_after_folder (folder p key : str) :
  folder = [] \/ startswith p folder = false ->
  startswith key (normalize_key folder p) = true ->
  startswith (drop (length folder) key) p = true.
Proof.
  intros [-> | Hp] Hk.
  - exact Hk.
  - unfold normalize_key in Hk. rewrite Hp in Hk.
    apply startswith_inv in Hk. rewrite Hk, <- app_assoc, drop_app_length.
    apply startswith_app.
Qed.

Lemma list_files_loop_prefix (folder p : str) (keys : list str) :
  p <> [] ->
  folder = [] \/ startswith p folder = false ->
  Forall (fun key => startswith key (normalize_key folder p) = true) keys ->
  list_files_loop folder (Some p) keys = children_names folder p keys.
Proof.
  intros Hp Hu Hk. unfold children_names.
  assert (Hn : not_ (Some p) = false) by (destruct p; [contradiction|reflexivity]).
  induction Hk as [|key keys Hkey _ IH]; cbn [list_files_loop map List.filter].
  - reflexivity.
  - assert (Hfolder : startswith key folder = true)
      by apply (startswith_trans _ _ _ Hkey), normalize_key_startswith.
    rewrite Hn, (replace1_leading _ _ Hfolder), IH.
    change (val (Some p)) with p.
    assert (Hs : strip_prefix p (drop (length folder) key)
                 = drop (length p) (drop (length folder) key)).
    { unfold strip_prefix. rewrite (prefix_after_folder _ _ _ Hu Hkey).
      reflexivity. }
    rewrite Hs.
    destruct (negb (falsy _) && negb (contains 47%N _)); reflexivity.
Qed.

Section ListFiles.

Variable zip_archive : ZipFile.
Variable E : Env.

(** C3 (amended). For an authenticated GET request to a path ending in
    [/list-files], over any listing whose keys lie under the normalised
    search prefix:
    - when no [prefix] parameter is given, or an empty one, the names
      returned are exactly the listed keys with the folder stripped that
      contain no [/];
    - when a [prefix] that is not empty is given and is searched under the
      folder (the folder is empty, or the prefix does not start with it),
      the names returned are exactly the remainders, after stripping the
      prefix from the key with the folder stripped, that are not empty and
      contain no [/].
    The names come in the order of the listing. Nothing is said of a
    prefix that starts with a folder that is not empty. *)
Theorem list_files_names (event : Event) g s folder g1 s1 l (pre : str)
    (resp : list_response) s2 :
  authenticated E event g s folder g1 s1 l ->
  method_of event = lit "GET" ->
  path_of event = pre ++ lit "/list-files" ->
  let search_prefix :=
    normalize_key folder (default [] (prefix_of event)) in
  let keys := default [] (Contents resp) in
  env_reply E (ListObjectsV2 BUCKET_NAME search_prefix None) s1
  = (Return resp, s2) ->
  Forall (fun key => startswith key search_prefix = true) keys ->
  let answered names :=
    run E (lambda_handler zip_archive event g) s
    = ((Return (response 200 (Text (json_dumps_list names)) json_type), g1),
       s2, l ++ [ListObjectsV2 BUCKET_NAME search_prefix None]) in
  (not_ (prefix_of event) = true -> answered (top_level_names folder keys))
  /\ (forall p, prefix_of event = Some p -> p <> [] ->
      folder = [] \/ startswith p folder = false ->
      answered (children_names folder p keys)).
Proof.
  intros Ha Hm Hp search_prefix keys Hl Hk answered. subst answered.
  assert (Hf : Forall (fun key => startswith key folder = true) keys).
  { eapply Forall_impl; [exact Hk|]. intros key H.
    apply (startswith_trans _ _ _ H), normalize_key_startswith. }
  assert (Hs : (if not_ (prefix_of event) then [] else val (prefix_of event))
               = default [] (prefix_of event)).
  { destruct (prefix_of event) as [[|c p]|]; reflexivity. }
  rewrite (run_authenticated zip_archive E event g s folder g1 s1 l Ha).
  rewrite (route_list_files zip_archive event folder pre Hm Hp).
  unfold list_files. rewrite Hs. fold search_prefix.
  rewrite run_bind, run_perform, Hl. fold keys.
  split.
  - intros Hn. rewrite (list_files_loop_no_prefix _ _ _ Hn Hf). reflexivity.
  - intros p Hpre Hne Hu.
    assert (Hkp : Forall (fun key => startswith key (normalize_key folder p) = true)
                    keys).
    { unfold search_prefix in Hk. rewrite Hpre in Hk. exact Hk. }
    rewrite Hpre. rewrite (list_files_loop_prefix _ _ _ Hne Hu Hkp). reflexivity.
Qed.

End ListFiles.

(** ** Upload, then download *)

Lemma run_download_file (E : Env) (folder name : str) g s :
  run E (download_file folder name g) s =
  let c := GetObject BUCKET_NAME (normalize_key folder name) in
  let '(r, s1) := env_reply E c s in
  (match r with
   | Return data =>
       Return (response 200 (Binary data) (Some (lit "application/octet-stream")))
   | Raise (NoSuchKey _) => Return (error_response 404 (lit "File not found"))
   | Raise e => Raise e
   end, g, s1, [c]).
Proof.
  unfold download_file. cbn [run].
  destruct (env_reply E _ s) as [[data|[]] s1]; reflexivity.
Qed.

(** In the ideal world authentication leaves the world as it is. *)
Lemma authenticate_ideal_world (event : Event) g (w : World) :
  (run ideal (authenticate event g) w).1.2 = w.
Proof.
  unfold authenticate.
  destruct (_ || _); [reflexivity|].
  destruct (basic_credentials _) as [[n p]|e]; [|reflexivity].
  rewrite run_bind.
  destruct (truthy_users g) eqn:Hg.
  - destruct g as [u|]; [|discriminate]. unfold truthy_users in Hg.
    apply negb_true_iff, bool_decide_eq_false in Hg.
    rewrite (get_users_cached u Hg). cbn [run].
    rewrite run_check_password. reflexivity.
  - rewrite (get_users_fetch ideal g w Hg). cbn [env_reply ideal world_reply].
    rewrite (run_check_password ideal (secret w)). reflexivity.
Qed.

Lemma authenticated_ideal_world (event : Event) g (w : World) folder g1 w1 l :
  authenticated ideal event g w folder g1 w1 l -> w1 = w.
Proof.
  intros [_ [user [_ Ha]]].
  pose proof (authenticate_ideal_world event g w) as H.
  rewrite Ha in H. exact H.
Qed.

Lemma ideal_get_object (w : World) (b key : str) :
  env_reply ideal (GetObject b key) w
  = (match bucket w !! key with
     | Some content => Return content
     | None => Raise no_such_key
     end, w).
Proof. reflexivity. Qed.

Section RoundTrip.

Variable zip_archive : ZipFile.

(** C1 (amended). In the ideal world, let an authenticated PUT request to
    a path ending in [/put] carry the file name [name], not empty, and the
    body [base64(B)], and let it be followed by an authenticated GET
    request of the same user to a path ending in [/get] with the same file
    name. The upload is answered 200 and the download is answered 200 with
    the base64 of the object stored: [B] itself, unless [name] ends with
    [/] and [B] is empty, where the object stored is a single space. *)
Theorem upload_then_download (put_event get_event : Event) g (w : World)
    (folder pre1 pre2 name : str) (B : bytes)
    g1 w1 l1 r1 g2 w2 l2 g3 w3 l3 :
  method_of put_event = lit "PUT" ->
  path_of put_event = pre1 ++ lit "/put" ->
  filename_of put_event = Some name ->
  body put_event = Some (b64encode B) ->
  method_of get_event = lit "GET" ->
  path_of get_event = pre2 ++ lit "/get" ->
  filename_of get_event = Some name ->
  name <> [] ->
  authenticated ideal put_event g w folder g1 w1 l1 ->
  run ideal (lambda_handler zip_archive put_event g) w = ((Return r1, g2), w2, l2) ->
  authenticated ideal get_event g2 w2 folder g3 w3 l3 ->
  let answer := response 200 (Binary (stored name B)) octet_stream in
  statusCode r1 = 200%Z
  /\ bucket w2 !! normalize_key folder name = Some (stored name B)
  /\ run ideal (lambda_handler zip_archive get_event g2) w2
     = ((Return answer, g3), w2,
        l3 ++ [GetObject BUCKET_NAME (normalize_key folder name)])
  /\ statusCode answer = 200%Z
  /\ resp_body answer = b64encode (stored name B)
  /\ (~ (endswith name (lit "/") = true /\ B = []) ->
      resp_body answer = b64encode B).
Proof.
  intros Hm1 Hp1 Hf1 Hb1 Hm2 Hp2 Hf2 Hne Ha1 Hrun Ha2 answer. subst answer.
  pose proof (authenticated_ideal_world _ _ _ _ _ _ _ Ha1) as ->.
  pose proof (authenticated_ideal_world _ _ _ _ _ _ _ Ha2) as ->.
  assert (Hdec : b64decode (default [] (body put_event)) = Return B).
  { rewrite Hb1. apply b64decode_b64encode. }
  rewrite (run_authenticated zip_archive ideal _ _ _ _ _ _ _ Ha1) in Hrun.
  rewrite (route_put zip_archive put_event folder pre1 Hm1 Hp1), Hf1 in Hrun.
  rewrite (run_upload_file ideal put_event folder name B g1 w _ Hne Hdec eq_refl)
    in Hrun.
  cbn [caught] in Hrun. injection Hrun as <- <- <- <-.
  assert (Hget : bucket
            (set_bucket w (<[normalize_key folder name := stored name B]> (bucket w)))
            !! normalize_key folder name = Some (stored name B)).
  { cbn [bucket set_bucket]. apply lookup_insert_eq. }
  repeat apply conj.
  - reflexivity.
  - exact Hget.
  - rewrite (run_authenticated zip_archive ideal _ _ _ _ _ _ _ Ha2).
    rewrite (route_get zip_archive get_event folder pre2 Hm2 Hp2), Hf2.
    destruct name as [|c name]; [contradiction|].
    change (not_ (Some (c :: name))) with false. cbv iota.
    change (val (Some (c :: name))) with (c :: name).
    rewrite run_download_file. cbv zeta. rewrite ideal_get_object.
    match goal with
    | |- context [match ?o with Some _ => _ | None => _ end] =>
        replace o with (Some (stored (c :: name) B))
          by (symmetry; apply lookup_insert_eq)
    end.
    reflexivity.
  - reflexivity.
  - reflexivity.
  - intros Hno. cbn [resp_body response]. unfold stored.
    destruct (endswith name (lit "/")); cbn [andb]; [|reflexivity].
    case_bool_decide as HB; [|reflexivity].
    exfalso. apply Hno. split; [reflexivity | exact HB].
Qed.

End RoundTrip.

(** ** Scenarios for the handler *)

Ltac by_computation := vm_compute; first [reflexivity | discriminate].

Ltac alice_is_authenticated :=
  split; [by_computation
         | exists (lit "alice"); split; by_computation].

Lemma upload_then_download_witness :
  run ideal (lambda_handler no_zip get_doc alice_cache) alice_with_doc
  = ((Return (response 200 (Binary [x68; x69]) octet_stream), alice_cache),
     alice_with_doc, [GetObject BUCKET_NAME (lit "alice/doc.txt")])
  /\ resp_body (response 200 (Binary [x68; x69]) octet_stream) = lit "aGk=".
Proof.
  destruct (upload_then_download no_zip put_doc get_doc None alice_world
              (lit "alice/") (lit "/api") (lit "/api") (lit "doc.txt")
              [x68; x69]
              alice_cache alice_world [GetSecretValue SECRET_NAME]
              (response 200 (Text (uploaded_message (lit "doc.txt"))) None)
              alice_cache alice_with_doc
              [GetSecretValue SECRET_NAME;
               PutObject BUCKET_NAME (lit "alice/doc.txt") [x68; x69]]
              alice_cache alice_with_doc [])
    as (_ & _ & Hrun & _ & Hbody & _);
    [by_computation | by_computation | by_computation | by_computation
    | by_computation | by_computation | by_computation | by_computation
    | alice_is_authenticated | by_computation | alice_is_authenticated |].
  split; [exact Hrun | exact Hbody].
Defined.

(** C1, counterexample. Alice uploads the empty byte string under the
    name [docs/] and downloads it again: both requests are answered 200,
    and the body downloaded is the base64 of one space, not the base64 of
    the empty byte string. *)
Lemma upload_then_download_folder_marker :
  run ideal (serve no_zip [put_folder; get_folder] None) alice_world
  = ((Return
        [response 200
           (Text (lit "Folder " ++ dq ++ lit "docs/" ++ dq ++ lit " created"))
           None;
         response 200 (Binary [x20]) octet_stream], alice_cache),
     set_bucket alice_world (<[lit "alice/docs/" := [x20]]> ∅),
     [GetSecretValue SECRET_NAME;
      PutObject BUCKET_NAME (lit "alice/docs/") [x20];
      GetObject BUCKET_NAME (lit "alice/docs/")])
  /\ resp_body (response 200 (Binary [x20]) octet_stream) = lit "IA=="
  /\ b64encode [] = []
  /\ resp_body (response 200 (Binary [x20]) octet_stream) <> b64encode [].
Proof. repeat apply conj; by_computation. Qed.

Lemma missing_parameter_status_witness :
  run ideal (lambda_handler no_zip put_without_filename None) alice_world
  = ((Return (error_response 400 (lit "Missing filename")), alice_cache),
     alice_world, [GetSecretValue SECRET_NAME]).
Proof.
  refine (proj1 (missing_parameter_status no_zip ideal put_without_filename
                   None alice_world (lit "alice/") alice_cache alice_world
                   [GetSecretValue SECRET_NAME] (lit "/api") _) _ _ _);
    [alice_is_authenticated | by_computation | by_computation | by_computation].
Defined.

(** C4, counterexample. Alice sends GET [/api/get] without [filename]:
    the answer is 405, not 400. *)
Lemma get_without_filename_is_405 :
  filename_of get_without_filename = None
  /\ run ideal (lambda_handler no_zip get_without_filename None) alice_world
     = ((Return (error_response 405 (lit "Unsupported operation")), alice_cache),
        alice_world, [GetSecretValue SECRET_NAME])
  /\ statusCode (error_response 405 (lit "Unsupported operation")) = 405%Z.
Proof. repeat apply conj; by_computation. Qed.

Lemma dispatch_on_method_suffix_and_parameter_witness :
  answered_by no_zip ideal put_anywhere None alice_world alice_cache
    alice_world [GetSecretValue SECRET_NAME]
    (upload_file put_anywhere (lit "alice/") (filename_of put_anywhere)).
Proof.
  refine (proj1 (dispatch_on_method_suffix_and_parameter no_zip ideal
                   put_anywhere None alice_world (lit "alice/") alice_cache
                   alice_world [GetSecretValue SECRET_NAME] (lit "/anything") _)
            _ _);
    [alice_is_authenticated | by_computation | by_computation].
Defined.

(** C5, counterexample. Alice sends DELETE [/api/delete] without
    [filename]: method and path suffix are those of the file deletion, yet
    the request is answered 405 and no delete call is made. *)
Lemma delete_without_filename_is_405 :
  method_of delete_without_filename = lit "DELETE"
  /\ endswith (path_of delete_without_filename) (lit "/delete") = true
  /\ run ideal (lambda_handler no_zip delete_without_filename None) alice_world
     = ((Return unsupported_operation, alice_cache), alice_world,
        [GetSecretValue SECRET_NAME])
  /\ statusCode unsupported_operation = 405%Z.
Proof. repeat apply conj; by_computation. Qed.

(** The suffix test wants the path to end with the suffix: text after
    [/put] makes the request unsupported. *)
Example put_with_trailing_text_is_405 :
  run ideal
    (lambda_handler no_zip
       (request "PUT" "/foo/put/extra" [(lit "filename", lit "doc.txt")] alice
          (Some (lit "aGk="))) None) alice_world
  = ((Return unsupported_operation, alice_cache), alice_world,
     [GetSecretValue SECRET_NAME]).
Proof. by_computation. Qed.

Lemma delete_folder_nothing_listed_witness :
  let answer :=
    response 200
      (Text (lit "Folder " ++ dq ++ lit "sub/" ++ dq ++ lit " deleted")) None in
  run ideal (lambda_handler no_zip delete_sub None) alice_world
  = ((Return answer, alice_cache), alice_world,
     [GetSecretValue SECRET_NAME]
     ++ [ListObjectsV2 BUCKET_NAME (normalize_key (lit "alice/") (lit "sub/")) None])
  /\ statusCode answer = 200%Z
  /\ resp_body answer = lit "Folder " ++ dq ++ lit "sub/" ++ dq ++ lit " deleted"
  /\ Forall (fun c => is_delete_call c = false)
       ([GetSecretValue SECRET_NAME]
        ++ [ListObjectsV2 BUCKET_NAME
              (normalize_key (lit "alice/") (lit "sub/")) None]).
Proof.
  apply (delete_folder_nothing_listed no_zip ideal delete_sub None alice_world
           (lit "alice/") alice_cache alice_world [GetSecretValue SECRET_NAME]
           (lit "/api") (lit "sub/")
           {| Contents := None; CommonPrefixes := None |} alice_world);
    [alice_is_authenticated | by_computation | by_computation | by_computation
    | by_computation | by_computation | by_computation].
Defined.

(** C7, counterexample. Alice sends DELETE [/api/delete-folder] with an
    empty [prefix]; nothing is stored under her folder, so a listing would
    have no [Contents]. The answer is 405, not 200, and no listing is
    made. *)
Lemma delete_folder_empty_prefix_is_405 :
  prefix_of delete_empty_prefix = Some []
  /\ Contents (lister alice_world (bucket alice_world)
                 (normalize_key (lit "alice/") []) None) = None
  /\ run ideal (lambda_handler no_zip delete_empty_prefix None) alice_world
     = ((Return unsupported_operation, alice_cache), alice_world,
        [GetSecretValue SECRET_NAME])
  /\ statusCode unsupported_operation = 405%Z.
Proof. repeat apply conj; by_computation. Qed.

Lemma upload_empty_body_witness :
  run ideal (lambda_handler no_zip put_empty_file None) alice_world
  = ((Return (response 200
                (Text (lit "File " ++ dq ++ lit "empty.txt" ++ dq
                       ++ lit " uploaded")) None), alice_cache),
     set_bucket alice_world (<[lit "alice/empty.txt" := []]> ∅),
     [GetSecretValue SECRET_NAME]
     ++ [PutObject BUCKET_NAME (normalize_key (lit "alice/") (lit "empty.txt")) []]).
Proof.
  refine (proj1 (upload_empty_body no_zip ideal put_empty_file None alice_world
                   (lit "alice/") alice_cache alice_world
                   [GetSecretValue SECRET_NAME] (lit "/api") (lit "empty.txt")
                   _ _ _ _ _) _ _ _ _);
    [alice_is_authenticated | by_computation | by_computation | by_computation
    | by_computation | by_computation | left; by_computation | by_computation].
Defined.

(** C10, counterexample. Alice sends PUT [/api/put] with an empty
    [filename], which does not end with [/], and no body: the answer is
    400 and nothing is stored. *)
Lemma upload_empty_filename_is_400 :
  filename_of put_empty_name = Some []
  /\ endswith [] (lit "/") = false
  /\ body put_empty_name = None
  /\ run ideal (lambda_handler no_zip put_empty_name None) alice_world
     = ((Return (error_response 400 (lit "Missing filename")), alice_cache),
        alice_world, [GetSecretValue SECRET_NAME])
  /\ statusCode (error_response 400 (lit "Missing filename")) = 400%Z.
Proof. repeat apply conj; by_computation. Qed.

Lemma list_files_names_witness :
  run ideal (lambda_handler no_zip list_sub None) alice_files
  = ((Return (response 200
                (Text (json_dumps_list
                         (children_names (lit "alice/") (lit "sub/")
                            [lit "alice/sub/"; lit "alice/sub/a.txt";
                             lit "alice/sub/deep/b.txt"])))
                json_type), alice_cache),
     alice_files,
     [GetSecretValue SECRET_NAME]
     ++ [ListObjectsV2 BUCKET_NAME (normalize_key (lit "alice/") (lit "sub/")) None])
  /\ children_names (lit "alice/") (lit "sub/")
       [lit "alice/sub/"; lit "alice/sub/a.txt"; lit "alice/sub/deep/b.txt"]
     = [lit "a.txt"].
Proof.
  split; [|by_computation].
  refine (proj2 (list_files_names no_zip ideal list_sub None alice_files
                   (lit "alice/") alice_cache alice_files
                   [GetSecretValue SECRET_NAME] (lit "/api")
                   {| Contents := Some [lit "alice/sub/"; lit "alice/sub/a.txt";
                                        lit "alice/sub/deep/b.txt"];
                      CommonPrefixes := None |} alice_files _ _ _ _ _)
            (lit "sub/") _ _ _);
    [alice_is_authenticated | by_computation | by_computation | by_computation
    | vm_compute; repeat constructor | by_computation | by_computation
    | right; by_computation].
Defined.

(** C3, counterexample. Alice sends GET [/api/list-files] with an empty
    [prefix]; the listing under [alice/] includes the key [alice/] itself.
    The names returned are those of the listing without prefix, the empty
    name among them, whereas the rule for a given prefix keeps no empty
    remainder. *)
Lemma list_files_empty_prefix :
  prefix_of list_empty_prefix = Some []
  /\ run ideal (lambda_handler no_zip list_empty_prefix None) alice_files
     = ((Return (response 200
                   (Text (json_dumps_list [[]; lit "top.txt"])) json_type),
         alice_cache),
        alice_files,
        [GetSecretValue SECRET_NAME;
         ListObjectsV2 BUCKET_NAME (lit "alice/") None])
  /\ Contents (lister alice_files (bucket alice_files) (lit "alice/") None)
     = Some alice_keys
  /\ children_names (lit "alice/") [] alice_keys = [lit "top.txt"].
Proof. repeat apply conj; by_computation. Qed.

(** C3, the case left aside. Alice sends GET [/api/list-files] with the
    prefix [alice/sub/], which starts with her folder. The search prefix is
    the prefix as given, and the loop slices each key, the folder stripped,
    at the length of the prefix: of [sub/deep/b.txt] it keeps [.txt]. *)
Lemma list_files_prefix_by_key :
  prefix_of list_sub_by_key = Some (lit "alice/sub/")
  /\ startswith (lit "alice/sub/") (lit "alice/") = true
  /\ run ideal (lambda_handler no_zip list_sub_by_key None) alice_files
     = ((Return (response 200
                   (Text (json_dumps_list [lit ".txt"])) json_type),
         alice_cache),
        alice_files,
        [GetSecretValue SECRET_NAME;
         ListObjectsV2 BUCKET_NAME (lit "alice/sub/") None])
  /\ Contents (lister alice_files (bucket alice_files) (lit "alice/sub/") None)
     = Some sub_keys.
Proof. repeat apply conj; by_computation. Qed.

(** * Part III: further properties of the handler *)

(** ** Footprints *)

Lemma keeps_ret {A} (C : call -> bool) (Q : A -> Prop) (a : A) :
  Q a -> keeps C Q (ret a).
Proof. intros H E g s. cbn. auto. Qed.

Lemma keeps_lift {A} (C : call -> bool) (Q : A -> Prop) (o : outcome A) :
  (forall a, o = Return a -> Q a) -> keeps C Q (lift o).
Proof.
  intros H E g s. cbn. split; [reflexivity|]. split; [constructor|].
  destruct o; [apply H; reflexivity | exact I].
Qed.

Lemma keeps_perform (C : call -> bool) (c : call) :
  C c = true -> keeps C (fun _ => True) (perform c).
Proof.
  intros H E g s. rewrite run_perform.
  destruct (env_reply E c s) as [r s1]. cbn.
  split; [reflexivity|]. split; [repeat constructor; exact H|].
  destruct r; exact I.
Qed.

Lemma keeps_bind {A B} (C : call -> bool) (Q : A -> Prop) (R : B -> Prop)
    (m : py A) (f : A -> py B) :
  keeps C Q m -> (forall a, Q a -> keeps C R (f a)) -> keeps C R (bind m f).
Proof.
  intros Hm Hf E g s. rewrite run_bind.
  specialize (Hm E g s).
  destruct (run E (m g) s) as [[[[a|e] g1] s1] l1]; cbn in Hm;
    destruct Hm as (-> & Hl & Hq).
  - specialize (Hf a Hq E g s1).
    destruct (run E (f a g) s1) as [[[r g2] s2] l2]. cbn in Hf |- *.
    destruct Hf as (-> & Hl2 & Hr).
    split; [reflexivity|]. split; [apply Forall_app; split; assumption | exact Hr].
  - cbn. split; [reflexivity|]. split; [exact Hl | exact I].
Qed.

Lemma keeps_try_except {A} (C : call -> bool) (Q : A -> Prop)
    (m : py A) (h : exn -> py A) :
  keeps C Q m -> (forall e, keeps C Q (h e)) -> keeps C Q (try_except m h).
Proof.
  intros Hm Hh E g s. rewrite run_try_except.
  specialize (Hm E g s).
  destruct (run E (m g) s) as [[[[a|e] g1] s1] l1]; cbn in Hm;
    destruct Hm as (-> & Hl & Hq).
  - cbn. split; [reflexivity|]. split; assumption.
  - specialize (Hh e E g s1).
    destruct (run E (h e g) s1) as [[[r g2] s2] l2]. cbn in Hh |- *.
    destruct Hh as (-> & Hl2 & Hr).
    split; [reflexivity|]. split; [apply Forall_app; split; assumption | exact Hr].
Qed.

Lemma keeps_weaken {A} (C C' : call -> bool) (Q Q' : A -> Prop) (m : py A) :
  (forall c, C c = true -> C' c = true) -> (forall a, Q a -> Q' a) ->
  keeps C Q m -> keeps C' Q' m.
Proof.
  intros HC HQ Hm E g s. specialize (Hm E g s).
  destruct (run E (m g) s) as [[[r g1] s1] l1]. cbn in Hm |- *.
  destruct Hm as (-> & Hl & Hr). split; [reflexivity|]. split.
  - eapply Forall_impl; [exact Hl|]. exact HC.
  - destruct r; [apply HQ, Hr | exact I].
Qed.

Lemma ok_well_formed (b : payload) (ct : option str) :
  well_formed (response 200 b ct).
Proof.
  split; [cbn; tauto|]. split; [eexists; reflexivity | left; reflexivity].
Qed.

Lemma error_well_formed (st : Z) (msg : str) :
  In st statuses -> well_formed (error_response st msg).
Proof.
  intros H. split; [exact H|].
  split; [eexists; reflexivity | right; do 2 eexists; reflexivity].
Qed.

Ltac answer_well_formed :=
  first [apply ok_well_formed | apply error_well_formed; cbn; tauto].

Lemma startswith_refl (s : str) : startswith s s = true.
Proof. rewrite <- (app_nil_r s) at 1. apply startswith_app. Qed.

Lemma reads_under_addressed (folder : str) (c : call) :
  reads_under folder c = true -> addressed folder c = true.
Proof. unfold reads_under. intros H. apply andb_prop in H as [H _]. exact H. Qed.

Lemma keeps_upload_file (event : Event) (folder : str) (filename : option str) :
  keeps (addressed folder) well_formed (upload_file event folder filename).
Proof.
  unfold upload_file. destruct (not_ filename).
  - apply keeps_ret. answer_well_formed.
  - eapply keeps_bind; [apply keeps_lift; intros; exact I|]. intros content _.
    eapply keeps_bind.
    + apply keeps_perform. apply normalize_key_startswith.
    + intros _ _. apply keeps_ret. answer_well_formed.
Qed.

Lemma keeps_download_file (folder filename : str) :
  keeps (reads_under folder) well_formed (download_file folder filename).
Proof.
  intros E g s. rewrite run_download_file. cbv zeta.
  destruct (env_reply E _ s) as [r s1]. cbn [fst snd].
  split; [reflexivity|]. split.
  - repeat constructor.
  - destruct r as [data|[]]; try exact I;
      answer_well_formed.
Qed.

Lemma keeps_list_folders (folder : str) :
  keeps (reads_under folder) well_formed (list_folders folder).
Proof.
  unfold list_folders. eapply keeps_bind.
  - apply keeps_perform. unfold reads_under. cbn [addressed is_write negb].
    rewrite startswith_refl. reflexivity.
  - intros resp _. apply keeps_ret. answer_well_formed.
Qed.

Lemma keeps_list_files (folder : str) (prefix : option str) :
  keeps (reads_under folder) well_formed (list_files folder prefix).
Proof.
  unfold list_files. eapply keeps_bind.
  - apply keeps_perform. unfold reads_under. cbn [addressed is_write negb].
    rewrite normalize_key_startswith. reflexivity.
  - intros resp _. apply keeps_ret. answer_well_formed.
Qed.

Lemma keeps_fetch_entries (zip_archive : ZipFile) (folder : str)
    (keys : list str) (written : list (str * bytes)) :
  keeps (reads_under folder) (fun _ => True)
    (fetch_entries zip_archive folder keys written).
Proof.
  revert written. induction keys as [|key keys IH]; intros written;
    cbn [fetch_entries].
  - apply keeps_ret. exact I.
  - eapply keeps_bind; [apply keeps_perform; reflexivity|]. intros data _.
    eapply keeps_bind; [apply keeps_lift; intros; exact I|]. intros _ _.
    apply IH.
Qed.

Lemma keeps_if {A} (C : call -> bool) (Q : A -> Prop) (b : bool)
    (m1 m2 : py A) :
  keeps C Q m1 -> keeps C Q m2 -> keeps C Q (if b then m1 else m2).
Proof. destruct b; auto. Qed.

Section Footprints.

Variable zip_archive : ZipFile.

Lemma keeps_download_folder (folder prefix : str) :
  keeps (reads_under folder) well_formed
    (download_folder zip_archive folder prefix).
Proof.
  unfold download_folder. eapply keeps_bind.
  - apply keeps_perform. unfold reads_under. cbn [addressed is_write negb].
    rewrite normalize_key_startswith. reflexivity.
  - intros resp _. eapply keeps_bind; [apply keeps_fetch_entries|].
    intros entries _. apply keeps_ret. answer_well_formed.
Qed.

Lemma keeps_delete_file (folder filename : str) :
  keeps (addressed folder) well_formed (delete_file folder filename).
Proof.
  unfold delete_file. apply keeps_try_except.
  - eapply keeps_bind.
    + apply keeps_perform. apply normalize_key_startswith.
    + intros _ _. apply keeps_ret. answer_well_formed.
  - intros e. apply keeps_ret. answer_well_formed.
Qed.

Lemma keeps_delete_folder (folder prefix : str) :
  keeps (addressed folder) well_formed (delete_folder folder prefix).
Proof.
  unfold delete_folder. eapply keeps_bind.
  - apply keeps_perform. apply normalize_key_startswith.
  - intros resp _. destruct (Contents resp) as [keys|].
    + apply keeps_try_except.
      * eapply keeps_bind; [apply keeps_perform; reflexivity|].
        intros _ _. apply keeps_ret. answer_well_formed.
      * intros e. apply keeps_ret. answer_well_formed.
    + apply keeps_ret. answer_well_formed.
Qed.

Lemma keeps_unsupported (C : call -> bool) :
  keeps C well_formed (ret unsupported_operation).
Proof. apply keeps_ret. answer_well_formed. Qed.

Lemma keeps_operation (event : Event) (folder : str) :
  keeps (addressed folder) well_formed (operation zip_archive event folder).
Proof.
  pose proof (reads_under_addressed folder) as Hw.
  unfold operation. cbv zeta.
  set (p := path_of event). set (m := method_of event).
  set (f := negb (not_ (filename_of event))).
  set (x := negb (not_ (prefix_of event))).
  destruct (endswith p (lit "/put") && str_eqb m (lit "PUT"));
    [apply keeps_upload_file|].
  destruct (endswith p (lit "/get") && str_eqb m (lit "GET") && f);
    [apply (keeps_weaken (reads_under folder) (addressed folder)
              well_formed well_formed _ Hw (fun _ H => H)), keeps_download_file|].
  destruct (endswith p (lit "/list") && str_eqb m (lit "GET"));
    [apply (keeps_weaken (reads_under folder) (addressed folder)
              well_formed well_formed _ Hw (fun _ H => H)), keeps_list_folders|].
  destruct (endswith p (lit "/list-files") && str_eqb m (lit "GET"));
    [apply (keeps_weaken (reads_under folder) (addressed folder)
              well_formed well_formed _ Hw (fun _ H => H)), keeps_list_files|].
  destruct (endswith p (lit "/download-folder") && str_eqb m (lit "GET") && x);
    [apply (keeps_weaken (reads_under folder) (addressed folder)
              well_formed well_formed _ Hw (fun _ H => H)), keeps_download_folder|].
  destruct (endswith p (lit "/delete") && str_eqb m (lit "DELETE") && f);
    [apply keeps_delete_file|].
  destruct (endswith p (lit "/delete-folder") && str_eqb m (lit "DELETE") && x);
    [apply keeps_delete_folder|].
  apply keeps_unsupported.
Qed.

Lemma keeps_operation_get (event : Event) (folder : str) :
  method_of event = lit "GET" ->
  keeps (reads_under folder) well_formed (operation zip_archive event folder).
Proof.
  intros Hm. unfold operation. cbv zeta. rewrite Hm.
  change (str_eqb (lit "GET") (lit "PUT")) with false.
  change (str_eqb (lit "GET") (lit "DELETE")) with false.
  change (str_eqb (lit "GET") (lit "GET")) with true.
  rewrite !andb_false_r, !andb_true_r. cbn [andb].
  set (p := path_of event).
  set (f := negb (not_ (filename_of event))).
  set (x := negb (not_ (prefix_of event))).
  destruct (endswith p (lit "/get") && f); [apply keeps_download_file|].
  destruct (endswith p (lit "/list")); [apply keeps_list_folders|].
  destruct (endswith p (lit "/list-files")); [apply keeps_list_files|].
  destruct (endswith p (lit "/download-folder") && x);
    [apply keeps_download_folder|].
  apply keeps_unsupported.
Qed.

End Footprints.

(** ** The handler as a whole *)

Lemma lambda_handler_options (zip_archive : ZipFile)
    (event : Event) g :
  method_of event = lit "OPTIONS" ->
  lambda_handler zip_archive event g
  = Ret (Return (response 200 (Text []) None), g).
Proof. intros H. unfold lambda_handler. rewrite H. reflexivity. Qed.

(** [authenticate] makes no call, or the one call to the secret store. *)
Lemma authenticate_log_shape (E : Env) (event : Event) g s :
  (run E (authenticate event g) s).2 = []
  \/ (run E (authenticate event g) s).2 = [GetSecretValue SECRET_NAME].
Proof.
  unfold authenticate.
  destruct (_ || _); [left; reflexivity|].
  destruct (basic_credentials _) as [[n p]|e]; [|left; reflexivity].
  rewrite run_bind.
  destruct (truthy_users g) eqn:Hg.
  - destruct g as [u|]; [|discriminate]. unfold truthy_users in Hg.
    apply negb_true_iff, bool_decide_eq_false in Hg.
    rewrite (get_users_cached u Hg). cbn [run].
    rewrite run_check_password. left. reflexivity.
  - rewrite (get_users_fetch E g s Hg).
    destruct (env_reply E (GetSecretValue SECRET_NAME) s) as [[u|e] s1].
    + rewrite (run_check_password E u). right. reflexivity.
    + right. reflexivity.
Qed.

Lemma addressed_is_s3_call (folder : str) (c : call) :
  addressed folder c = true -> is_s3_call c = true.
Proof. destruct c; cbn; intros H; try reflexivity; discriminate. Qed.

Lemma reads_under_no_write (folder : str) (c : call) :
  reads_under folder c = true -> is_write c = false.
Proof.
  unfold reads_under. intros H. apply andb_prop in H as [_ H].
  apply negb_true_iff in H. exact H.
Qed.

Lemma no_s3_call_no_write (c : call) : is_s3_call c = false -> is_write c = false.
Proof. destruct c; cbn; intros H; try reflexivity; discriminate. Qed.

(** In the ideal world only the writing calls change the world. *)
Lemma ideal_unchanged {A} (p : prog A) (w : World) :
  Forall (fun c => is_write c = false) (run ideal p w).2 ->
  (run ideal p w).1.2 = w.
Proof.
  revert w. induction p as [a|c k IH]; intros w; cbn [run]; [reflexivity|].
  assert (Hc : is_write c = false -> (env_reply ideal c w).2 = w)
    by (destruct c; cbn; intros H; try reflexivity; discriminate).
  destruct (env_reply ideal c w) as [r w1]. cbn [snd] in Hc.
  specialize (IH r w1). destruct (run ideal (k r) w1) as [[a w2] l].
  cbn [fst snd] in *. intros H. apply Forall_cons in H as [H1 H2].
  rewrite IH by exact H2. apply Hc, H1.
Qed.

Section Whole.

Variable zip_archive : ZipFile.
Variable E : Env.

(** X1. A preflight request is answered at once: status 200, an empty
    body, the CORS headers and nothing else, without reading the
    credentials, without any call and without touching the cache. *)
Theorem options_is_answered_at_once (event : Event) g s :
  method_of event = lit "OPTIONS" ->
  let answer := response 200 (Text []) None in
  run E (lambda_handler zip_archive event g) s = ((Return answer, g), s, [])
  /\ statusCode answer = 200%Z
  /\ resp_body answer = []
  /\ resp_headers answer = CORS_HEADERS
  /\ isBase64Encoded answer = false.
Proof.
  intros H answer. rewrite (lambda_handler_options zip_archive event g H).
  repeat apply conj; reflexivity.
Qed.

Lemma lambda_handler_answer (event : Event) g s :
  exists r g1 s1 l,
    run E (lambda_handler zip_archive event g) s = ((Return r, g1), s1, l)
    /\ well_formed r.
Proof.
  destruct (decide (method_of event = lit "OPTIONS")) as [Hm|Hm].
  - rewrite (lambda_handler_options zip_archive event g Hm).
    do 4 eexists. split; [reflexivity | answer_well_formed].
  - rewrite (run_lambda_handler zip_archive E event g s Hm).
    assert (H401 : well_formed (error_response 401 (lit "Unauthorized")))
      by answer_well_formed.
    destruct (run E (authenticate event g) s)
      as [[[[[[user folder]|]|e] g1] s1] l].
    + destruct (falsy user); [do 4 eexists; split; [reflexivity|exact H401]|].
      pose proof (keeps_operation zip_archive event folder E g1 s1) as Hop.
      destruct (run E (operation zip_archive event folder g1) s1)
        as [[[r g2] s2] l2].
      cbn [fst snd] in Hop. destruct Hop as (_ & _ & Hr).
      do 4 eexists. split; [reflexivity|].
      destruct r as [r|e]; cbn [caught]; [exact Hr | answer_well_formed].
    + do 4 eexists. split; [reflexivity|exact H401].
    + do 4 eexists. split; [reflexivity | answer_well_formed].
Qed.

(** X2. The handler never raises: whatever the event, the cache and the
    replies of the collaborators, it returns a response; the status is one
    of 200, 400, 401, 404, 405 and 500, and the headers start with the
    four CORS headers. *)
Theorem lambda_handler_always_answers (event : Event) g s :
  exists r g1 s1 l,
    run E (lambda_handler zip_archive event g) s = ((Return r, g1), s1, l)
    /\ In (statusCode r) statuses
    /\ exists extra, resp_headers r = CORS_HEADERS ++ extra.
Proof.
  destruct (lambda_handler_answer event g s)
    as (r & g1 & s1 & l & Hrun & Hst & Hh & _).
  exists r, g1, s1, l. auto.
Qed.

(** X23. Every answer other than 200 is a JSON error: its body is the
    JSON object with the one member [error], its content type is
    [application/json] and it is not base64. *)
Theorem failures_are_json_errors (event : Event) g s :
  exists r g1 s1 l,
    run E (lambda_handler zip_archive event g) s = ((Return r, g1), s1, l)
    /\ (statusCode r <> 200%Z ->
        (exists msg, resp_body r = json_dumps_error msg)
        /\ resp_headers r
           = CORS_HEADERS ++ [(lit "Content-Type", lit "application/json")]
        /\ isBase64Encoded r = false).
Proof.
  destruct (lambda_handler_answer event g s)
    as (r & g1 & s1 & l & Hrun & _ & _ & Hshape).
  exists r, g1, s1, l. split; [exact Hrun|]. intros Hne.
  destruct Hshape as [H200 | (st & msg & ->)]; [contradiction|].
  repeat apply conj; [exists msg; reflexivity | reflexivity | reflexivity].
Qed.

(** X3. A request calls the secret store at most once, and before any
    storage call: the calls of a request are storage calls, possibly
    preceded by the one fetch of the secret. *)
Theorem secret_fetched_at_most_once (event : Event) g s :
  exists calls,
    Forall (fun c => is_s3_call c = true) calls
    /\ ((run E (lambda_handler zip_archive event g) s).2 = calls
        \/ (run E (lambda_handler zip_archive event g) s).2
           = GetSecretValue SECRET_NAME :: calls).
Proof.
  destruct (decide (method_of event = lit "OPTIONS")) as [Hm|Hm].
  - rewrite (lambda_handler_options zip_archive event g Hm).
    exists []. split; [constructor | left; reflexivity].
  - rewrite (run_lambda_handler zip_archive E event g s Hm).
    pose proof (authenticate_log_shape E event g s) as Hl.
    destruct (run E (authenticate event g) s)
      as [[[[[[user folder]|]|e] g1] s1] l]; cbn [snd] in Hl.
    + destruct (falsy user).
      * exists []. split; [constructor|]. destruct Hl as [-> | ->]; auto.
      * pose proof (keeps_operation zip_archive event folder E g1 s1) as Hop.
        destruct (run E (operation zip_archive event folder g1) s1)
          as [[[r g2] s2] l2].
        cbn [fst snd] in Hop. destruct Hop as (_ & Hc & _).
        exists l2. split.
        -- eapply Forall_impl; [exact Hc|]. apply addressed_is_s3_call.
        -- destruct Hl as [-> | ->]; auto.
    + exists []. split; [constructor|]. destruct Hl as [-> | ->]; auto.
    + exists []. split; [constructor|]. destruct Hl as [-> | ->]; auto.
Qed.

(** X4. Once the cache holds a directory that is not empty, no request
    calls the secret store and no request changes the cache. *)
Theorem warm_cache_is_kept (event : Event) (u : gmap str user_record) s :
  u ≠ ∅ ->
  (run E (lambda_handler zip_archive event (Some u)) s).1.1.2 = Some u
  /\ Forall (fun c => is_s3_call c = true)
       (run E (lambda_handler zip_archive event (Some u)) s).2.
Proof.
  intros Hu.
  destruct (decide (method_of event = lit "OPTIONS")) as [Hm|Hm].
  - rewrite (lambda_handler_options zip_archive event _ Hm).
    split; [reflexivity | constructor].
  - rewrite (run_lambda_handler zip_archive E event _ s Hm).
    destruct (authenticate_cached event u Hu) as [[[user folder]|] ->];
      cbn [run]; [|split; [reflexivity | constructor]].
    destruct (falsy user); [split; [reflexivity | constructor]|].
    pose proof (keeps_operation zip_archive event folder E (Some u) s) as Hop.
    destruct (run E (operation zip_archive event folder (Some u)) s)
      as [[[r g2] s2] l2].
    cbn [fst snd] in Hop |- *. destruct Hop as (-> & Hc & _).
    split; [reflexivity|].
    eapply Forall_impl; [exact Hc|]. apply addressed_is_s3_call.
Qed.

(** X5. Whatever an authenticated request asks for, the key it puts, the
    key it deletes and the prefix it lists start with the root folder of
    the user. *)
Theorem storage_calls_are_addressed_under_folder (event : Event) g s folder
    g1 s1 l :
  authenticated E event g s folder g1 s1 l ->
  exists calls,
    (run E (lambda_handler zip_archive event g) s).2 = l ++ calls
    /\ Forall (fun c => addressed folder c = true) calls.
Proof.
  intros Ha. rewrite (run_authenticated zip_archive E event g s folder g1 s1 l Ha).
  pose proof (keeps_operation zip_archive event folder E g1 s1) as Hop.
  destruct (run E (operation zip_archive event folder g1) s1)
    as [[[r g2] s2] l2].
  cbn [fst snd] in Hop |- *. destruct Hop as (_ & Hc & _).
  exists l2. split; [reflexivity | exact Hc].
Qed.

Lemma get_log_has_no_write (event : Event) g s :
  method_of event = lit "GET" ->
  Forall (fun c => is_write c = false)
    (run E (lambda_handler zip_archive event g) s).2.
Proof.
  intros Hget.
  assert (Hm : method_of event <> lit "OPTIONS")
    by (rewrite Hget; vm_compute; discriminate).
  rewrite (run_lambda_handler zip_archive E event g s Hm).
  pose proof (authenticate_no_s3_call E event g s) as Hl.
  destruct (run E (authenticate event g) s)
    as [[[[[[user folder]|]|e] g1] s1] l]; cbn [snd] in Hl.
  - assert (Hw : Forall (fun c => is_write c = false) l)
      by (eapply Forall_impl; [exact Hl | apply no_s3_call_no_write]).
    destruct (falsy user); [exact Hw|].
    pose proof (keeps_operation_get zip_archive event folder Hget E g1 s1) as Hop.
    destruct (run E (operation zip_archive event folder g1) s1)
      as [[[r g2] s2] l2].
    cbn [fst snd] in Hop |- *. destruct Hop as (_ & Hc & _).
    apply Forall_app. split; [exact Hw|].
    eapply Forall_impl; [exact Hc|]. apply reads_under_no_write.
  - eapply Forall_impl; [exact Hl | apply no_s3_call_no_write].
  - eapply Forall_impl; [exact Hl | apply no_s3_call_no_write].
Qed.

End Whole.

(** X6. A GET request never writes: authenticated or not, whatever its
    path and parameters, it makes no put and no delete call; in the ideal
    world it leaves the secret and the bucket as they were. *)
Theorem get_never_writes (zip_archive : ZipFile)
    (event : Event) :
  method_of event = lit "GET" ->
  (forall (E : Env) g (s : env_state E),
      Forall (fun c => is_write c = false)
        (run E (lambda_handler zip_archive event g) s).2)
  /\ (forall g (w : World),
        (run ideal (lambda_handler zip_archive event g) w).1.2 = w).
Proof.
  intros Hget. split.
  - intros E g s. apply get_log_has_no_write, Hget.
  - intros g w. apply ideal_unchanged.
    apply (get_log_has_no_write zip_archive ideal event g w Hget).
Qed.

(** ** Responses and keys *)

(** X7. A binary response carries its payload as base64 and says so:
    decoding the body gives the payload back. A text response carries its
    text as it is. *)
Theorem response_body_decodes (status : Z) (data : bytes) (s : str)
    (content_type : option str) :
  b64decode (resp_body (response status (Binary data) content_type))
  = Return data
  /\ isBase64Encoded (response status (Binary data) content_type) = true
  /\ resp_body (response status (Text s) content_type) = s
  /\ isBase64Encoded (response status (Text s) content_type) = false.
Proof.
  repeat apply conj; try reflexivity. apply b64decode_b64encode.
Qed.

Lemma endswith_refl (s : str) : endswith s s = true.
Proof. apply endswith_iff. exists []. reflexivity. Qed.

(** X8. A normalised key starts with the folder and ends with the name
    given; a name may be given with or without the folder in front and
    names the same key. *)
Theorem normalize_key_confines (folder name : str) :
  startswith (normalize_key folder name) folder = true
  /\ endswith (normalize_key folder name) name = true
  /\ (startswith name folder = false ->
      normalize_key folder (folder ++ name) = normalize_key folder name).
Proof.
  repeat apply conj.
  - apply normalize_key_startswith.
  - unfold normalize_key. destruct (startswith name folder).
    + apply endswith_refl.
    + apply endswith_app.
  - intros H. unfold normalize_key. rewrite H, startswith_app. reflexivity.
Qed.

(** X9. Whatever is listed, a name returned by the list-files operation
    contains no [/], and is not empty when a prefix that is not empty was
    given; no more names are returned than keys were listed. *)
Theorem list_files_loop_names (folder : str) (prefix : option str)
    (keys : list str) :
  Forall (fun name => contains 47%N name = false
                      /\ (not_ prefix = false -> name <> []))
    (list_files_loop folder prefix keys)
  /\ length (list_files_loop folder prefix keys) <= length keys.
Proof.
  induction keys as [|key keys [IH1 IH2]]; cbn [list_files_loop].
  - split; [constructor | reflexivity].
  - destruct (not_ prefix) eqn:Hp.
    + destruct (contains 47%N (replace1 folder [] key)) eqn:Hc; cbn [negb app].
      * split; [exact IH1 | cbn; lia].
      * split; [|cbn; lia]. constructor; [|exact IH1].
        split; [exact Hc | discriminate].
    + destruct (drop (length (val prefix)) (replace1 folder [] key))
        as [|c rest] eqn:Hd; cbn [falsy negb andb app].
      * split; [exact IH1 | cbn; lia].
      * destruct (contains 47%N (c :: rest)) eqn:Hc; cbn [negb app].
        -- split; [exact IH1 | cbn; lia].
        -- split; [|cbn; lia]. constructor; [|exact IH1].
           split; [exact Hc | discriminate].
Qed.

(** ** The operations one by one *)

Lemma not_given (name : str) : name <> [] -> not_ (Some name) = false.
Proof. destruct name; [contradiction | reflexivity]. Qed.

Lemma run_delete_file (E : Env) (folder name : str) g s :
  run E (delete_file folder name g) s =
  let c := DeleteObject BUCKET_NAME (normalize_key folder name) in
  let '(r, s1) := env_reply E c s in
  ((Return match r with
           | Return _ =>
               response 200
                 (Text (lit "File " ++ dq ++ name ++ dq ++ lit " deleted")) None
           | Raise e => error_response 500 (str_exn e)
           end, g), s1, [c]).
Proof.
  unfold delete_file. rewrite run_try_except, run_bind, run_perform. cbv zeta.
  destruct (env_reply E _ s) as [[[]|e] s1]; reflexivity.
Qed.

Lemma run_list_folders (E : Env) (folder : str) g s :
  run E (list_folders folder g) s =
  let c := ListObjectsV2 BUCKET_NAME folder (Some (lit "/")) in
  let '(r, s1) := env_reply E c s in
  (match r with
   | Return resp =>
       Return (response 200
                 (Text (json_dumps_list
                          (map (replace1 folder [])
                             (default [] (CommonPrefixes resp))))) json_type)
   | Raise e => Raise e
   end, g, s1, [c]).
Proof.
  unfold list_folders. rewrite run_bind, run_perform. cbv zeta.
  destruct (env_reply E _ s) as [[resp|e] s1]; reflexivity.
Qed.

Lemma run_delete_folder (E : Env) (folder p : str) g s :
  run E (delete_folder folder p g) s =
  let c := ListObjectsV2 BUCKET_NAME (normalize_key folder p) None in
  let deleted :=
    response 200 (Text (lit "Folder " ++ dq ++ p ++ dq ++ lit " deleted")) None in
  let '(r, s1) := env_reply E c s in
  match r with
  | Raise e => ((Raise e, g), s1, [c])
  | Return resp =>
      match Contents resp with
      | None => ((Return deleted, g), s1, [c])
      | Some keys =>
          let d := DeleteObjects BUCKET_NAME keys in
          let '(r2, s2) := env_reply E d s1 in
          ((Return match r2 with
                   | Return _ => deleted
                   | Raise e => error_response 500 (str_exn e)
                   end, g), s2, [c; d])
      end
  end.
Proof.
  unfold delete_folder. rewrite run_bind, run_perform. cbv zeta.
  destruct (env_reply E _ s) as [[resp|e] s1]; [|reflexivity].
  destruct (Contents resp) as [keys|]; [|reflexivity].
  rewrite run_try_except, run_bind, run_perform.
  destruct (env_reply E _ s1) as [[[]|e] s2]; reflexivity.
Qed.

Lemma run_list_files_failure (E : Env) (folder : str) (prefix : option str)
    g s e s1 :
  env_reply E (ListObjectsV2 BUCKET_NAME
                 (normalize_key folder (default [] prefix)) None) s
  = (Raise e, s1) ->
  run E (list_files folder prefix g) s
  = ((Raise e, g), s1,
     [ListObjectsV2 BUCKET_NAME (normalize_key folder (default [] prefix)) None]).
Proof.
  intros H. unfold list_files.
  replace (if not_ prefix then [] else val prefix) with (default [] prefix)
    by (destruct prefix as [[|c p]|]; reflexivity).
  rewrite run_bind, run_perform, H. reflexivity.
Qed.

Section Outcomes.

Variable zip_archive : ZipFile.
Variable E : Env.

(** X10. The three outcomes of a download. For an authenticated GET
    request to a path ending in [/get] with a [filename] that is not
    empty, the object at the normalised key is fetched, and nothing else:
    its content is returned with status 200 as [application/octet-stream];
    a missing key is answered 404 with the error [File not found]; any
    other failure of the fetch is answered 500 with the text of the
    exception. *)
Theorem download_outcomes (event : Event) g s folder g1 s1 l (pre name : str)
    (r : outcome bytes) s2 :
  authenticated E event g s folder g1 s1 l ->
  method_of event = lit "GET" ->
  path_of event = pre ++ lit "/get" ->
  filename_of event = Some name -> name <> [] ->
  env_reply E (GetObject BUCKET_NAME (normalize_key folder name)) s1 = (r, s2) ->
  exists answer,
    run E (lambda_handler zip_archive event g) s
    = ((Return answer, g1), s2,
       l ++ [GetObject BUCKET_NAME (normalize_key folder name)])
    /\ (forall data, r = Return data ->
        answer = response 200 (Binary data) octet_stream)
    /\ (forall m, r = Raise (NoSuchKey m) ->
        answer = error_response 404 (lit "File not found"))
    /\ (forall e, r = Raise e -> (forall m, e <> NoSuchKey m) ->
        answer = error_response 500 (str_exn e)).
Proof.
  intros Ha Hm Hp Hf Hne Hr.
  rewrite (run_authenticated zip_archive E event g s folder g1 s1 l Ha).
  rewrite (route_get zip_archive event folder pre Hm Hp), Hf, (not_given _ Hne).
  change (val (Some name)) with name.
  rewrite run_download_file. cbv zeta. rewrite Hr.
  eexists. split; [reflexivity|]. repeat apply conj.
  - intros data ->. reflexivity.
  - intros m ->. reflexivity.
  - intros e -> He. destruct e; try reflexivity. exfalso. exact (He _ eq_refl).
Qed.

(** X11. The two outcomes of a file deletion. For an authenticated DELETE
    request to a path ending in [/delete] with a [filename] that is not
    empty, the one call made is the deletion of the normalised key: if it
    returns, the answer is 200 with the message [File "<filename>"
    deleted]; if it raises, whatever the exception, the answer is 500 with
    the text of the exception. *)
Theorem delete_outcomes (event : Event) g s folder g1 s1 l (pre name : str)
    (r : outcome unit) s2 :
  authenticated E event g s folder g1 s1 l ->
  method_of event = lit "DELETE" ->
  path_of event = pre ++ lit "/delete" ->
  filename_of event = Some name -> name <> [] ->
  env_reply E (DeleteObject BUCKET_NAME (normalize_key folder name)) s1 = (r, s2) ->
  exists answer,
    run E (lambda_handler zip_archive event g) s
    = ((Return answer, g1), s2,
       l ++ [DeleteObject BUCKET_NAME (normalize_key folder name)])
    /\ (r = Return tt ->
        answer = response 200
                   (Text (lit "File " ++ dq ++ name ++ dq ++ lit " deleted"))
                   None)
    /\ (forall e, r = Raise e -> answer = error_response 500 (str_exn e)).
Proof.
  intros Ha Hm Hp Hf Hne Hr.
  rewrite (run_authenticated zip_archive E event g s folder g1 s1 l Ha).
  rewrite (route_delete zip_archive event folder pre Hm Hp), Hf, (not_given _ Hne).
  change (val (Some name)) with name.
  rewrite run_delete_file. cbv zeta. rewrite Hr.
  eexists. split; [reflexivity|]. split.
  - intros ->. reflexivity.
  - intros e ->. reflexivity.
Qed.

(** X12. Listing folders. For an authenticated GET request to a path
    ending in [/list], the one call made lists under the user's folder
    with the delimiter [/]; the answer is 200 with the JSON list of the
    common prefixes, in the order of the listing, each without the folder
    in front; without common prefixes the list is empty. The files of the
    listing are not reported. *)
Theorem list_folders_names (event : Event) g s folder g1 s1 l (pre : str)
    (resp : list_response) s2 :
  authenticated E event g s folder g1 s1 l ->
  method_of event = lit "GET" ->
  path_of event = pre ++ lit "/list" ->
  env_reply E (ListObjectsV2 BUCKET_NAME folder (Some (lit "/"))) s1
  = (Return resp, s2) ->
  Forall (fun p => startswith p folder = true) (default [] (CommonPrefixes resp)) ->
  run E (lambda_handler zip_archive event g) s
  = ((Return (response 200
                (Text (json_dumps_list
                         (map (drop (length folder))
                            (default [] (CommonPrefixes resp))))) json_type),
      g1), s2, l ++ [ListObjectsV2 BUCKET_NAME folder (Some (lit "/"))])
  /\ (CommonPrefixes resp = None ->
      json_dumps_list (map (drop (length folder)) (default [] (CommonPrefixes resp)))
      = lit "[]").
Proof.
  intros Ha Hm Hp Hr Hs. split.
  - rewrite (run_authenticated zip_archive E event g s folder g1 s1 l Ha).
    rewrite (route_list zip_archive event folder pre Hm Hp).
    rewrite run_list_folders. cbv zeta. rewrite Hr. cbn [caught].
    assert (Hmap : map (replace1 folder []) (default [] (CommonPrefixes resp))
                   = map (drop (length folder)) (default [] (CommonPrefixes resp))).
    { induction Hs as [|p ps Hp1 _ IH]; cbn [map]; [reflexivity|].
      rewrite (replace1_leading _ _ Hp1), IH. reflexivity. }
    rewrite Hmap. reflexivity.
  - intros ->. reflexivity.
Qed.

(** X13. A body that is not base64 is answered 500, and nothing is
    stored: for an authenticated PUT request to a path ending in [/put]
    with a [filename] that is not empty, when decoding the body raises,
    the answer carries the text of the exception and no storage call is
    made. *)
Theorem upload_malformed_body (event : Event) g s folder g1 s1 l
    (pre name : str) (e : exn) :
  authenticated E event g s folder g1 s1 l ->
  method_of event = lit "PUT" ->
  path_of event = pre ++ lit "/put" ->
  filename_of event = Some name -> name <> [] ->
  b64decode (default [] (body event)) = Raise e ->
  run E (lambda_handler zip_archive event g) s
  = ((Return (error_response 500 (str_exn e)), g1), s1, l).
Proof.
  intros Ha Hm Hp Hf Hne Hb.
  rewrite (run_authenticated zip_archive E event g s folder g1 s1 l Ha).
  rewrite (route_put zip_archive event folder pre Hm Hp), Hf.
  unfold upload_file. rewrite (not_given _ Hne). cbv beta iota zeta.
  rewrite run_bind. unfold lift at 1. cbn [run]. rewrite Hb.
  rewrite app_nil_r. reflexivity.
Qed.

(** X14. Deleting a folder with objects in it. For an authenticated
    DELETE request to a path ending in [/delete-folder] with a [prefix]
    that is not empty, when the listing under the normalised prefix has
    [Contents], exactly the listed keys are handed to one batch deletion,
    in the order of the listing: if it returns, the answer is 200 with the
    message [Folder "<prefix>" deleted]; if it raises, the answer is 500
    with the text of the exception. *)
Theorem delete_folder_outcomes (event : Event) g s folder g1 s1 l
    (pre p : str) (resp : list_response) (keys : list str) s2
    (r : outcome unit) s3 :
  authenticated E event g s folder g1 s1 l ->
  method_of event = lit "DELETE" ->
  path_of event = pre ++ lit "/delete-folder" ->
  prefix_of event = Some p -> p <> [] ->
  env_reply E (ListObjectsV2 BUCKET_NAME (normalize_key folder p) None) s1
  = (Return resp, s2) ->
  Contents resp = Some keys ->
  env_reply E (DeleteObjects BUCKET_NAME keys) s2 = (r, s3) ->
  exists answer,
    run E (lambda_handler zip_archive event g) s
    = ((Return answer, g1), s3,
       l ++ [ListObjectsV2 BUCKET_NAME (normalize_key folder p) None;
             DeleteObjects BUCKET_NAME keys])
    /\ (r = Return tt ->
        answer = response 200
                   (Text (lit "Folder " ++ dq ++ p ++ dq ++ lit " deleted"))
                   None)
    /\ (forall e, r = Raise e -> answer = error_response 500 (str_exn e)).
Proof.
  intros Ha Hm Hp Hf Hne Hl Hc Hd.
  rewrite (run_authenticated zip_archive E event g s folder g1 s1 l Ha).
  rewrite (route_delete_folder zip_archive event folder pre Hm Hp), Hf,
    (not_given _ Hne).
  change (val (Some p)) with p.
  rewrite run_delete_folder. cbv zeta. rewrite Hl, Hc, Hd.
  eexists. split; [reflexivity|]. split.
  - intros ->. reflexivity.
  - intros e ->. reflexivity.
Qed.

(** X15. A listing that fails is answered 500. For an authenticated
    request to one of the four operations that list (folders, files,
    folder download, folder deletion), when the listing raises, the
    answer is 500 with the text of the exception, and the listing is the
    only storage call: nothing is fetched and nothing is deleted. *)
Theorem listing_failure_is_500 (event : Event) g s folder g1 s1 l
    (pre : str) (e : exn) s2 :
  authenticated E event g s folder g1 s1 l ->
  let failed prefix delimiter :=
    env_reply E (ListObjectsV2 BUCKET_NAME prefix delimiter) s1 = (Raise e, s2) in
  let answered prefix delimiter :=
    run E (lambda_handler zip_archive event g) s
    = ((Return (error_response 500 (str_exn e)), g1), s2,
       l ++ [ListObjectsV2 BUCKET_NAME prefix delimiter]) in
  (method_of event = lit "GET" -> path_of event = pre ++ lit "/list" ->
   failed folder (Some (lit "/")) -> answered folder (Some (lit "/")))
  /\ (method_of event = lit "GET" -> path_of event = pre ++ lit "/list-files" ->
      failed (normalize_key folder (default [] (prefix_of event))) None ->
      answered (normalize_key folder (default [] (prefix_of event))) None)
  /\ (forall p, method_of event = lit "GET" ->
      path_of event = pre ++ lit "/download-folder" ->
      prefix_of event = Some p -> p <> [] ->
      failed (normalize_key folder p) None ->
      answered (normalize_key folder p) None)
  /\ (forall p, method_of event = lit "DELETE" ->
      path_of event = pre ++ lit "/delete-folder" ->
      prefix_of event = Some p -> p <> [] ->
      failed (normalize_key folder p) None ->
      answered (normalize_key folder p) None).
Proof.
  intros Ha failed answered. subst failed answered. cbv beta.
  rewrite (run_authenticated zip_archive E event g s folder g1 s1 l Ha).
  repeat apply conj.
  - intros Hm Hp Hr. rewrite (route_list zip_archive event folder pre Hm Hp).
    rewrite run_list_folders. cbv zeta. rewrite Hr. reflexivity.
  - intros Hm Hp Hr.
    rewrite (route_list_files zip_archive event folder pre Hm Hp).
    rewrite (run_list_files_failure E folder _ g1 s1 e s2 Hr). reflexivity.
  - intros p Hm Hp Hf Hne Hr.
    rewrite (route_download_folder zip_archive event folder pre Hm Hp), Hf,
      (not_given _ Hne).
    change (val (Some p)) with p. unfold download_folder.
    rewrite run_bind, run_perform, Hr. reflexivity.
  - intros p Hm Hp Hf Hne Hr.
    rewrite (route_delete_folder zip_archive event folder pre Hm Hp), Hf,
      (not_given _ Hne).
    change (val (Some p)) with p.
    rewrite run_delete_folder. cbv zeta. rewrite Hr. reflexivity.
Qed.

(** X16. A secret store that fails is answered 500, not 401. When the
    header carries a user name and a password, the cache holds no
    directory and the fetch of the secret raises, the handler answers 500
    with the text of the exception, leaves the cache as it was and makes
    no storage call. *)
Theorem secret_failure_is_500 (event : Event) g s (encoded u p : str)
    (e : exn) s1 :
  method_of event <> lit "OPTIONS" ->
  authorization event = Some (lit "Basic " ++ encoded) ->
  basic_credentials (lit "Basic " ++ encoded) = Return (u, p) ->
  truthy_users g = false ->
  env_reply E (GetSecretValue SECRET_NAME) s = (Raise e, s1) ->
  run E (lambda_handler zip_archive event g) s
  = ((Return (error_response 500 (str_exn e)), g), s1,
     [GetSecretValue SECRET_NAME]).
Proof.
  intros Hm Hh Hc Hg Hr.
  rewrite (run_lambda_handler zip_archive E event g s Hm).
  rewrite (authenticate_basic _ _ _ Hh), Hc, run_bind.
  rewrite (get_users_fetch E g s Hg), Hr. reflexivity.
Qed.

(** X17. A user whose name is empty is turned away. When [authenticate]
    accepts the credentials of a directory entry with the empty user
    name, the handler still answers 401 with the error [Unauthorized] and
    makes no storage call. *)
Theorem empty_user_name_is_401 (event : Event) g s (folder : str) g1 s1 l :
  method_of event <> lit "OPTIONS" ->
  run E (authenticate event g) s = ((Return (Some ([], folder)), g1), s1, l) ->
  run E (lambda_handler zip_archive event g) s
  = ((Return (error_response 401 (lit "Unauthorized")), g1), s1, l)
  /\ Forall (fun c => is_s3_call c = false) l.
Proof.
  intros Hm Ha. split.
  - rewrite (run_lambda_handler zip_archive E event g s Hm), Ha. reflexivity.
  - pose proof (authenticate_no_s3_call E event g s) as H.
    rewrite Ha in H. exact H.
Qed.

End Outcomes.

(** ** The operations in the ideal world *)

Lemma ideal_delete_object (w : World) (b key : str) :
  env_reply ideal (DeleteObject b key) w
  = (Return tt, set_bucket w (delete key (bucket w))).
Proof. reflexivity. Qed.

Lemma ideal_list_objects (w : World) (b prefix : str) (d : option str) :
  env_reply ideal (ListObjectsV2 b prefix d) w
  = (Return (lister w (bucket w) prefix d), w).
Proof. reflexivity. Qed.

Lemma ideal_delete_objects (w : World) (b : str) (keys : list str) :
  env_reply ideal (DeleteObjects b keys) w
  = (Return tt, set_bucket w (foldr delete (bucket w) keys)).
Proof. reflexivity. Qed.

Lemma lookup_foldr_delete (m : gmap str bytes) (keys : list str) (k : str) :
  foldr delete m keys !! k = if decide (k ∈ keys) then None else m !! k.
Proof.
  induction keys as [|key keys IH]; cbn [foldr].
  - rewrite decide_False by apply not_elem_of_nil. reflexivity.
  - destruct (decide (key = k)) as [->|Hne].
    + rewrite lookup_delete_eq, decide_True by apply list_elem_of_here.
      reflexivity.
    + rewrite lookup_delete_ne by exact Hne. rewrite IH.
      destruct (decide (k ∈ keys)) as [Hin|Hout].
      * rewrite decide_True by (apply list_elem_of_further, Hin). reflexivity.
      * rewrite decide_False; [reflexivity|].
        intros H. apply elem_of_cons in H as [->|H]; contradiction.
Qed.

Lemma run_fetch_entries_ideal (zf : ZipFile) (folder : str)
    (before rest : list str) (written : list (str * bytes)) g (w : World) :
  Forall (fun key => is_Some (bucket w !! key)) before ->
  accepts zf written (archive_entries folder (bucket w) before) ->
  run ideal (fetch_entries zf folder (before ++ rest) written g) w
  = let '(x, w1, calls) :=
      run ideal
        (fetch_entries zf folder rest
           (written ++ archive_entries folder (bucket w) before) g) w in
    (x, w1, map (GetObject BUCKET_NAME) before ++ calls).
Proof.
  intros H. revert written.
  induction H as [|key before [content Hk] _ IH]; intros written Hacc.
  - cbn [app archive_entries map]. rewrite app_nil_r.
    destruct (run ideal (fetch_entries zf folder rest written g) w)
      as [[x w1] calls]. reflexivity.
  - cbn [archive_entries map accepts] in Hacc. destruct Hacc as [Hw Hacc].
    cbn [app fetch_entries]. rewrite run_bind, run_perform, ideal_get_object.
    match goal with
    | |- context [match ?o with Some _ => _ | None => _ end] =>
        replace o with (Some content) by (symmetry; exact Hk)
    end.
    rewrite Hk in Hw, Hacc.
    change (default [] (Some content)) with content in Hw, Hacc.
    cbv zeta. rewrite run_bind. unfold lift at 1. cbn [run]. rewrite Hw.
    cbn [value]. rewrite (IH _ Hacc).
    unfold archive_entries at 2. cbn [map]. rewrite Hk.
    change (default [] (Some content)) with content.
    rewrite <- app_assoc. cbn [app].
    destruct (run ideal _ w) as [[x w1] calls]. reflexivity.
Qed.

Section IdealOperations.

Variable zip_archive : ZipFile.

(** X18. Deleting, then downloading. In the ideal world, after an
    authenticated DELETE request to a path ending in [/delete] for a file
    name that is not empty, which is answered 200 whether or not the
    object existed, the object is gone and no other object is touched; an
    authenticated GET request of the same user for the same file name is
    answered 404 with the error [File not found]. *)
Theorem delete_then_download (delete_event get_event : Event) g (w : World)
    (folder pre1 pre2 name : str) g1 w1 l1 r1 g2 w2 l2 g3 w3 l3 :
  method_of delete_event = lit "DELETE" ->
  path_of delete_event = pre1 ++ lit "/delete" ->
  filename_of delete_event = Some name ->
  method_of get_event = lit "GET" ->
  path_of get_event = pre2 ++ lit "/get" ->
  filename_of get_event = Some name ->
  name <> [] ->
  authenticated ideal delete_event g w folder g1 w1 l1 ->
  run ideal (lambda_handler zip_archive delete_event g) w
  = ((Return r1, g2), w2, l2) ->
  authenticated ideal get_event g2 w2 folder g3 w3 l3 ->
  r1 = response 200
         (Text (lit "File " ++ dq ++ name ++ dq ++ lit " deleted")) None
  /\ bucket w2 = delete (normalize_key folder name) (bucket w)
  /\ run ideal (lambda_handler zip_archive get_event g2) w2
     = ((Return (error_response 404 (lit "File not found")), g3), w2,
        l3 ++ [GetObject BUCKET_NAME (normalize_key folder name)]).
Proof.
  intros Hm1 Hp1 Hf1 Hm2 Hp2 Hf2 Hne Ha1 Hrun Ha2.
  pose proof (authenticated_ideal_world _ _ _ _ _ _ _ Ha1) as ->.
  pose proof (authenticated_ideal_world _ _ _ _ _ _ _ Ha2) as ->.
  rewrite (run_authenticated zip_archive ideal _ _ _ _ _ _ _ Ha1) in Hrun.
  rewrite (route_delete zip_archive delete_event folder pre1 Hm1 Hp1), Hf1,
    (not_given _ Hne) in Hrun.
  change (val (Some name)) with name in Hrun.
  rewrite run_delete_file in Hrun. cbv zeta in Hrun.
  rewrite ideal_delete_object in Hrun. cbn [caught] in Hrun.
  injection Hrun as <- <- <- <-.
  repeat apply conj; [reflexivity | reflexivity |].
  rewrite (run_authenticated zip_archive ideal _ _ _ _ _ _ _ Ha2).
  rewrite (route_get zip_archive get_event folder pre2 Hm2 Hp2), Hf2,
    (not_given _ Hne).
  change (val (Some name)) with name.
  rewrite run_download_file. cbv zeta. rewrite ideal_get_object.
  match goal with
  | |- context [match ?o with Some _ => _ | None => _ end] =>
      replace o with (@None bytes) by (symmetry; apply lookup_delete_eq)
  end.
  reflexivity.
Qed.

(** X19. An upload and a file deletion touch one key. In the ideal world,
    after an authenticated PUT request to a path ending in [/put] or
    DELETE request to a path ending in [/delete], whatever its file name
    and body and whatever the answer, every object other than the one at
    the normalised key is as it was, and so is the secret. *)
Theorem single_object_operations_touch_one_key (event : Event) g (w : World)
    (folder pre : str) g1 w1 l :
  authenticated ideal event g w folder g1 w1 l ->
  (method_of event = lit "PUT" /\ path_of event = pre ++ lit "/put")
  \/ (method_of event = lit "DELETE" /\ path_of event = pre ++ lit "/delete") ->
  let after := (run ideal (lambda_handler zip_archive event g) w).1.2 in
  secret after = secret w
  /\ forall key,
       key <> normalize_key folder (val (filename_of event)) ->
       bucket after !! key = bucket w !! key.
Proof.
  intros Ha Hop after. subst after.
  pose proof (authenticated_ideal_world _ _ _ _ _ _ _ Ha) as ->.
  rewrite (run_authenticated zip_archive ideal _ _ _ _ _ _ _ Ha).
  destruct Hop as [[Hm Hp] | [Hm Hp]].
  - rewrite (route_put zip_archive event folder pre Hm Hp).
    unfold upload_file. destruct (not_ (filename_of event));
      [split; [reflexivity | intros; reflexivity]|].
    cbv beta iota zeta.
    rewrite run_bind. unfold lift at 1. cbn [run].
    destruct (b64decode (default [] (body event))) as [content|e];
      [|split; [reflexivity | intros; reflexivity]].
    rewrite run_bind, run_perform. cbn [env_reply ideal world_reply].
    cbn [ret run fst snd secret set_bucket bucket].
    split; [reflexivity|]. intros key Hkey.
    apply lookup_insert_ne. congruence.
  - rewrite (route_delete zip_archive event folder pre Hm Hp).
    destruct (not_ (filename_of event));
      [split; [reflexivity | intros; reflexivity]|].
    rewrite run_delete_file. cbv zeta. rewrite ideal_delete_object.
    cbn [fst snd secret set_bucket bucket].
    split; [reflexivity|]. intros key Hkey.
    apply lookup_delete_ne. congruence.
Qed.

(** X20. Downloading a folder. In the ideal world, for an authenticated
    GET request to a path ending in [/download-folder] with a [prefix]
    that is not empty, when every listed key is in the bucket and the
    archive takes every entry: the keys are fetched one by one in the order
    of the listing, the answer is 200 with the archive, as
    [application/zip], of one entry per listed key, named by the key
    without the folder in front and holding the content of the object, and
    the bucket is left as it was. *)
Theorem download_folder_archives_the_listing (event : Event) g (w : World)
    (folder pre p : str) g1 w1 l :
  authenticated ideal event g w folder g1 w1 l ->
  method_of event = lit "GET" ->
  path_of event = pre ++ lit "/download-folder" ->
  prefix_of event = Some p -> p <> [] ->
  let listing := ListObjectsV2 BUCKET_NAME (normalize_key folder p) None in
  let keys :=
    default [] (Contents (lister w (bucket w) (normalize_key folder p) None)) in
  Forall (fun key => is_Some (bucket w !! key)) keys ->
  accepts zip_archive [] (archive_entries folder (bucket w) keys) ->
  run ideal (lambda_handler zip_archive event g) w
  = ((Return (response 200
                (Binary (archive_bytes zip_archive
                           (archive_entries folder (bucket w) keys)))
                (Some (lit "application/zip"))), g1), w,
     l ++ listing :: map (GetObject BUCKET_NAME) keys).
Proof.
  intros Ha Hm Hp Hf Hne listing keys Hk Hacc.
  pose proof (authenticated_ideal_world _ _ _ _ _ _ _ Ha) as ->.
  rewrite (run_authenticated zip_archive ideal _ _ _ _ _ _ _ Ha).
  rewrite (route_download_folder zip_archive event folder pre Hm Hp), Hf,
    (not_given _ Hne).
  change (val (Some p)) with p. unfold download_folder.
  rewrite run_bind, run_perform, ideal_list_objects. fold keys.
  pose proof (run_fetch_entries_ideal zip_archive folder keys [] [] g1 w
                Hk Hacc) as Hrun.
  rewrite app_nil_r in Hrun. cbn [fetch_entries ret run app] in Hrun.
  rewrite run_bind, Hrun.
  cbn [ret run caught]. rewrite !app_nil_r. reflexivity.
Qed.

(** X21. A folder download does not catch a missing object. In the ideal
    world, for an authenticated GET request to a path ending in
    [/download-folder] with a [prefix] that is not empty, when the listed
    keys before [key] are in the bucket and the archive takes their
    entries, and [key] is listed and not in the bucket: the answer is 500
    with the text of the missing-key exception (and not 404, as for the
    download of a file), no key listed after [key] is fetched, and the
    bucket is left as it was. *)
Theorem download_folder_missing_object_is_500 (event : Event) g (w : World)
    (folder pre p : str) g1 w1 l (before : list str) (key : str)
    (after : list str) :
  authenticated ideal event g w folder g1 w1 l ->
  method_of event = lit "GET" ->
  path_of event = pre ++ lit "/download-folder" ->
  prefix_of event = Some p -> p <> [] ->
  let listing := ListObjectsV2 BUCKET_NAME (normalize_key folder p) None in
  default [] (Contents (lister w (bucket w) (normalize_key folder p) None))
  = before ++ key :: after ->
  Forall (fun key => is_Some (bucket w !! key)) before ->
  accepts zip_archive [] (archive_entries folder (bucket w) before) ->
  bucket w !! key = None ->
  run ideal (lambda_handler zip_archive event g) w
  = ((Return (error_response 500 (str_exn no_such_key)), g1), w,
     l ++ listing :: map (GetObject BUCKET_NAME) (before ++ [key])).
Proof.
  intros Ha Hm Hp Hf Hne listing Hkeys Hk Hacc Hmiss.
  pose proof (authenticated_ideal_world _ _ _ _ _ _ _ Ha) as ->.
  rewrite (run_authenticated zip_archive ideal _ _ _ _ _ _ _ Ha).
  rewrite (route_download_folder zip_archive event folder pre Hm Hp), Hf,
    (not_given _ Hne).
  change (val (Some p)) with p. unfold download_folder.
  rewrite run_bind, run_perform, ideal_list_objects, Hkeys.
  rewrite run_bind,
    (run_fetch_entries_ideal zip_archive folder before (key :: after) [] g1 w
       Hk Hacc).
  cbn [fetch_entries]. rewrite run_bind, run_perform, ideal_get_object.
  match goal with
  | |- context [match ?o with Some _ => _ | None => _ end] =>
      replace o with (@None bytes) by (symmetry; exact Hmiss)
  end.
  cbn [caught]. rewrite map_app. reflexivity.
Qed.

(** X25. A folder download does not catch a failure of the archive. In
    the ideal world, for an authenticated GET request to a path ending in
    [/download-folder] with a [prefix] that is not empty, when the listed
    keys before [key] are in the bucket and the archive takes their
    entries, and the archive raises on the entry of the listed object
    [key]: the answer is 500 with the text of that exception, no key
    listed after [key] is fetched, and the bucket is left as it was. *)
Theorem download_folder_archive_failure_is_500 (event : Event) g (w : World)
    (folder pre p : str) g1 w1 l (before : list str) (key : str)
    (after : list str) (data : bytes) (e : exn) :
  authenticated ideal event g w folder g1 w1 l ->
  method_of event = lit "GET" ->
  path_of event = pre ++ lit "/download-folder" ->
  prefix_of event = Some p -> p <> [] ->
  let listing := ListObjectsV2 BUCKET_NAME (normalize_key folder p) None in
  let written := archive_entries folder (bucket w) before in
  default [] (Contents (lister w (bucket w) (normalize_key folder p) None))
  = before ++ key :: after ->
  Forall (fun key => is_Some (bucket w !! key)) before ->
  accepts zip_archive [] written ->
  bucket w !! key = Some data ->
  writestr zip_archive written (replace1 folder [] key) data = Raise e ->
  run ideal (lambda_handler zip_archive event g) w
  = ((Return (error_response 500 (str_exn e)), g1), w,
     l ++ listing :: map (GetObject BUCKET_NAME) (before ++ [key])).
Proof.
  intros Ha Hm Hp Hf Hne listing written Hkeys Hk Hacc Hdata Hw.
  pose proof (authenticated_ideal_world _ _ _ _ _ _ _ Ha) as ->.
  rewrite (run_authenticated zip_archive ideal _ _ _ _ _ _ _ Ha).
  rewrite (route_download_folder zip_archive event folder pre Hm Hp), Hf,
    (not_given _ Hne).
  change (val (Some p)) with p. unfold download_folder.
  rewrite run_bind, run_perform, ideal_list_objects, Hkeys.
  rewrite run_bind,
    (run_fetch_entries_ideal zip_archive folder before (key :: after) [] g1 w
       Hk Hacc).
  cbn [fetch_entries app]. fold written.
  rewrite run_bind, run_perform, ideal_get_object.
  match goal with
  | |- context [match ?o with Some _ => _ | None => _ end] =>
      replace o with (Some data) by (symmetry; exact Hdata)
  end.
  cbv zeta. rewrite run_bind. unfold lift at 1. cbn [run]. rewrite Hw.
  cbn [caught]. rewrite map_app, app_nil_r. reflexivity.
Qed.

(** X22. Deleting a folder removes what was listed, and nothing else. In
    the ideal world, for an authenticated DELETE request to a path ending
    in [/delete-folder] with a [prefix] that is not empty, when the
    listing under the normalised prefix has [Contents], the answer is 200,
    every listed key is gone afterwards and every other object is as it
    was. *)
Theorem delete_folder_removes_the_listing (event : Event) g (w : World)
    (folder pre p : str) (keys : list str) g1 w1 l :
  authenticated ideal event g w folder g1 w1 l ->
  method_of event = lit "DELETE" ->
  path_of event = pre ++ lit "/delete-folder" ->
  prefix_of event = Some p -> p <> [] ->
  Contents (lister w (bucket w) (normalize_key folder p) None) = Some keys ->
  exists after,
    run ideal (lambda_handler zip_archive event g) w
    = ((Return (response 200
                  (Text (lit "Folder " ++ dq ++ p ++ dq ++ lit " deleted"))
                  None), g1), after,
       l ++ [ListObjectsV2 BUCKET_NAME (normalize_key folder p) None;
             DeleteObjects BUCKET_NAME keys])
    /\ secret after = secret w
    /\ (forall key, key ∈ keys -> bucket after !! key = None)
    /\ (forall key, key ∉ keys -> bucket after !! key = bucket w !! key).
Proof.
  intros Ha Hm Hp Hf Hne Hc.
  pose proof (authenticated_ideal_world _ _ _ _ _ _ _ Ha) as ->.
  rewrite (run_authenticated zip_archive ideal _ _ _ _ _ _ _ Ha).
  rewrite (route_delete_folder zip_archive event folder pre Hm Hp), Hf,
    (not_given _ Hne).
  change (val (Some p)) with p.
  rewrite run_delete_folder. cbv zeta.
  rewrite ideal_list_objects, Hc, ideal_delete_objects.
  eexists. split; [reflexivity|]. cbn [secret bucket set_bucket].
  repeat apply conj.
  - reflexivity.
  - intros key Hin. rewrite lookup_foldr_delete, decide_True by exact Hin.
    reflexivity.
  - intros key Hout. rewrite lookup_foldr_delete, decide_False by exact Hout.
    reflexivity.
Qed.

End IdealOperations.

(** ** Scenarios for the further properties *)

Lemma options_is_answered_at_once_witness :
  let answer := response 200 (Text []) None in
  run ideal (lambda_handler no_zip options_request None) alice_world
  = ((Return answer, None), alice_world, [])
  /\ statusCode answer = 200%Z
  /\ resp_body answer = []
  /\ resp_headers answer = CORS_HEADERS
  /\ isBase64Encoded answer = false.
Proof.
  apply (options_is_answered_at_once no_zip ideal options_request None
           alice_world).
  by_computation.
Defined.

Lemma warm_cache_is_kept_witness :
  (run ideal (lambda_handler no_zip put_doc alice_cache) alice_world).1.1.2
  = alice_cache
  /\ Forall (fun c => is_s3_call c = true)
       (run ideal (lambda_handler no_zip put_doc alice_cache) alice_world).2.
Proof.
  apply (warm_cache_is_kept no_zip ideal put_doc (secret alice_world)
           alice_world).
  by_computation.
Defined.

Lemma storage_calls_are_addressed_under_folder_witness :
  exists calls,
    (run ideal (lambda_handler no_zip put_doc None) alice_world).2
    = [GetSecretValue SECRET_NAME] ++ calls
    /\ Forall (fun c => addressed (lit "alice/") c = true) calls.
Proof.
  apply (storage_calls_are_addressed_under_folder no_zip ideal put_doc None
           alice_world (lit "alice/") alice_cache alice_world
           [GetSecretValue SECRET_NAME]).
  alice_is_authenticated.
Defined.

Lemma get_never_writes_witness :
  (forall (E : Env) g (s : env_state E),
      Forall (fun c => is_write c = false)
        (run E (lambda_handler no_zip get_doc g) s).2)
  /\ (forall g (w : World),
        (run ideal (lambda_handler no_zip get_doc g) w).1.2 = w).
Proof.
  apply (get_never_writes no_zip get_doc). by_computation.
Defined.

Lemma download_outcomes_witness :
  exists answer,
    run ideal (lambda_handler no_zip get_doc None) alice_world
    = ((Return answer, alice_cache), alice_world,
       [GetSecretValue SECRET_NAME]
       ++ [GetObject BUCKET_NAME (normalize_key (lit "alice/") (lit "doc.txt"))])
    /\ answer = error_response 404 (lit "File not found").
Proof.
  destruct (download_outcomes no_zip ideal get_doc None alice_world
              (lit "alice/") alice_cache alice_world
              [GetSecretValue SECRET_NAME] (lit "/api") (lit "doc.txt")
              (Raise no_such_key)
              alice_world)
    as (answer & Hrun & _ & H404 & _);
    [alice_is_authenticated | by_computation | by_computation | by_computation
    | by_computation | by_computation |].
  exists answer. split; [exact Hrun | exact (H404 _ eq_refl)].
Defined.

Lemma delete_outcomes_witness :
  exists answer,
    run ideal (lambda_handler no_zip delete_doc None) alice_with_doc
    = ((Return answer, alice_cache), alice_world,
       [GetSecretValue SECRET_NAME]
       ++ [DeleteObject BUCKET_NAME (normalize_key (lit "alice/") (lit "doc.txt"))])
    /\ answer
       = response 200
           (Text (lit "File " ++ dq ++ lit "doc.txt" ++ dq ++ lit " deleted"))
           None.
Proof.
  destruct (delete_outcomes no_zip ideal delete_doc None alice_with_doc
              (lit "alice/") alice_cache alice_with_doc
              [GetSecretValue SECRET_NAME] (lit "/api") (lit "doc.txt")
              (Return tt) alice_world)
    as (answer & Hrun & H200 & _);
    [alice_is_authenticated | by_computation | by_computation | by_computation
    | by_computation | by_computation |].
  exists answer. split; [exact Hrun | exact (H200 eq_refl)].
Defined.

Lemma list_folders_names_witness :
  run ideal (lambda_handler no_zip list_folders_request None) alice_folders
  = ((Return (response 200
                (Text (json_dumps_list
                         (map (drop (length (lit "alice/")))
                            [lit "alice/docs/"; lit "alice/sub/"]))) json_type),
      alice_cache), alice_folders,
     [GetSecretValue SECRET_NAME]
     ++ [ListObjectsV2 BUCKET_NAME (lit "alice/") (Some (lit "/"))])
  /\ map (drop (length (lit "alice/"))) [lit "alice/docs/"; lit "alice/sub/"]
     = [lit "docs/"; lit "sub/"].
Proof.
  split; [|by_computation].
  refine (proj1 (list_folders_names no_zip ideal list_folders_request None
                   alice_folders (lit "alice/") alice_cache alice_folders
                   [GetSecretValue SECRET_NAME] (lit "/api")
                   {| Contents := Some [lit "alice/top.txt"];
                      CommonPrefixes :=
                        Some [lit "alice/docs/"; lit "alice/sub/"] |}
                   alice_folders _ _ _ _ _));
    [alice_is_authenticated | by_computation | by_computation | by_computation
    | vm_compute; repeat constructor].
Defined.

Lemma upload_malformed_body_witness :
  run ideal (lambda_handler no_zip put_malformed None) alice_world
  = ((Return (error_response 500
                (str_exn (BinasciiError (lit "Incorrect padding")))),
      alice_cache), alice_world, [GetSecretValue SECRET_NAME]).
Proof.
  apply (upload_malformed_body no_zip ideal put_malformed None alice_world
           (lit "alice/") alice_cache alice_world [GetSecretValue SECRET_NAME]
           (lit "/api") (lit "doc.txt"));
    [alice_is_authenticated | by_computation | by_computation | by_computation
    | by_computation | by_computation].
Defined.

Lemma delete_folder_outcomes_witness :
  exists answer,
    run ideal (lambda_handler no_zip delete_sub None) alice_files
    = ((Return answer, alice_cache),
       set_bucket alice_files (foldr delete (bucket alice_files) sub_keys),
       [GetSecretValue SECRET_NAME]
       ++ [ListObjectsV2 BUCKET_NAME
             (normalize_key (lit "alice/") (lit "sub/")) None;
           DeleteObjects BUCKET_NAME sub_keys])
    /\ answer
       = response 200
           (Text (lit "Folder " ++ dq ++ lit "sub/" ++ dq ++ lit " deleted"))
           None.
Proof.
  destruct (delete_folder_outcomes no_zip ideal delete_sub None alice_files
              (lit "alice/") alice_cache alice_files
              [GetSecretValue SECRET_NAME] (lit "/api") (lit "sub/")
              {| Contents := Some sub_keys; CommonPrefixes := None |}
              sub_keys alice_files (Return tt)
              (set_bucket alice_files
                 (foldr delete (bucket alice_files) sub_keys)))
    as (answer & Hrun & H200 & _);
    [alice_is_authenticated | by_computation | by_computation | by_computation
    | by_computation | by_computation | by_computation | by_computation |].
  exists answer. split; [exact Hrun | exact (H200 eq_refl)].
Defined.

Lemma listing_failure_is_500_witness :
  run broken_bucket (lambda_handler no_zip list_folders_request None) tt
  = ((Return (error_response 500 (str_exn outage_error)), alice_cache), tt,
     [GetSecretValue SECRET_NAME]
     ++ [ListObjectsV2 BUCKET_NAME (lit "alice/") (Some (lit "/"))]).
Proof.
  refine (proj1 (listing_failure_is_500 no_zip broken_bucket
                   list_folders_request None tt (lit "alice/") alice_cache tt
                   [GetSecretValue SECRET_NAME] (lit "/api") outage_error tt _)
            _ _ _);
    [alice_is_authenticated | by_computation | by_computation | by_computation].
Defined.

Lemma secret_failure_is_500_witness :
  run outage (lambda_handler no_zip get_doc None) tt
  = ((Return (error_response 500 (str_exn outage_error)), None), tt,
     [GetSecretValue SECRET_NAME]).
Proof.
  apply (secret_failure_is_500 no_zip outage get_doc None tt
           (b64encode (default [] (utf8_encode (lit "alice:wonderland"))))
           (lit "alice") (lit "wonderland") outage_error tt);
    by_computation.
Defined.

Lemma empty_user_name_is_401_witness :
  run ideal (lambda_handler no_zip nameless_request None) nameless_world
  = ((Return (error_response 401 (lit "Unauthorized")),
      Some (secret nameless_world)), nameless_world,
     [GetSecretValue SECRET_NAME])
  /\ Forall (fun c => is_s3_call c = false) [GetSecretValue SECRET_NAME].
Proof.
  apply (empty_user_name_is_401 no_zip ideal nameless_request None
           nameless_world (lit "root/") (Some (secret nameless_world))
           nameless_world [GetSecretValue SECRET_NAME]);
    by_computation.
Defined.

Lemma delete_then_download_witness :
  run ideal (lambda_handler no_zip get_doc alice_cache)
    (set_bucket alice_with_doc
       (delete (lit "alice/doc.txt") (bucket alice_with_doc)))
  = ((Return (error_response 404 (lit "File not found")), alice_cache),
     set_bucket alice_with_doc
       (delete (lit "alice/doc.txt") (bucket alice_with_doc)),
     [] ++ [GetObject BUCKET_NAME (normalize_key (lit "alice/") (lit "doc.txt"))]).
Proof.
  refine (proj2 (proj2 (delete_then_download no_zip delete_doc get_doc None
              alice_with_doc (lit "alice/") (lit "/api") (lit "/api")
              (lit "doc.txt")
              alice_cache alice_with_doc [GetSecretValue SECRET_NAME]
              (response 200
                 (Text (lit "File " ++ dq ++ lit "doc.txt" ++ dq
                        ++ lit " deleted")) None)
              alice_cache
              (set_bucket alice_with_doc
                 (delete (lit "alice/doc.txt") (bucket alice_with_doc)))
              [GetSecretValue SECRET_NAME;
               DeleteObject BUCKET_NAME (lit "alice/doc.txt")]
              alice_cache
              (set_bucket alice_with_doc
                 (delete (lit "alice/doc.txt") (bucket alice_with_doc)))
              [] _ _ _ _ _ _ _ _ _ _)));
    [by_computation | by_computation | by_computation | by_computation
    | by_computation | by_computation | by_computation
    | alice_is_authenticated | by_computation | alice_is_authenticated].
Defined.

Lemma single_object_operations_touch_one_key_witness :
  let after := (run ideal (lambda_handler no_zip put_doc None) alice_files).1.2 in
  secret after = secret alice_files
  /\ forall key,
       key <> normalize_key (lit "alice/") (val (filename_of put_doc)) ->
       bucket after !! key = bucket alice_files !! key.
Proof.
  apply (single_object_operations_touch_one_key no_zip put_doc None alice_files
           (lit "alice/") (lit "/api") alice_cache alice_files
           [GetSecretValue SECRET_NAME]);
    [alice_is_authenticated | left; split; by_computation].
Defined.

Lemma download_folder_archives_the_listing_witness :
  run ideal (lambda_handler strict_zip download_sub None) alice_files
  = ((Return (response 200
                (Binary (archive_bytes strict_zip
                           (archive_entries (lit "alice/")
                              (bucket alice_files) sub_keys)))
                (Some (lit "application/zip"))), alice_cache), alice_files,
     [GetSecretValue SECRET_NAME]
     ++ ListObjectsV2 BUCKET_NAME (normalize_key (lit "alice/") (lit "sub/")) None
        :: map (GetObject BUCKET_NAME) sub_keys)
  /\ map fst (archive_entries (lit "alice/") (bucket alice_files) sub_keys)
     = [lit "sub/"; lit "sub/a.txt"; lit "sub/deep/b.txt"].
Proof.
  split; [|by_computation].
  refine (download_folder_archives_the_listing strict_zip download_sub None
            alice_files (lit "alice/") (lit "/api") (lit "sub/") alice_cache
            alice_files [GetSecretValue SECRET_NAME] _ _ _ _ _ _ _);
    [alice_is_authenticated | by_computation | by_computation | by_computation
    | by_computation | vm_compute; repeat constructor; eexists; reflexivity
    | vm_compute; repeat split].
Defined.

Lemma download_folder_missing_object_is_500_witness :
  run ideal (lambda_handler strict_zip download_sub None) partly_stale
  = ((Return (error_response 500 (str_exn no_such_key)), alice_cache),
     partly_stale,
     [GetSecretValue SECRET_NAME]
     ++ ListObjectsV2 BUCKET_NAME (normalize_key (lit "alice/") (lit "sub/")) None
        :: map (GetObject BUCKET_NAME)
             ([lit "alice/sub/"] ++ [lit "alice/sub/a.txt"])).
Proof.
  refine (download_folder_missing_object_is_500 strict_zip download_sub None
            partly_stale (lit "alice/") (lit "/api") (lit "sub/") alice_cache
            partly_stale [GetSecretValue SECRET_NAME] [lit "alice/sub/"]
            (lit "alice/sub/a.txt") [lit "alice/sub/deep/b.txt"]
            _ _ _ _ _ _ _ _ _);
    [alice_is_authenticated | by_computation | by_computation | by_computation
    | by_computation | by_computation
    | vm_compute; repeat constructor; eexists; reflexivity
    | vm_compute; repeat split | by_computation].
Defined.

Lemma download_folder_archive_failure_is_500_witness :
  run ideal (lambda_handler strict_zip download_root None) alice_files
  = ((Return (error_response 500 (lit "string index out of range")),
      alice_cache), alice_files,
     [GetSecretValue SECRET_NAME]
     ++ ListObjectsV2 BUCKET_NAME (lit "alice/") None
        :: map (GetObject BUCKET_NAME) ([] ++ [lit "alice/"])).
Proof.
  refine (download_folder_archive_failure_is_500 strict_zip download_root None
            alice_files (lit "alice/") (lit "/api") (lit "alice/") alice_cache
            alice_files [GetSecretValue SECRET_NAME] []
            (lit "alice/")
            [lit "alice/sub/"; lit "alice/sub/a.txt";
             lit "alice/sub/deep/b.txt"; lit "alice/top.txt"]
            [x20] (IndexError (lit "string index out of range"))
            _ _ _ _ _ _ _ _ _ _);
    [alice_is_authenticated | by_computation | by_computation | by_computation
    | by_computation | by_computation | constructor | exact I
    | by_computation | by_computation].
Defined.

Lemma delete_folder_removes_the_listing_witness :
  exists after,
    run ideal (lambda_handler no_zip delete_sub None) alice_files
    = ((Return (response 200
                  (Text (lit "Folder " ++ dq ++ lit "sub/" ++ dq
                         ++ lit " deleted")) None), alice_cache), after,
       [GetSecretValue SECRET_NAME]
       ++ [ListObjectsV2 BUCKET_NAME
             (normalize_key (lit "alice/") (lit "sub/")) None;
           DeleteObjects BUCKET_NAME sub_keys])
    /\ secret after = secret alice_files
    /\ (forall key, key ∈ sub_keys -> bucket after !! key = None)
    /\ (forall key, key ∉ sub_keys ->
        bucket after !! key = bucket alice_files !! key).
Proof.
  apply (delete_folder_removes_the_listing no_zip delete_sub None alice_files
           (lit "alice/") (lit "/api") (lit "sub/") sub_keys alice_cache
           alice_files [GetSecretValue SECRET_NAME]);
    [alice_is_authenticated | by_computation | by_computation | by_computation
    | by_computation | by_computation].
Defined.

(** ** Who gets in *)

Lemma split1_inv (sep : N) (s u p : str) :
  split1 sep s = [u; p] -> s = u ++ sep :: p /\ contains sep u = false.
Proof.
  revert u. induction s as [|c s IH]; intros u; cbn [split1].
  - discriminate.
  - destruct (N.eqb_spec c sep) as [->|Hne].
    + intros [= <- <-]. split; reflexivity.
    + destruct (split1 sep s) as [|h t]; [discriminate|].
      intros [= <- ->]. destruct (IH h eq_refl) as [-> Hh].
      split; [reflexivity|]. cbn [contains existsb].
      unfold contains in Hh. rewrite Hh, orb_false_r.
      apply N.eqb_neq. congruence.
Qed.

(** X24. Nobody gets in without a matching entry of the directory. When
    [authenticate] returns a user and a folder, the header is ["Basic "]
    followed by text that decodes, as base64 and then as UTF-8, to the
    user name, a colon and a password; the user name has no colon; the
    directory that [get_users] returned holds the user with exactly this
    password; and the folder returned is the root folder stored for the
    user. *)
Theorem authenticate_sound (E : Env) (event : Event) g s (u f : str) g1 s1 l :
  run E (authenticate event g) s = ((Return (Some (u, f)), g1), s1, l) ->
  exists encoded data p dir r,
    authorization event = Some (lit "Basic " ++ encoded)
    /\ b64decode encoded = Return data
    /\ utf8_decode data = Some (u ++ 58%N :: p)
    /\ contains 58%N u = false
    /\ run E (get_users g) s = ((Return dir, g1), s1, l)
    /\ dir !! u = Some r
    /\ password r = p
    /\ root_folder r = f.
Proof.
  intros H.
  destruct (authorization event) as [auth|] eqn:Hauth;
    [|rewrite (authenticate_no_header event g Hauth) in H; discriminate].
  destruct (startswith auth (lit "Basic ")) eqn:Hs;
    [|rewrite (authenticate_not_basic event auth g Hauth Hs) in H;
      discriminate].
  apply startswith_inv in Hs.
  set (encoded := drop (length (lit "Basic ")) auth) in Hs.
  rewrite Hs in Hauth.
  rewrite (authenticate_basic event encoded g Hauth),
    basic_credentials_encoded in H.
  destruct (b64decode encoded) as [data|e] eqn:Hb; [|discriminate].
  destruct (utf8_decode data) as [raw|] eqn:Hd; [|discriminate].
  destruct (split1 58%N raw) as [|n [|p [|x t]]] eqn:Hsp; try discriminate.
  apply split1_inv in Hsp as [-> Hn].
  rewrite run_bind in H.
  destruct (run E (get_users g) s) as [[[[dir|e] g'] s'] l'] eqn:Hg;
    [|discriminate].
  rewrite run_check_password, app_nil_r in H.
  destruct (dir !! n) as [r|] eqn:Hr; [|discriminate].
  unfold str_eqb in H. case_bool_decide as Hp; [|discriminate].
  injection H as <- <- <- <- <-.
  exists encoded, data, p, dir, r. repeat apply conj; auto.
  f_equal. exact Hs.
Qed.

Lemma authenticate_sound_witness :
  exists encoded data p dir r,
    authorization get_doc = Some (lit "Basic " ++ encoded)
    /\ b64decode encoded = Return data
    /\ utf8_decode data = Some (lit "alice" ++ 58%N :: p)
    /\ contains 58%N (lit "alice") = false
    /\ run ideal (get_users None) alice_world
       = ((Return dir, alice_cache), alice_world, [GetSecretValue SECRET_NAME])
    /\ dir !! lit "alice" = Some r
    /\ password r = p
    /\ root_folder r = lit "alice/".
Proof.
  apply (authenticate_sound ideal get_doc None alice_world (lit "alice")
           (lit "alice/") alice_cache alice_world [GetSecretValue SECRET_NAME]).
  by_computation.
Defined.
